(** * UTMDASH: the filtering, grouping and aggregation pipeline of the dashboard

    Shallow embedding of the data pipeline of the [Dashboard] React component
    (the file whose grouping trims its keys and sorts by sale count, and
    [src/components/Dashboard.tsx], whose grouping keeps role-specific
    placeholders and sorts by revenue), followed by the properties stated for
    it.

    Conventions.
    - A JavaScript number is an IEEE-754 binary64 value: Rocq's primitive
      [float].  Counters that only ever hold array indices or row counts
      ([_id], [salesCount]) are exact integers below 2^53 and are kept in
      [nat] / [Z].
    - A string is a [string]; its characters stand for the code units.
    - A row is a finite map from header names to cells; an absent key reads
      as [undefined] (properties inherited from [Object.prototype] are left
      out for rows: names such as "constructor" are not considered as
      headers).  The objects in which the charts accumulate under keys taken
      from the cells are read through the prototype chain.
    - A [Date] object is its time value: [Some t] (milliseconds since the
      epoch, UTC) or [None] for an Invalid Date (time value NaN).
    - The built-ins of the host that the component calls but does not define
      (number/string conversion, case mapping, trimming, the date-string
      parser, the local time zone) are the fields of the class [Runtime].
    - One run of the filter reads the clock once: every [new Date()] of the
      run yields the same instant, the parameter [clock]. *)

From Stdlib Require Import ZArith List String Ascii Bool Lia Permutation Sorted.
From Stdlib Require Uint63.
From Stdlib Require Import PrimFloat FloatOps SpecFloat.
From stdpp Require Import base option list gmap strings.

Local Open Scope string_scope.
Local Open Scope Z_scope.
Local Set Warnings "-inexact-float".

(** ** Strings *)

Module Str.

(** [s.startsWith(p)] *)
Fixpoint startsWith (s p : string) : bool :=
  match p, s with
  | EmptyString, _ => true
  | String _ _, EmptyString => false
  | String b p', String a s' => Ascii.eqb a b && startsWith s' p'
  end.

(** [s.includes(sub)] *)
Fixpoint includes (s sub : string) : bool :=
  startsWith s sub
  || match s with
     | EmptyString => false
     | String _ s' => includes s' sub
     end.

(** [s.split(sep)] for a one-character separator. *)
Fixpoint split (sep : ascii) (s : string) : list string :=
  match s with
  | EmptyString => [EmptyString]
  | String c s' =>
      let r := split sep s' in
      if Ascii.eqb c sep then EmptyString :: r
      else match r with
           | hd :: tl => String c hd :: tl
           | [] => [String c EmptyString]
           end
  end.

(** [s.split(sep)[0]]: always defined, [split] never returns [[]]. *)
Definition splitHead (sep : ascii) (s : string) : string :=
  match split sep s with
  | hd :: _ => hd
  | [] => EmptyString
  end.

(** [arr.includes(x)] on an array of strings. *)
Definition arrayIncludes (arr : list string) (x : string) : bool :=
  existsb (String.eqb x) arr.

(** A string is truthy when it is not empty. *)
Definition truthy (s : string) : bool :=
  match s with
  | EmptyString => false
  | String _ _ => true
  end.

(** ASCII case folding: what [toLowerCase] does to a string all of whose
    code units are below 128. *)
Definition lowerAscii (c : ascii) : ascii :=
  let n := nat_of_ascii c in
  if (Nat.leb 65 n && Nat.leb n 90)%bool then ascii_of_nat (n + 32) else c.

Fixpoint asciiLower (s : string) : string :=
  match s with
  | EmptyString => EmptyString
  | String c s' => String (lowerAscii c) (asciiLower s')
  end.

Fixpoint isAscii (s : string) : bool :=
  match s with
  | EmptyString => true
  | String c s' => Nat.ltb (nat_of_ascii c) 128 && isAscii s'
  end.

End Str.

(** ** Numbers *)

Module Num.

(** [ToBoolean] on a number: NaN, +0 and -0 are falsy. *)
Definition truthy (x : float) : bool := negb (is_nan x || is_zero x).

(** [x || 0] *)
Definition orZero (x : float) : float := if truthy x then x else 0%float.

(** The number that holds an array index or a count. *)
Definition ofNat (n : nat) : float := of_uint63 (Uint63.of_Z (Z.of_nat n)).

(** Truncation of a finite number to an integer ([ToIntegerOrInfinity] on
    finite input); [None] for NaN and the infinities. *)
Definition finiteInteger (x : float) : option Z :=
  match Prim2SF x with
  | S754_zero _ => Some 0
  | S754_finite s m e =>
      let v := match e with
               | Z0 => Zpos m
               | Zpos p => Zpos m * 2 ^ Zpos p
               | Zneg p => Zpos m / 2 ^ Zpos p
               end in
      Some (if s then - v else v)
  | S754_infinity _ | S754_nan => None
  end.

End Num.

(** ** Cells and rows *)

(** A cell read out of a row: a string, a number, or [undefined] for a key
    the row does not have. *)
Inductive value :=
  | VUndefined
  | VString (s : string)
  | VNumber (n : float).

(** ** The host's built-ins *)

Class Runtime := {
  (** [Number(s)] on a string. *)
  StringToNumber : string -> float;
  (** [String(n)] on a number. *)
  NumberToString : float -> string;
  (** [s.toLowerCase()] *)
  toLowerCase : string -> string;
  (** [s.trim()] *)
  trim : string -> string;
  (** The time value of [new Date(s)]; [None] when the string is not
      recognised (time value NaN). *)
  DateParse : string -> option Z;
  (** Offset of local time from UTC, in milliseconds (a zone without
      daylight-saving transitions). *)
  LocalTZA : Z;
  (** Case mapping leaves the ASCII range to the ASCII rule. *)
  toLowerCase_ascii :
    forall s, Str.isAscii s = true -> toLowerCase s = Str.asciiLower s
}.

Section Coercions.
Context `{Runtime}.

(** [String(v)] *)
Definition ToString (v : value) : string :=
  match v with
  | VUndefined => "undefined"
  | VString s => s
  | VNumber n => NumberToString n
  end.

(** [Number(v)] *)
Definition ToNumber (v : value) : float :=
  match v with
  | VUndefined => nan
  | VString s => StringToNumber s
  | VNumber n => n
  end.

(** [ToBoolean(v)] *)
Definition ToBoolean (v : value) : bool :=
  match v with
  | VUndefined => false
  | VString s => Str.truthy s
  | VNumber n => Num.truthy n
  end.

(** [v || fallback], then [String(...)]. *)
Definition stringOr (v : value) (fallback : string) : string :=
  if ToBoolean v then ToString v else fallback.

End Coercions.


(** ** Dates

    The time-value arithmetic of ECMAScript (sections "Time Values and Time
    Range", "Day Number and Time within Day", "Year Number", "Month Number",
    "Date Number", [MakeTime], [MakeDay], [MakeDate], [TimeClip]), on exact
    integers. *)

Module JSDate.

Definition msPerDay : Z := 86400000.

Definition Day (t : Z) : Z := t / msPerDay.

Definition TimeWithinDay (t : Z) : Z := t mod msPerDay.

Definition DaysInYear (y : Z) : Z :=
  if negb (y mod 4 =? 0) then 365
  else if negb (y mod 100 =? 0) then 366
  else if negb (y mod 400 =? 0) then 365
  else 366.

(** Day number of the first day of year [y]. *)
Definition DayFromYear (y : Z) : Z :=
  365 * (y - 1970) + (y - 1969) / 4 - (y - 1901) / 100 + (y - 1601) / 400.

(** 1 in a leap year, 0 otherwise. *)
Definition InLeapYear (y : Z) : Z := if DaysInYear y =? 366 then 1 else 0.

(** The largest year whose first day is not after day [d]: the estimate
    from the mean year length is off by at most one, and is corrected by
    looking at its neighbours. *)
Definition YearFromDay (d : Z) : Z :=
  let y0 := 1970 + (d * 400) / 146097 in
  if DayFromYear (y0 + 2) <=? d then y0 + 2
  else if DayFromYear (y0 + 1) <=? d then y0 + 1
  else if DayFromYear y0 <=? d then y0
  else if DayFromYear (y0 - 1) <=? d then y0 - 1
  else y0 - 2.

(** Day within the year at which month [m] (0 = January) starts. *)
Definition monthStart (m leap : Z) : Z :=
  match m with
  | 0 => 0
  | 1 => 31
  | 2 => 59 + leap
  | 3 => 90 + leap
  | 4 => 120 + leap
  | 5 => 151 + leap
  | 6 => 181 + leap
  | 7 => 212 + leap
  | 8 => 243 + leap
  | 9 => 273 + leap
  | 10 => 304 + leap
  | _ => 334 + leap
  end.

(** Month (0..11) of the day numbered [dwy] within its year. *)
Definition monthOfDayInYear (dwy leap : Z) : Z :=
  if dwy <? 31 then 0
  else if dwy <? 59 + leap then 1
  else if dwy <? 90 + leap then 2
  else if dwy <? 120 + leap then 3
  else if dwy <? 151 + leap then 4
  else if dwy <? 181 + leap then 5
  else if dwy <? 212 + leap then 6
  else if dwy <? 243 + leap then 7
  else if dwy <? 273 + leap then 8
  else if dwy <? 304 + leap then 9
  else if dwy <? 334 + leap then 10
  else 11.

Definition YearFromTime (t : Z) : Z := YearFromDay (Day t).

Definition DayWithinYear (t : Z) : Z := Day t - DayFromYear (YearFromTime t).

Definition MonthFromTime (t : Z) : Z :=
  monthOfDayInYear (DayWithinYear t) (InLeapYear (YearFromTime t)).

Definition DateFromTime (t : Z) : Z :=
  DayWithinYear t
  - monthStart (MonthFromTime t) (InLeapYear (YearFromTime t)) + 1.

Definition MakeTime (hour min sec ms : Z) : Z :=
  hour * 3600000 + min * 60000 + sec * 1000 + ms.

(** Day number of day [date] of month [month] of year [year]; months and
    days outside their usual range carry over. *)
Definition MakeDay (year month date : Z) : Z :=
  let ym := year + month / 12 in
  let mn := month mod 12 in
  DayFromYear ym + monthStart mn (InLeapYear ym) + date - 1.

Definition MakeDate (day time : Z) : Z := day * msPerDay + time.

(** Time values further than 8.64e15 ms from the epoch do not exist. *)
Definition TimeClip (t : Z) : option Z :=
  if Z.abs t <=? 8640000000000000 then Some t else None.

(** The recurrence [DayFromYear (y + 1) = DayFromYear y + DaysInYear y] as
    a test on year [b]; the calendar repeats every 400 years, so testing the
    years 0..399 settles it. *)
Definition yearStepHolds (b : Z) : bool :=
  DayFromYear (b + 1) =? DayFromYear b + DaysInYear b.

End JSDate.

(** A [Date] object, identified with its time value. *)
Record Date := MkDate { getTime : option Z }.

Definition InvalidDate : Date := MkDate None.

Section DateObjects.
Context `{Runtime}.

Definition LocalTime (t : Z) : Z := t + LocalTZA.

Definition UTC (t : Z) : Z := t - LocalTZA.

(** [new Date()] when the clock reads [clock]. *)
Definition DateNow (clock : Z) : Date := MkDate (JSDate.TimeClip clock).

(** [new Date(s)] *)
Definition DateOfString (s : string) : Date := MkDate (DateParse s).

(** [new Date(year, month, date)]: local midnight of that day.  A NaN or
    infinite component gives an Invalid Date; years 0..99 mean 1900..1999. *)
Definition DateOfComponents (year month date : float) : Date :=
  match Num.finiteInteger year, Num.finiteInteger month,
        Num.finiteInteger date with
  | Some y, Some m, Some dt =>
      let yr := if (0 <=? y) && (y <=? 99) then 1900 + y else y in
      MkDate (JSDate.TimeClip
                (UTC (JSDate.MakeDate (JSDate.MakeDay yr m dt) 0)))
  | _, _, _ => InvalidDate
  end.

(** [d.setHours(h, m, s, ms)] in local time; returns the updated object. *)
Definition setHours (d : Date) (h m s ms : Z) : Date :=
  match getTime d with
  | None => InvalidDate
  | Some t =>
      MkDate (JSDate.TimeClip
                (UTC (JSDate.MakeDate (JSDate.Day (LocalTime t))
                                      (JSDate.MakeTime h m s ms))))
  end.

(** [d.getDate()]: local day of the month, NaN ([None]) on an Invalid
    Date. *)
Definition getDate (d : Date) : option Z :=
  match getTime d with
  | None => None
  | Some t => Some (JSDate.DateFromTime (LocalTime t))
  end.

(** [d.setDate(dt)]: same local year, month and time of day, day of the
    month [dt] (carried over when out of range); returns the updated
    object. *)
Definition setDate (d : Date) (dt : option Z) : Date :=
  match getTime d, dt with
  | Some t, Some n =>
      let lt := LocalTime t in
      MkDate (JSDate.TimeClip
                (UTC (JSDate.MakeDate
                        (JSDate.MakeDay (JSDate.YearFromTime lt)
                                        (JSDate.MonthFromTime lt) n)
                        (JSDate.TimeWithinDay lt))))
  | _, _ => InvalidDate
  end.

(** [d.toDateString()], kept as the data it prints: the local year, month
    and day of the month ([None] stands for the text "Invalid Date").  The
    printed text determines and is determined by this triple. *)
Definition toDateString (d : Date) : option (Z * Z * Z) :=
  match getTime d with
  | None => None
  | Some t =>
      let lt := LocalTime t in
      Some (JSDate.YearFromTime lt, JSDate.MonthFromTime lt,
            JSDate.DateFromTime lt)
  end.

Definition dateStringEqb (a b : option (Z * Z * Z)) : bool :=
  match a, b with
  | None, None => true
  | Some (y1, m1, d1), Some (y2, m2, d2) =>
      (y1 =? y2) && (m1 =? m2) && (d1 =? d2)
  | _, _ => false
  end.

(** [a < b] on two Date objects: a comparison of time values, false as soon
    as one of them is NaN. *)
Definition dateLt (a b : Date) : bool :=
  match getTime a, getTime b with
  | Some x, Some y => x <? y
  | _, _ => false
  end.

(** [a > b] *)
Definition dateGt (a b : Date) : bool := dateLt b a.

End DateObjects.

(** ** The dataset and the component state *)

Inductive ColumnType := TString | TNumber.

(** [DashboardData]: the header list, the declared type of each header and
    the rows. *)
Record DashboardData := {
  headers : list string;
  types : gmap string ColumnType;
  rows : list (gmap string value)
}.

(** A row of [rowsWithIndex]: [{ ...row, _id: index }].  The spread copies
    the cells, then [_id] is set, so a cell that was stored under the name
    "_id" is hidden by the index. *)
Record IndexedRow := {
  cells : gmap string value;
  _id : nat
}.

(** [row[h]] *)
Definition cell (row : IndexedRow) (h : string) : value :=
  if String.eqb h "_id" then VNumber (Num.ofNat (_id row))
  else default VUndefined (cells row !! h).

Inductive ViewMode := central | utmdash | graphs | database.

Inductive DatePreset :=
  | PresetAll | PresetToday | Preset7days | Preset15days | Preset30days
  | PresetCustom.

(** The [useState] cells of the component. *)
Record State := {
  viewMode : ViewMode;
  filters : gmap string (list string);
  columnSearchTerms : gmap string string;
  searchTerm : string;
  manualInvestment : float;
  groupInvestments : gmap string float;
  activeHeaderFilter : option string;
  datePreset : DatePreset;
  customStartDate : string;
  customEndDate : string
}.

(** The state on first render. *)
Definition initialState : State := {|
  viewMode := central;
  filters := ∅;
  columnSearchTerms := ∅;
  searchTerm := "";
  manualInvestment := 0%float;
  groupInvestments := ∅;
  activeHeaderFilter := None;
  datePreset := PresetAll;
  customStartDate := "";
  customEndDate := ""
|}.

(** [toggleFilter(column, value)] *)
Definition toggleFilter (column val : string) (st : State) : State :=
  let current := default [] (filters st !! column) in
  let updated :=
    if Str.arrayIncludes current val
    then List.filter (fun v => negb (String.eqb v val)) current
    else (current ++ [val])%list in
  {| viewMode := viewMode st;
     filters := <[column := updated]> (filters st);
     columnSearchTerms := columnSearchTerms st;
     searchTerm := searchTerm st;
     manualInvestment := manualInvestment st;
     groupInvestments := groupInvestments st;
     activeHeaderFilter := activeHeaderFilter st;
     datePreset := datePreset st;
     customStartDate := customStartDate st;
     customEndDate := customEndDate st |}.

(** [clearAllFilters()]: [setFilters({})], [setSearchTerm('')],
    [setColumnSearchTerms({})], [setDatePreset('all')],
    [setActiveHeaderFilter(null)]. *)
Definition clearAllFilters (st : State) : State :=
  {| viewMode := viewMode st;
     filters := ∅;
     columnSearchTerms := ∅;
     searchTerm := "";
     manualInvestment := manualInvestment st;
     groupInvestments := groupInvestments st;
     activeHeaderFilter := None;
     datePreset := PresetAll;
     customStartDate := customStartDate st;
     customEndDate := customEndDate st |}.

(** [rowsWithIndex]: [rows.map((row, index) => ({ ...row, _id: index }))],
    counting from [i]. *)
Fixpoint indexFrom (i : nat) (rs : list (gmap string value)) : list IndexedRow :=
  match rs with
  | [] => []
  | r :: rs' => {| cells := r; _id := i |} :: indexFrom (S i) rs'
  end.

(** [o || ''] for a resolved column. *)
Definition orEmpty (o : option string) : string := default "" o.

(** ** Insertion-ordered grouping, as done with a plain object

    [groups[k]] is read, created when missing and updated in place; the keys
    built by the component always contain the separator, so none of them is
    an array index and [Object.values] lists the groups in creation order. *)

Section Grouping.
Context {R G : Type}.
Variable keyOf : R -> string.
Variable fresh : R -> G.
Variable absorb : R -> G -> G.

Fixpoint hasKey (k : string) (groups : list (string * G)) : bool :=
  match groups with
  | [] => false
  | (k', _) :: rest => String.eqb k k' || hasKey k rest
  end.

Fixpoint updateKey (k : string) (f : G -> G) (groups : list (string * G))
  : list (string * G) :=
  match groups with
  | [] => []
  | (k', g) :: rest =>
      if String.eqb k k' then (k', f g) :: rest
      else (k', g) :: updateKey k f rest
  end.

(** One iteration of the [forEach] body. *)
Definition groupStep (groups : list (string * G)) (row : R) : list (string * G) :=
  let k := keyOf row in
  let groups1 := if hasKey k groups then groups
    else (groups ++ [(k, fresh row)])%list in
  updateKey k (absorb row) groups1.

Definition groupRows (rs : list R) : list (string * G) :=
  fold_left groupStep rs [].

End Grouping.

(** [arr.sort(cmp)]: the sort is stable.  [after x y] says that the
    comparator is positive on [(x, y)], so that [x] has to come after [y].
    For a comparator that is a consistent ordering any stable sort returns
    this list. *)
Section Sort.
Context {A : Type}.
Variable after : A -> A -> bool.

Fixpoint insertSorted (x : A) (l : list A) : list A :=
  match l with
  | [] => [x]
  | y :: l' => if after x y then y :: insertSorted x l' else x :: l
  end.

Definition sortStable (l : list A) : list A := fold_right insertSorted [] l.

End Sort.

(** [set.add(x)] on a [Set<string>] kept in insertion order. *)
Definition setAdd (x : string) (s : list string) : list string :=
  if Str.arrayIncludes s x then s else (s ++ [x])%list.

(** The cluster record of the variant that sorts by sale count. *)
Module BySales.
Record Group := {
  key : string;
  product : string;
  campaign : string;
  term : string;
  salesCount : Z;
  totalRevenue : float;
  dates : list string
}.
End BySales.

(** The cluster record of [src/components/Dashboard.tsx]. *)
Module ByRevenue.
Record Group := {
  prod : string;
  camp : string;
  term : string;
  sales : Z;
  revenue : float
}.
End ByRevenue.

(** The KPI record returned by [stats]. *)
Record Stats := {
  fat : float;
  gas : float;
  imp : float;
  luc : float;
  roas : float
}.

(** ** The component *)

Section Component.
Context `{Runtime}.
Variable data : DashboardData.

Definition rowsWithIndex : list IndexedRow := indexFrom 0 (rows data).

(** The callback given to [headers.find] in [findHeader]. *)
Definition headerMatches (keys : list string) (h : string) : bool :=
  existsb (fun k =>
             String.eqb (toLowerCase h) (toLowerCase k)
             || Str.includes (toLowerCase h) (toLowerCase k)) keys.

(** [findHeader(keys, indexHint)]; [headers[indexHint]] counts only when it
    is truthy, that is a header that exists and is not the empty string. *)
Definition findHeader (keys : list string) (indexHint : option nat)
  : option string :=
  let hinted :=
    match indexHint with
    | Some i => match headers data !! i with
                | Some h => if Str.truthy h then Some h else None
                | None => None
                end
    | None => None
    end in
  match hinted with
  | Some h => Some h
  | None => List.find (headerMatches keys) (headers data)
  end.

Definition colData : option string :=
  findHeader ["data"; "data da venda"] (Some 1%nat).
Definition colProduto : option string :=
  findHeader ["produto"; "nome do produto"] (Some 7%nat).
Definition colFaturamento : option string :=
  findHeader ["valor"; "valor da venda"; "venda"] (Some 11%nat).
Definition colCampaign : option string :=
  findHeader ["utm_campaign"; "campanha"] (Some 29%nat).
Definition colTerm : option string :=
  findHeader ["utm_term"; "termo"] (Some 30%nat).

(** [parseBrazilianDate(dateStr)]; [None] is the [null] result. *)
Definition parseBrazilianDate (dateStr : value) : option Date :=
  match dateStr with
  | VString s =>
      if Str.truthy s then
        match Str.split "/" (Str.splitHead " " s) with
        | [p0; p1; p2] =>
            Some (DateOfComponents (StringToNumber p2)
                                   (StringToNumber p1 - 1)%float
                                   (StringToNumber p0))
        | _ =>
            let isoDate := DateOfString s in
            match getTime isoDate with
            | None => None
            | Some _ => Some isoDate
            end
        end
      else None
  | VUndefined | VNumber _ => None
  end.

Section Filtering.
Variable st : State.
(** What the clock reads while the memo runs: every [new Date()] below. *)
Variable clock : Z.

(** [const now = new Date(); now.setHours(23, 59, 59, 999)] *)
Definition now : Date := setHours (DateNow clock) 23 59 59 999.

(** [const d = new Date(); d.setDate(now.getDate() - n)] *)
Definition daysAgo (n : Z) : Date :=
  setDate (DateNow clock) (option_map (fun d => d - n) (getDate now)).

(** The date block of the filter callback: [false] where the callback
    returns [false] from inside the block, [true] where control reaches the
    statements after it. *)
Definition passesDate (row : IndexedRow) : bool :=
  match colData with
  | Some cd =>
      if Str.truthy cd
         && negb match datePreset st with PresetAll => true | _ => false end
      then
        match parseBrazilianDate (cell row cd) with
        | None => false
        | Some rowDate =>
            match datePreset st with
            | PresetToday =>
                let today := DateNow clock in
                dateStringEqb (toDateString rowDate) (toDateString today)
            | Preset7days => negb (dateLt rowDate (daysAgo 7))
            | Preset15days => negb (dateLt rowDate (daysAgo 15))
            | Preset30days => negb (dateLt rowDate (daysAgo 30))
            | PresetCustom =>
                if Str.truthy (customStartDate st)
                   && Str.truthy (customEndDate st)
                then
                  let start := DateOfString (customStartDate st) in
                  let end_ :=
                    setHours (DateOfString (customEndDate st)) 23 59 59 999 in
                  negb (dateLt rowDate start || dateGt rowDate end_)
                else true
            | PresetAll => true
            end
        end
      else true
  | None => true
  end.

(** [Object.entries(filters).every(...)] *)
Definition matchesFilters (row : IndexedRow) : bool :=
  forallb (fun '(col, selectedValues) =>
             match selectedValues with
             | [] => true
             | _ :: _ =>
                 Str.arrayIncludes selectedValues (ToString (cell row col))
             end)
          (map_to_list (filters st)).

(** [searchTerm === '' || data.headers.some(...)] *)
Definition matchesSearch (row : IndexedRow) : bool :=
  String.eqb (searchTerm st) ""
  || existsb (fun h =>
                Str.includes (toLowerCase (ToString (cell row h)))
                             (toLowerCase (searchTerm st)))
             (headers data).

(** The callback of [rowsWithIndex.filter]. *)
Definition includeRow (row : IndexedRow) : bool :=
  passesDate row && (matchesFilters row && matchesSearch row).

Definition filteredRows : list IndexedRow :=
  List.filter includeRow rowsWithIndex.

(** [Number(row[colFaturamento || '']) || 0] *)
Definition revenueOf (row : IndexedRow) : float :=
  Num.orZero (ToNumber (cell row (orEmpty colFaturamento))).

(** *** Grouping, sorted by sale count *)

Definition clusterProduct (row : IndexedRow) : string :=
  trim (stringOr (cell row (orEmpty colProduto)) "N/A").
Definition clusterCampaign (row : IndexedRow) : string :=
  trim (stringOr (cell row (orEmpty colCampaign)) "N/A").
Definition clusterTerm (row : IndexedRow) : string :=
  trim (stringOr (cell row (orEmpty colTerm)) "N/A").

(** [`${prod}|${camp}|${term}`] *)
Definition clusterKey (row : IndexedRow) : string :=
  (clusterProduct row ++ "|" ++ clusterCampaign row ++ "|" ++ clusterTerm row)%string.

Definition freshGroup (row : IndexedRow) : BySales.Group :=
  {| BySales.key := clusterKey row;
     BySales.product := clusterProduct row;
     BySales.campaign := clusterCampaign row;
     BySales.term := clusterTerm row;
     BySales.salesCount := 0;
     BySales.totalRevenue := 0%float;
     BySales.dates := [] |}.

Definition absorbRow (row : IndexedRow) (g : BySales.Group) : BySales.Group :=
  {| BySales.key := BySales.key g;
     BySales.product := BySales.product g;
     BySales.campaign := BySales.campaign g;
     BySales.term := BySales.term g;
     BySales.salesCount := BySales.salesCount g + 1;
     BySales.totalRevenue := (BySales.totalRevenue g + revenueOf row)%float;
     BySales.dates :=
       setAdd (Str.splitHead " " (ToString (cell row (orEmpty colData))))
              (BySales.dates g) |}.

Definition groups : list (string * BySales.Group) :=
  groupRows clusterKey freshGroup absorbRow filteredRows.

(** [Object.values(groups).sort((a, b) => b.salesCount - a.salesCount)] *)
Definition groupedData : list BySales.Group :=
  sortStable (fun a b => BySales.salesCount b - BySales.salesCount a >? 0)
             (map snd groups).

(** *** Grouping, sorted by revenue ([src/components/Dashboard.tsx]) *)

Definition revProd (row : IndexedRow) : string :=
  stringOr (cell row (orEmpty colProduto)) "Sem Produto".
Definition revCamp (row : IndexedRow) : string :=
  stringOr (cell row (orEmpty colCampaign)) "Orgânico".
Definition revTerm (row : IndexedRow) : string :=
  stringOr (cell row (orEmpty colTerm)) "N/A".

Definition revKey (row : IndexedRow) : string :=
  (revProd row ++ "|" ++ revCamp row ++ "|" ++ revTerm row)%string.

Definition revFresh (row : IndexedRow) : ByRevenue.Group :=
  {| ByRevenue.prod := revProd row;
     ByRevenue.camp := revCamp row;
     ByRevenue.term := revTerm row;
     ByRevenue.sales := 0;
     ByRevenue.revenue := 0%float |}.

Definition revAbsorb (row : IndexedRow) (g : ByRevenue.Group) : ByRevenue.Group :=
  {| ByRevenue.prod := ByRevenue.prod g;
     ByRevenue.camp := ByRevenue.camp g;
     ByRevenue.term := ByRevenue.term g;
     ByRevenue.sales := ByRevenue.sales g + 1;
     ByRevenue.revenue := (ByRevenue.revenue g + revenueOf row)%float |}.

Definition revGroups : list (string * ByRevenue.Group) :=
  groupRows revKey revFresh revAbsorb filteredRows.

(** [Object.values(groups).sort((a, b) => b.revenue - a.revenue)] *)
Definition groupedDataByRevenue : list ByRevenue.Group :=
  sortStable (fun a b => (0 <? ByRevenue.revenue b - ByRevenue.revenue a)%float)
             (map snd revGroups).

(** *** KPI *)

Definition stats : Stats :=
  let fat := fold_left (fun acc row => (acc + revenueOf row)%float)
                       filteredRows 0%float in
  let imp := (fat * 0.06)%float in
  let gas := manualInvestment st in
  let luc := (fat - gas - imp)%float in
  let avgRoas := if (0 <? gas)%float then (fat / gas)%float else 0%float in
  {| fat := fat; gas := gas; imp := imp; luc := luc; roas := avgRoas |}.

End Filtering.
End Component.

(** ** A reference host

    One concrete [Runtime], used to run the component on sample data.  It
    follows ECMAScript on the inputs it recognises: decimal numerals with an
    optional sign and fraction, integral numbers printed in decimal, ASCII
    case mapping and white space, and the date-time strings [YYYY-MM-DD]
    (UTC midnight) and [YYYY-MM-DDTHH:mm:ssZ].  Strings outside these forms
    are not numerals (NaN) and not dates (Invalid Date) here, and the
    samples never print a number that has a fractional part. *)

Module Ref.

Definition digit (c : ascii) : option Z :=
  let n := Z.of_nat (nat_of_ascii c) in
  if (48 <=? n) && (n <=? 57) then Some (n - 48) else None.

(** Value and number of digits of a digit string. *)
Fixpoint digits (acc : Z) (count : Z) (s : string) : option (Z * Z) :=
  match s with
  | EmptyString => Some (acc, count)
  | String c s' =>
      match digit c with
      | Some d => digits (acc * 10 + d) (count + 1) s'
      | None => None
      end
  end.

Definition isSpace (c : ascii) : bool :=
  let n := nat_of_ascii c in
  (Nat.eqb n 32 || (Nat.leb 9 n && Nat.leb n 13))%bool.

Fixpoint trimStart (s : string) : string :=
  match s with
  | EmptyString => EmptyString
  | String c s' => if isSpace c then trimStart s' else s
  end.

Fixpoint trimEnd (s : string) : string :=
  match s with
  | EmptyString => EmptyString
  | String c s' =>
      match trimEnd s' with
      | EmptyString => if isSpace c then EmptyString else String c EmptyString
      | r => String c r
      end
  end.

Definition trim (s : string) : string := trimEnd (trimStart s).

Definition ofZ (z : Z) : float := of_uint63 (Uint63.of_Z z).

(** An unsigned numeral [ddd] or [ddd.ddd] with at most 15 digits: the
    quotient of two exactly represented integers, correctly rounded. *)
Definition unsignedNumeral (s : string) : float :=
  match Str.split "." s with
  | [i] =>
      match digits 0 0 i with
      | Some (v, n) => if (1 <=? n) && (n <=? 15) then ofZ v else nan
      | None => nan
      end
  | [i; f] =>
      match digits 0 0 i with
      | Some (v, n) =>
          match digits v n f with
          | Some (w, m) =>
              if (1 <=? m) && (m <=? 15)
              then (ofZ w / ofZ (10 ^ (m - n)))%float
              else nan
          | None => nan
          end
      | None => nan
      end
  | _ => nan
  end.

Definition StringToNumber (s : string) : float :=
  match trim s with
  | EmptyString => 0%float
  | String "-" r => (- unsignedNumeral r)%float
  | String "+" r => unsignedNumeral r
  | r => unsignedNumeral r
  end.

Definition digitChar (d : Z) : ascii := ascii_of_nat (Z.to_nat (48 + d)).

Fixpoint decimal (fuel : nat) (z : Z) (acc : string) : string :=
  match fuel with
  | O => acc
  | S fuel' =>
      let acc' := String (digitChar (z mod 10)) acc in
      if z / 10 =? 0 then acc' else decimal fuel' (z / 10) acc'
  end.

Definition NumberToString (x : float) : string :=
  if is_nan x then "NaN"
  else match Num.finiteInteger x with
       | None => if (x <? 0)%float then "-Infinity" else "Infinity"
       | Some z =>
           if (ofZ (Z.abs z) =? abs x)%float
           then ((if (z <? 0)%Z then "-" else "") ++ decimal 20 (Z.abs z) "")%string
           else "NaN"
       end.

Definition num2 (a b : ascii) : option Z :=
  match digit a, digit b with
  | Some x, Some y => Some (10 * x + y)
  | _, _ => None
  end.

Definition isChar (c : ascii) (x : ascii) : bool := Ascii.eqb c x.

(** Length of month [m] (1 = January). *)
Definition daysInMonth (m leap : Z) : Z :=
  match m with
  | 2 => 28 + leap
  | 4 | 6 | 9 | 11 => 30
  | _ => 31
  end.

(** [YYYY-MM-DD]: year, month (1..12) and day. *)
Definition isoDate (s : string) : option Z :=
  match list_ascii_of_string s with
  | [y1; y2; y3; y4; s1; m1; m2; s2; d1; d2] =>
      match num2 y1 y2, num2 y3 y4, num2 m1 m2, num2 d1 d2 with
      | Some yh, Some yl, Some m, Some d =>
          let y := 100 * yh + yl in
          if isChar s1 "-" && isChar s2 "-" && (1 <=? m) && (m <=? 12)
             && (1 <=? d)
             && (d <=? daysInMonth m (JSDate.InLeapYear y))
          then Some (JSDate.MakeDate (JSDate.MakeDay y (m - 1) d) 0)
          else None
      | _, _, _, _ => None
      end
  | _ => None
  end.

(** [HH:mm:ssZ] *)
Definition isoTime (s : string) : option Z :=
  match list_ascii_of_string s with
  | [h1; h2; s1; m1; m2; s2; c1; c2; z] =>
      match num2 h1 h2, num2 m1 m2, num2 c1 c2 with
      | Some h, Some m, Some c =>
          if isChar s1 ":" && isChar s2 ":" && isChar z "Z"
             && (h <=? 23) && (m <=? 59) && (c <=? 59)
          then Some (JSDate.MakeTime h m c 0)
          else None
      | _, _, _ => None
      end
  | _ => None
  end.

Definition DateParse (s : string) : option Z :=
  match Str.split "T" s with
  | [d] => isoDate d
  | [d; t] =>
      match isoDate d, isoTime t with
      | Some day, Some time => Some (day + time)
      | _, _ => None
      end
  | _ => None
  end.

End Ref.

(** The reference host in the zone [tz] milliseconds ahead of UTC. *)
Definition refRuntime (tz : Z) : Runtime := {|
  StringToNumber := Ref.StringToNumber;
  NumberToString := Ref.NumberToString;
  toLowerCase := Str.asciiLower;
  trim := Ref.trim;
  DateParse := Ref.DateParse;
  LocalTZA := tz;
  toLowerCase_ascii := fun s _ => eq_refl
|}.

(** ** The stated behaviour, where it is compared with the component *)

(** The number of days a relative preset looks back. *)
Definition presetDays (p : DatePreset) : option Z :=
  match p with
  | Preset7days => Some 7
  | Preset15days => Some 15
  | Preset30days => Some 30
  | PresetAll | PresetToday | PresetCustom => None
  end.

(** Header resolution as the specification words it: the hinted header,
    else the first header equal to a candidate, else the first header
    containing a candidate, else nothing (case folded on both sides). *)
Definition findHeaderAsStated `{Runtime} (data : DashboardData)
  (keys : list string) (indexHint : option nat) : option string :=
  let hinted :=
    match indexHint with
    | Some i => match headers data !! i with
                | Some h => if Str.truthy h then Some h else None
                | None => None
                end
    | None => None
    end in
  match hinted with
  | Some h => Some h
  | None =>
      match List.find (fun h =>
                         existsb (fun k => String.eqb (toLowerCase h)
                                                      (toLowerCase k)) keys)
                      (headers data) with
      | Some h => Some h
      | None =>
          List.find (fun h =>
                       existsb (fun k => Str.includes (toLowerCase h)
                                                      (toLowerCase k)) keys)
                    (headers data)
      end
  end.

(** "Clear all" as the specification words it: every filter input back to
    its default, the custom bounds included, the investments kept. *)
Definition clearedAsStated (st st' : State) : Prop :=
  filters st' = ∅
  /\ searchTerm st' = ""
  /\ columnSearchTerms st' = ∅
  /\ datePreset st' = PresetAll
  /\ customStartDate st' = ""
  /\ customEndDate st' = ""
  /\ manualInvestment st' = manualInvestment st
  /\ groupInvestments st' = groupInvestments st.

(** The relative presets as the specification words them: a row passes
    exactly when its date is not before the end of the current day minus
    the preset's number of days. *)
Definition relativePresetAsStated `{Runtime} (data : DashboardData)
  (st : State) (clock : Z) (row : IndexedRow) : Prop :=
  forall cd n rowDate d endOfDay,
    colData data = Some cd ->
    Str.truthy cd = true ->
    presetDays (datePreset st) = Some n ->
    parseBrazilianDate (cell row cd) = Some rowDate ->
    getTime rowDate = Some d ->
    getTime (now clock) = Some endOfDay ->
    (passesDate data st clock row = true
     <-> endOfDay - n * JSDate.msPerDay <= d).

(** Two toggles as the specification words them: from [st] to [st'] the
    filtered rows are the same, and the stored selections differ at most by
    an explicit empty list for the column. *)
Definition toggledTwiceAsStated `{Runtime} (data : DashboardData)
  (clock : Z) (column : string) (st st' : State) : Prop :=
  filteredRows data st' clock = filteredRows data st clock
  /\ (filters st' = filters st
      \/ filters st' = <[column := []]> (filters st)).

(** The test applied to one entry of [filters]: an empty selection
    constrains nothing, a non-empty one must contain the row's text. *)
Definition selectionAllows (selectedValues : list string) (x : string) : bool :=
  match selectedValues with
  | [] => true
  | _ :: _ => Str.arrayIncludes selectedValues x
  end.

(** The selection [toggleFilter] stores for a column whose selection was
    [current]. *)
Definition toggled (val : string) (current : list string) : list string :=
  if Str.arrayIncludes current val
  then List.filter (fun v => negb (String.eqb v val)) current
  else (current ++ [val])%list.

(** The selection a column holds once [toggleFilter] has run twice with the
    same value on the selection [current]: a value that was selected has
    moved to the end of the list, a value that was not leaves the list as
    it was. *)
Definition toggledTwice (val : string) (current : list string) : list string :=
  if Str.arrayIncludes current val
  then (List.filter (fun v => negb (String.eqb v val)) current ++ [val])%list
  else current.

(** The first header, in header order, that contains one of the candidates
    (both case folded). *)
Definition firstContaining `{Runtime} (keys : list string)
  (hs : list string) : option string :=
  List.find (fun h => existsb (fun k => Str.includes (toLowerCase h)
                                                     (toLowerCase k)) keys) hs.

(** The header at the hint position, when the hint is given and that header
    exists and is not empty. *)
Definition hintedHeader (hs : list string) (indexHint : option nat)
  : option string :=
  match indexHint with
  | Some i => match hs !! i with
              | Some h => if Str.truthy h then Some h else None
              | None => None
              end
  | None => None
  end.

(** [groups[k]] as a read: the group stored under key [k]. *)
Fixpoint lookupKey {G : Type} (k : string) (groups : list (string * G))
  : option G :=
  match groups with
  | [] => None
  | (k', g) :: rest => if String.eqb k k' then Some g else lookupKey k rest
  end.

(** The rows of [rs] whose key is [k], in their order. *)
Definition rowsOf {R : Type} (keyOf : R -> string) (k : string)
  (rs : list R) : list R :=
  List.filter (fun r => String.eqb (keyOf r) k) rs.

(** Sum of a list of counts. *)
Definition sumZ (l : list Z) : Z := fold_right Z.add 0 l.

(** The key under which the revenue-sorted variant looks up a cluster's
    investment: [`${group.prod}|${group.camp}|${group.term}`]. *)
Definition revGroupKey (g : ByRevenue.Group) : string :=
  (ByRevenue.prod g ++ "|" ++ ByRevenue.camp g ++ "|" ++ ByRevenue.term g)%string.

(** A list of clusters partitions the rows [rs]: cluster keys are pairwise
    distinct; every row has exactly one cluster carrying its key; every
    cluster has at least one row, counts the rows that carry its key and
    totals their amounts in row order; and the counts add up to the number
    of rows. *)
Definition Partitions {R G : Type} (keyOf : R -> string) (amount : R -> float)
  (gkey : G -> string) (count : G -> Z) (total : G -> float)
  (rs : list R) (clusters : list G) : Prop :=
  NoDup (map gkey clusters)
  /\ (forall r, In r rs ->
        exists g, In g clusters /\ gkey g = keyOf r
                  /\ forall g', In g' clusters -> gkey g' = keyOf r -> g' = g)
  /\ Forall (fun g =>
               rowsOf keyOf (gkey g) rs <> []
               /\ count g = Z.of_nat (length (rowsOf keyOf (gkey g) rs))
               /\ total g
                  = fold_left PrimFloat.add
                      (map amount (rowsOf keyOf (gkey g) rs)) 0%float)
            clusters
  /\ sumZ (map count clusters) = Z.of_nat (length rs).

(** ** Sample data *)

Module Sample.

Definition row (l : list (string * value)) : gmap string value :=
  list_to_map l.

(** The three sales of the specification's example. *)
Definition sales : DashboardData := {|
  headers := ["id"; "data"; "produto"; "valor"];
  types := ∅;
  rows := [
    row [("id", VString "s1"); ("data", VString "01/03/2024");
         ("produto", VString "A"); ("valor", VNumber 100)];
    row [("id", VString "s2"); ("data", VString "15/03/2024");
         ("produto", VString "A"); ("valor", VNumber 50)];
    row [("id", VString "s3"); ("data", VString "01/03/2024");
         ("produto", VString "B"); ("valor", VNumber 30)]
  ]
|}.

(** 2024-03-15T10:00:00Z *)
Definition clock : Z := 1710496800000.

Definition withPreset (p : DatePreset) (st : State) : State :=
  {| viewMode := viewMode st;
     filters := filters st;
     columnSearchTerms := columnSearchTerms st;
     searchTerm := searchTerm st;
     manualInvestment := manualInvestment st;
     groupInvestments := groupInvestments st;
     activeHeaderFilter := activeHeaderFilter st;
     datePreset := p;
     customStartDate := customStartDate st;
     customEndDate := customEndDate st |}.

Definition withCustomRange (a b : string) (st : State) : State :=
  {| viewMode := viewMode st;
     filters := filters st;
     columnSearchTerms := columnSearchTerms st;
     searchTerm := searchTerm st;
     manualInvestment := manualInvestment st;
     groupInvestments := groupInvestments st;
     activeHeaderFilter := activeHeaderFilter st;
     datePreset := PresetCustom;
     customStartDate := a;
     customEndDate := b |}.

Definition withSearch (q : string) (st : State) : State :=
  {| viewMode := viewMode st;
     filters := filters st;
     columnSearchTerms := columnSearchTerms st;
     searchTerm := q;
     manualInvestment := manualInvestment st;
     groupInvestments := groupInvestments st;
     activeHeaderFilter := activeHeaderFilter st;
     datePreset := datePreset st;
     customStartDate := customStartDate st;
     customEndDate := customEndDate st |}.

Definition withInvestment (x : float) (st : State) : State :=
  {| viewMode := viewMode st;
     filters := filters st;
     columnSearchTerms := columnSearchTerms st;
     searchTerm := searchTerm st;
     manualInvestment := x;
     groupInvestments := groupInvestments st;
     activeHeaderFilter := activeHeaderFilter st;
     datePreset := datePreset st;
     customStartDate := customStartDate st;
     customEndDate := customEndDate st |}.

(** A dataset with one sale whose date cell is [dateCell]. *)
Definition oneSale (dateCell : value) : DashboardData := {|
  headers := ["id"; "data"; "produto"; "valor"];
  types := ∅;
  rows := [ <["data" := dateCell]>
              (row [("id", VString "s1"); ("produto", VString "A");
                    ("valor", VNumber 100)]) ]
|}.

(** Three headers, two of which mention the product. *)
Definition catalogue : DashboardData := {|
  headers := ["ID Produto"; "Data"; "Produto"];
  types := ∅;
  rows := []
|}.

(** A sale recorded without product and without value. *)
Definition sparse : IndexedRow :=
  {| cells := row [("id", VString "s1"); ("data", VString "01/03/2024")];
     _id := 0 |}.

(** The first row of a dataset, as the filter callback receives it. *)
Definition first (data : DashboardData) : IndexedRow :=
  List.hd {| cells := ∅; _id := 0 |} (rowsWithIndex data).

(** The zone of Brasilia, three hours behind UTC. *)
Definition brasilia : Z := -10800000.

End Sample.

(** * The rest of the component

    The derived data and handlers of the two files that the statements above
    do not reach: the option lists of the categorical filters, the
    per-cluster figures of the UTM table, the investment inputs, and the
    chart series. *)

(** [r[h]] on a row of [data.rows], before [_id] is added. *)
Definition rawCell (r : gmap string value) (h : string) : value :=
  default VUndefined (r !! h).

(** [String(v ?? '')] *)
Definition stringOrEmpty `{Runtime} (v : value) : string :=
  match v with
  | VUndefined => ""
  | VString _ | VNumber _ => ToString v
  end.

(** [Array.from(new Set(xs))]: the first occurrences, in order. *)
Definition distinct (xs : list string) : list string :=
  fold_left (fun s x => setAdd x s) xs [].

(** [arr.sort()] on strings: ascending by code units; the sort is stable. *)
Definition sortStrings (l : list string) : list string :=
  sortStable (fun x y => String.ltb y x) l.

(** The number a count is in the program. *)
Definition countNumber (z : Z) : float := of_uint63 (Uint63.of_Z z).

(** What the UTM table computes for one row of [groupedData] (sorted by
    sale count). *)
Record ClusterFigures := {
  figRevenue : float;
  figInvest : float;
  figTaxes : float;
  figProfit : float;
  figRoi : float;
  figCpa : float;
  figIsProfitable : bool;
  figDateList : list string;
  (** [None] is [undefined]: [dateList[0]] of an empty list. *)
  figDateRange : option string;
  (** The ROI badge reads "Pendente". *)
  figPending : bool
}.

(** [groupInvestments[k] || 0] *)
Definition investmentOf (investments : gmap string float) (k : string) : float :=
  match investments !! k with
  | Some x => Num.orZero x
  | None => 0%float
  end.

(** The body of [groupedData.map((group) => ...)] of the UTM table. *)
Definition clusterFigures (investments : gmap string float)
  (group : BySales.Group) : ClusterFigures :=
  let revenue := BySales.totalRevenue group in
  let invest := investmentOf investments (BySales.key group) in
  let taxes := (revenue * 0.06)%float in
  let profit := (revenue - invest - taxes)%float in
  let roi := if (0 <? invest)%float then (revenue / invest)%float else 0%float in
  let cpa :=
    if (0 <? invest)%float
    then (invest / countNumber (BySales.salesCount group))%float
    else 0%float in
  let isProfitable := (0 <? profit)%float in
  let dateList := sortStrings (BySales.dates group) in
  let dateRange :=
    if (1 <? Z.of_nat (length dateList))
    then match dateList, List.last dateList "" with
         | first :: _, last => Some (first ++ " > " ++ last)%string
         | [], _ => None
         end
    else List.head dateList in
  {| figRevenue := revenue;
     figInvest := invest;
     figTaxes := taxes;
     figProfit := profit;
     figRoi := roi;
     figCpa := cpa;
     figIsProfitable := isProfitable;
     figDateList := dateList;
     figDateRange := dateRange;
     figPending := (invest =? 0)%float |}.

(** The revenue-sorted table: [gas] and [roi] of one row. *)
Definition revClusterGas (investments : gmap string float)
  (group : ByRevenue.Group) : float :=
  investmentOf investments (revGroupKey group).

Definition revClusterRoi (investments : gmap string float)
  (group : ByRevenue.Group) : float :=
  let gas := revClusterGas investments group in
  if (0 <? gas)%float then (ByRevenue.revenue group / gas)%float else 0%float.

(** The investment input of a cluster:
    [setGroupInvestments(prev => ({ ...prev, [key]: val }))], where [val] is
    [undefined] for an emptied input and the parsed number otherwise.  A key
    that holds [undefined] reads like a key that is not there, both for
    [groupInvestments[key] || 0] and for [groupInvestments[key] === undefined],
    so it is kept as an absent key. *)
Definition setGroupInvestment (k : string) (val : option float) (st : State) : State :=
  {| viewMode := viewMode st;
     filters := filters st;
     columnSearchTerms := columnSearchTerms st;
     searchTerm := searchTerm st;
     manualInvestment := manualInvestment st;
     groupInvestments :=
       match val with
       | Some x => <[k := x]> (groupInvestments st)
       | None => delete k (groupInvestments st)
       end;
     activeHeaderFilter := activeHeaderFilter st;
     datePreset := datePreset st;
     customStartDate := customStartDate st;
     customEndDate := customEndDate st |}.

(** [setManualInvestment(x)] *)
Definition setManualInvestment (x : float) (st : State) : State :=
  {| viewMode := viewMode st;
     filters := filters st;
     columnSearchTerms := columnSearchTerms st;
     searchTerm := searchTerm st;
     manualInvestment := x;
     groupInvestments := groupInvestments st;
     activeHeaderFilter := activeHeaderFilter st;
     datePreset := datePreset st;
     customStartDate := customStartDate st;
     customEndDate := customEndDate st |}.

(** [setSearchTerm(q)] *)
Definition setSearchTerm (q : string) (st : State) : State :=
  {| viewMode := viewMode st;
     filters := filters st;
     columnSearchTerms := columnSearchTerms st;
     searchTerm := q;
     manualInvestment := manualInvestment st;
     groupInvestments := groupInvestments st;
     activeHeaderFilter := activeHeaderFilter st;
     datePreset := datePreset st;
     customStartDate := customStartDate st;
     customEndDate := customEndDate st |}.

(** [a >= b] on two Date objects: false as soon as one time value is NaN. *)
Definition dateGe (a b : Date) : bool :=
  match getTime a, getTime b with
  | Some x, Some y => y <=? x
  | _, _ => false
  end.

(** The three counters of [volumeStats]. *)
Record VolumeStats := {
  volToday : Z;
  volSeven : Z;
  volThirty : Z
}.

Section Derived.
Context `{Runtime}.
Variable data : DashboardData.

(** [[colProduto, colCampaign, colTerm].filter(Boolean)] *)
Definition categoricalFilterCols : list string :=
  List.filter Str.truthy
    (omap id [colProduto data; colCampaign data; colTerm data]).

(** The option list of one column:
    [Array.from(new Set(rows.map(r => String(r[col] ?? '')).filter(v => v !== ''))).sort()] *)
Definition uniqueValues (col : string) : list string :=
  sortStrings
    (distinct
       (List.filter (fun v => negb (String.eqb v ""))
          (map (fun r => stringOrEmpty (rawCell r col)) (rows data)))).

(** [uniqueValuesMap] *)
Definition uniqueValuesMap : gmap string (list string) :=
  fold_left (fun m col => <[col := uniqueValues col]> m)
            categoricalFilterCols ∅.

(** The options a filter list shows:
    [(options || []).filter(o => String(o).toLowerCase().includes(searchTerm.toLowerCase()))] *)
Definition visibleOptions (options : option (list string))
  (term : string) : list string :=
  List.filter (fun o => Str.includes (toLowerCase o) (toLowerCase term))
              (default [] options).

(** The options of column [col] as [FilterColumn] and [HeaderFilterPopup]
    receive and show them, with [columnSearchTerms[col] || '']. *)
Definition shownOptions (st : State) (col : string) : list string :=
  visibleOptions (uniqueValuesMap !! col)
                 (default "" (columnSearchTerms st !! col)).

Section Volume.
Variable clock : Z.

(** [const d = new Date(); d.setDate(new Date().getDate() - n)] *)
Definition daysBack (n : Z) : Date :=
  setDate (DateNow clock)
          (option_map (fun d => d - n) (getDate (DateNow clock))).

(** One iteration of the [forEach] of [volumeStats]. *)
Definition volumeStep (acc : VolumeStats) (r : gmap string value) : VolumeStats :=
  match parseBrazilianDate (rawCell r (orEmpty (colData data))) with
  | None => acc
  | Some d =>
      {| volToday :=
           if dateStringEqb (toDateString d) (toDateString (DateNow clock))
           then volToday acc + 1 else volToday acc;
         volSeven :=
           if dateGe d (daysBack 7) then volSeven acc + 1 else volSeven acc;
         volThirty :=
           if dateGe d (daysBack 30) then volThirty acc + 1
           else volThirty acc |}
  end.

(** [volumeStats]: over all the rows, filtered or not. *)
Definition volumeStats : VolumeStats :=
  fold_left volumeStep (rows data)
            {| volToday := 0; volSeven := 0; volThirty := 0 |}.

End Volume.
End Derived.

(** ** Plain objects as maps, in the order [Object.entries] lists them

    Keys that are array indices (canonical decimal numerals up to 2^32 - 2)
    come first, in ascending numeric order; the other keys follow in the
    order they were created. *)

(** The array index a key denotes, if any. *)
Definition arrayIndex (k : string) : option Z :=
  match k with
  | EmptyString => None
  | String c rest =>
      match Ref.digits 0 0 k with
      | Some (v, _) =>
          if (negb (Ascii.eqb c "0") || String.eqb rest "")
             && (v <=? 4294967294)
          then Some v else None
      | None => None
      end
  end.

Definition isArrayIndex (k : string) : bool :=
  match arrayIndex k with Some _ => true | None => false end.

(** [Object.entries(obj)] for an object whose properties were created in the
    order of [created]. *)
Definition ownEntries {G : Type} (created : list (string * G)) : list (string * G) :=
  (sortStable (fun a b =>
                 match arrayIndex (fst a), arrayIndex (fst b) with
                 | Some x, Some y => y <? x
                 | _, _ => false
                 end)
              (List.filter (fun p => isArrayIndex (fst p)) created)
   ++ List.filter (fun p => negb (isArrayIndex (fst p))) created)%list.

(** ** ISO date-time text *)

(** The last [width] decimal digits of [z >= 0], zero-padded on the left. *)
Fixpoint padDigits (width : nat) (z : Z) : string :=
  match width with
  | O => EmptyString
  | S w => (padDigits w (z / 10) ++ String (Ref.digitChar (z mod 10)) "")%string
  end.

(** [d.toISOString()]: the UTC date and time; [None] is the [RangeError]
    thrown for an Invalid Date. *)
Definition toISOString (d : Date) : option string :=
  match getTime d with
  | None => None
  | Some t =>
      let y := JSDate.YearFromTime t in
      let tw := JSDate.TimeWithinDay t in
      let year :=
        if (0 <=? y) && (y <=? 9999) then padDigits 4 y
        else ((if (y <? 0)%Z then "-" else "+") ++ padDigits 6 (Z.abs y))%string in
      Some (year ++ "-" ++ padDigits 2 (JSDate.MonthFromTime t + 1)
                 ++ "-" ++ padDigits 2 (JSDate.DateFromTime t)
                 ++ "T" ++ padDigits 2 (tw / 3600000)
                 ++ ":" ++ padDigits 2 ((tw / 60000) mod 60)
                 ++ ":" ++ padDigits 2 ((tw / 1000) mod 60)
                 ++ "." ++ padDigits 3 (tw mod 1000) ++ "Z")%string
  end.

(** One point of the daily series: [{ date, sales, full }]. *)
Module ByDay.
Record Point := {
  date : string;
  sales : Z;
  full : string
}.
End ByDay.

(** ** Chart series *)

(** ** Plain objects used as accumulators

    [chartData] and [getPieData] accumulate in an object literal [{}], under
    keys taken from the cells.  Reading [obj[k]] follows the prototype
    chain: a key the object does not own is looked up in [Object.prototype],
    where it finds a function ("constructor", "toString", ...), the
    prototype itself ("__proto__"), or nothing.  What is found there is an
    object: it is truthy, and [+] turns it into a string. *)

(** The methods of [Object.prototype], under the names they are inherited
    by. *)
Definition prototypeMethods : list string :=
  ["hasOwnProperty"; "isPrototypeOf"; "propertyIsEnumerable";
   "toLocaleString"; "toString"; "valueOf";
   "__defineGetter__"; "__defineSetter__";
   "__lookupGetter__"; "__lookupSetter__"].

(** The string that [Object.prototype[k]] becomes under [+], when the
    prototype has a property [k].  [nativeText f] is the text the host
    prints for its built-in function [f], such as
    "function toString() { [native code] }"; "constructor" is the function
    [Object], and "__proto__" reads as the prototype, an ordinary object. *)
Definition inheritedText (nativeText : string -> string) (k : string)
  : option string :=
  if String.eqb k "__proto__" then Some "[object Object]"
  else if String.eqb k "constructor" then Some (nativeText "Object")
  else if Str.arrayIncludes prototypeMethods k then Some (nativeText k)
  else None.

(** What reading [obj[k]] finds: a property of the object itself, an object
    inherited from the prototype (given by the string it converts to), or
    [undefined]. *)
Inductive PropertyRead (G : Type) : Type :=
| Own (g : G)
| Inherited (text : string)
| Missing.

Arguments Own {G} g.
Arguments Inherited {G} text.
Arguments Missing {G}.

Section PlainObject.
Context {R G : Type}.
Variable nativeText : string -> string.
Variable keyOf : R -> string.
Variable next : R -> PropertyRead G -> G.

(** What [Object.prototype] answers for the key [k]. *)
Definition inheritedRead (k : string) : PropertyRead G :=
  match inheritedText nativeText k with
  | Some text => Inherited text
  | None => Missing
  end.

(** [obj[k]] *)
Definition readProperty (obj : list (string * G)) (k : string)
  : PropertyRead G :=
  match lookupKey k obj with
  | Some g => Own g
  | None => inheritedRead k
  end.

(** [obj[k] = g] for a number or a string [g].  Under the key "__proto__"
    the assignment reaches the inherited setter, which ignores a value that
    is not an object: no property is created. *)
Definition writeProperty (k : string) (g : G) (obj : list (string * G))
  : list (string * G) :=
  if String.eqb k "__proto__" then obj
  else if hasKey k obj then updateKey k (fun _ => g) obj
  else (obj ++ [(k, g)])%list.

(** One iteration of a [forEach] body of the form
    [obj[k] = next(obj[k])]. *)
Definition accumulateStep (obj : list (string * G)) (row : R)
  : list (string * G) :=
  let k := keyOf row in
  writeProperty k (next row (readProperty obj k)) obj.

(** The object after the loop, its properties in creation order. *)
Definition accumulate (rs : list R) : list (string * G) :=
  fold_left accumulateStep rs [].

End PlainObject.

(** A value of the [counts] object of [getPieData]: a number, or the string
    that [+ 1] made of an inherited object.  The numbers are row counts and
    are kept exact. *)
Inductive Counter : Type :=
| Tally (n : Z)
| Spelled (s : string).

Section Charts.
Context `{Runtime}.
Variable data : DashboardData.
Variable st : State.
Variable clock : Z.

(** [data.headers.filter(h => data.types[h] === 'string' && !h.toLowerCase().includes('id'))] *)
Definition categoricalHeaders : list string :=
  List.filter (fun h =>
                 match types data !! h with Some TString => true | _ => false end
                 && negb (Str.includes (toLowerCase h) "id"))
              (headers data).

(** [data.headers.filter(h => data.types[h] === 'number' && !h.toLowerCase().includes('id'))] *)
Definition metricHeaders : list string :=
  List.filter (fun h =>
                 match types data !! h with Some TNumber => true | _ => false end
                 && negb (Str.includes (toLowerCase h) "id"))
              (headers data).

(** [a || b] on two possibly missing strings. *)
Definition orElse (a : option string) (b : option string) : option string :=
  match a with
  | Some s => if Str.truthy s then Some s else b
  | None => b
  end.

(** The initial [chartCat]:
    [colProduto || colCampaign || categoricalHeaders[0] || ''] *)
Definition initialChartCat : string :=
  orEmpty (orElse (colProduto data)
             (orElse (colCampaign data) (List.head categoricalHeaders))).

(** The initial [chartMet]: [colFaturamento || metricHeaders[0] || ''] *)
Definition initialChartMet : string :=
  orEmpty (orElse (colFaturamento data) (List.head metricHeaders)).

(** [String(row[chartCat]) || 'N/A'] *)
Definition chartKey (chartCat : string) (row : IndexedRow) : string :=
  let s := ToString (cell row chartCat) in
  if Str.truthy s then s else "N/A".

(** The text the host prints for a built-in function. *)
Variable nativeText : string -> string.

(** [(aggregated[k] || 0) + v] with [v = Number(row[chartMet]) || 0]: a sum
    of numbers, or a string when what was read is a string or an inherited
    object. *)
Definition chartNext (chartMet : string) (row : IndexedRow)
  (current : PropertyRead value) : value :=
  let v := Num.orZero (ToNumber (cell row chartMet)) in
  match current with
  | Own (VNumber x) => VNumber (Num.orZero x + v)
  | Own (VString s) =>
      if Str.truthy s then VString (s ++ NumberToString v)
      else VNumber (0 + v)
  | Own VUndefined => VNumber (0 + v)
  | Inherited text => VString (text ++ NumberToString v)
  | Missing => VNumber (0 + v)
  end.

(** The same step on a bar that holds the number [acc]. *)
Definition chartAbsorb (chartMet : string) (row : IndexedRow) (acc : float) : float :=
  (Num.orZero acc + Num.orZero (ToNumber (cell row chartMet)))%float.

(** The [aggregated] object after the loop. *)
Definition chartSums (chartCat chartMet : string) : list (string * value) :=
  accumulate nativeText (chartKey chartCat) (chartNext chartMet)
             (filteredRows data st clock).

(** [chartData]: the list of [{ name, value }], as pairs.  The comparator
    [b.value - a.value] is NaN, hence not positive, where a value is not a
    number. *)
Definition chartData (chartCat chartMet : string) : list (string * value) :=
  if negb (Str.truthy chartCat) || negb (Str.truthy chartMet) then []
  else
    firstn 15
      (sortStable (fun a b => (0 <? ToNumber (snd b) - ToNumber (snd a))%float)
         (ownEntries (chartSums chartCat chartMet))).

(** [String(row[col] || 'N/A').trim()] *)
Definition pieKey (col : string) (row : IndexedRow) : string :=
  trim (stringOr (cell row col) "N/A").

(** [(counts[val] || 0) + 1] *)
Definition pieNext (row : IndexedRow) (current : PropertyRead Counter)
  : Counter :=
  match current with
  | Own (Tally n) => Tally (n + 1)
  | Own (Spelled s) =>
      if Str.truthy s then Spelled (s ++ NumberToString 1) else Tally 1
  | Inherited text => Spelled (text ++ NumberToString 1)
  | Missing => Tally 1
  end.

(** The [counts] object of [getPieData] after the loop. *)
Definition pieCounts (col : string) : list (string * Counter) :=
  accumulate nativeText (pieKey col) pieNext (filteredRows data st clock).

(** [Number(value)] for a value of [counts]. *)
Definition counterNumber (c : Counter) : float :=
  match c with
  | Tally n => Num.ofNat (Z.to_nat n)
  | Spelled s => StringToNumber s
  end.

(** The comparator [b.value - a.value] is positive: on two counts, the
    second is the larger; it is NaN, hence not positive, where a value is
    not a number.  With such a value among them the comparator no longer
    orders the entries, and the order is stated for counts only. *)
Definition pieAfter (a b : string * Counter) : bool :=
  match snd a, snd b with
  | Tally x, Tally y => y - x >? 0
  | _, _ => (0 <? counterNumber (snd b) - counterNumber (snd a))%float
  end.

(** [getPieData(col)]: the list of [{ name, value }], as pairs. *)
Definition getPieData (col : option string) : list (string * Counter) :=
  match col with
  | Some c =>
      if Str.truthy c
      then firstn 5 (sortStable pieAfter (ownEntries (pieCounts c)))
      else []
  | None => []
  end.

(** One iteration of the [forEach] of [salesByDay]; [None] once
    [toISOString] has thrown. *)
Definition dayStep (acc : option (list (string * Z))) (row : IndexedRow)
  : option (list (string * Z)) :=
  match acc with
  | None => None
  | Some daily =>
      match parseBrazilianDate (cell row (orEmpty (colData data))) with
      | None => Some daily
      | Some d =>
          match toISOString d with
          | None => None
          | Some iso =>
              Some (groupStep (fun k => k) (fun _ => 0) (fun _ n => n + 1)
                              daily (Str.splitHead "T" iso))
          end
      end
  end.

(** The [daily] object after the loop. *)
Definition dailyCounts : option (list (string * Z)) :=
  fold_left dayStep (filteredRows data st clock) (Some []).

(** [date.split('-').reverse().slice(0, 2).join('/')] *)
Definition dayLabel (full : string) : string :=
  String.concat "/" (firstn 2 (rev (Str.split "-" full))).

(** [salesByDay]; [localeCompare a b] is the sign of [a.localeCompare(b)],
    which is the host's collation.  [None] is the [RangeError]. *)
Definition salesByDay (localeCompare : string -> string -> Z)
  : option (list ByDay.Point) :=
  match dailyCounts with
  | None => None
  | Some daily =>
      Some (sortStable
              (fun a b => localeCompare (ByDay.full a) (ByDay.full b) >? 0)
              (map (fun p => {| ByDay.date := dayLabel (fst p);
                                ByDay.sales := snd p;
                                ByDay.full := fst p |})
                   (ownEntries daily)))
  end.

End Charts.

(** The keys that the date loop reaches, in row order; [None] when one of
    the dates cannot be printed. *)
Fixpoint dayKeys `{Runtime} (data : DashboardData) (rs : list IndexedRow)
  : option (list string) :=
  match rs with
  | [] => Some []
  | row :: rest =>
      match parseBrazilianDate (cell row (orEmpty (colData data))) with
      | None => dayKeys data rest
      | Some d =>
          match toISOString d, dayKeys data rest with
          | Some iso, Some keys => Some (Str.splitHead "T" iso :: keys)
          | _, _ => None
          end
      end
  end.

(** More sample data. *)
Module Scenario.

(** Sales with campaigns, one of them named by a number. *)
Definition campaigns : DashboardData := {|
  headers := ["id"; "data"; "produto"; "valor"; "campanha"];
  types := list_to_map [("id", TString); ("data", TString);
                        ("produto", TString); ("valor", TNumber);
                        ("campanha", TString)];
  rows := [
    Sample.row [("id", VString "s1"); ("data", VString "01/03/2024");
                ("produto", VString "B"); ("valor", VNumber 100);
                ("campanha", VString "verao")];
    Sample.row [("id", VString "s2"); ("data", VString "15/03/2024");
                ("produto", VString "A"); ("valor", VNumber 50);
                ("campanha", VString "7")];
    Sample.row [("id", VString "s3"); ("data", VString "01/03/2024");
                ("produto", VString "B"); ("valor", VNumber 30);
                ("campanha", VString "verao")];
    Sample.row [("id", VString "s4"); ("data", VString "14/03/2024");
                ("produto", VString ""); ("valor", VString "x")]
  ]
|}.

(** Sales of products whose names are also names of [Object.prototype]. *)
Definition inheritedNames : DashboardData := {|
  headers := ["id"; "data"; "produto"; "valor"];
  types := list_to_map [("id", TString); ("data", TString);
                        ("produto", TString); ("valor", TNumber)];
  rows := [
    Sample.row [("id", VString "s1"); ("data", VString "01/03/2024");
                ("produto", VString "constructor"); ("valor", VNumber 100)];
    Sample.row [("id", VString "s2"); ("data", VString "15/03/2024");
                ("produto", VString "A"); ("valor", VNumber 50)];
    Sample.row [("id", VString "s3"); ("data", VString "01/03/2024");
                ("produto", VString "__proto__"); ("valor", VNumber 30)];
    Sample.row [("id", VString "s4"); ("data", VString "14/03/2024");
                ("produto", VString "constructor"); ("valor", VNumber 7)]
  ]
|}.

(** The text one engine prints for a built-in function. *)
Definition nativeText (name : string) : string :=
  ("function " ++ name ++ "() { [native code] }")%string.

(** Code-unit order as the collation. *)
Definition codeUnitOrder (a b : string) : Z :=
  match String.compare a b with
  | Lt => -1
  | Eq => 0
  | Gt => 1
  end.

End Scenario.

(** * Properties *)

(** ** Strings *)

Lemma startsWith_refl (s : string) : Str.startsWith s s = true.
Proof.
  induction s as [|c s IH]; simpl; [reflexivity|].
  rewrite Ascii.eqb_refl. exact IH.
Qed.

Lemma includes_refl (s : string) : Str.includes s s = true.
Proof.
  destruct s; simpl; [reflexivity|].
  rewrite Ascii.eqb_refl, startsWith_refl. reflexivity.
Qed.

(** Equality is a special case of containment, so the first disjunct of the
    callback of [findHeader] never decides. *)
Lemma eqb_includes (a b : string) :
  (String.eqb a b || Str.includes a b) = Str.includes a b.
Proof.
  destruct (String.eqb a b) eqn:E; [|reflexivity].
  apply String.eqb_eq in E. subst b. simpl. symmetry. apply includes_refl.
Qed.

Lemma arrayIncludes_In (l : list string) (x : string) :
  Str.arrayIncludes l x = true <-> In x l.
Proof.
  unfold Str.arrayIncludes. rewrite existsb_exists. split.
  - intros [y [Hy Heq]]. apply String.eqb_eq in Heq. now subst.
  - intros Hx. exists x. split; [exact Hx | apply String.eqb_refl].
Qed.

(** ** Row identities *)

Lemma indexFrom_ids (rs : list (gmap string value)) (i : nat) :
  map _id (indexFrom i rs) = seq i (length rs).
Proof.
  revert i. induction rs as [|r rs IH]; intros i; simpl; [reflexivity|].
  now rewrite IH.
Qed.

Lemma indexFrom_lookup (rs : list (gmap string value)) (i : nat) (r : IndexedRow) :
  In r (indexFrom i rs) ->
  (i <= _id r)%nat /\ rs !! (_id r - i)%nat = Some (cells r).
Proof.
  revert i. induction rs as [|r0 rs IH]; intros i; simpl; [tauto|].
  intros [<- | Hin].
  - simpl. split; [lia|]. now rewrite Nat.sub_diag.
  - destruct (IH _ Hin) as [Hle Hlk]. split; [lia|].
    replace (_id r - i)%nat with (S (_id r - S i)) by lia. exact Hlk.
Qed.

Lemma filter_sublist {A : Type} (f : A -> bool) (l : list A) :
  sublist (List.filter f l) l.
Proof.
  induction l as [|x l IH]; simpl; [constructor|].
  destruct (f x); now constructor.
Qed.

Lemma filter_ids_sorted (f : IndexedRow -> bool) (l : list IndexedRow) :
  StronglySorted lt (map _id l) ->
  StronglySorted lt (map _id (List.filter f l)).
Proof.
  induction l as [|x l IH]; simpl; intros Hs; [constructor|].
  apply StronglySorted_inv in Hs as [Hs Hall].
  destruct (f x); simpl; [|now apply IH].
  constructor; [now apply IH|].
  apply List.Forall_forall. intros y Hy.
  apply (proj1 (List.Forall_forall _ _) Hall).
  rewrite List.in_map_iff in *. destruct Hy as [z [<- Hz]].
  exists z. split; [reflexivity|]. now apply filter_In in Hz.
Qed.

Lemma seq_sorted (len i : nat) : StronglySorted lt (seq i len).
Proof.
  revert i. induction len as [|len IH]; intros i; simpl; constructor.
  - apply IH.
  - apply List.Forall_forall. intros y Hy. apply in_seq in Hy. lia.
Qed.

Lemma sorted_lt_NoDup (l : list nat) : StronglySorted lt l -> NoDup l.
Proof.
  induction 1 as [|x l Hs IH Hall]; constructor; [|exact IH].
  intros Hin. apply list_elem_of_In in Hin.
  pose proof (proj1 (List.Forall_forall _ _) Hall _ Hin). lia.
Qed.

(** C9.  Whatever the dataset and the filter state, the filtered list is an
    order-preserving subsequence of [rowsWithIndex]: every element is an
    original row at the position its [_id] names (and reads its [_id] as
    that position), the [_id]s met along the list increase strictly, and
    none occurs twice. *)
Theorem C9_filtered_rows_keep_order_and_ids
  `{Runtime} (data : DashboardData) (st : State) (clock : Z) :
  let out := filteredRows data st clock in
  sublist out (rowsWithIndex data)
  /\ Forall (fun r => rows data !! _id r = Some (cells r)
                      /\ cell r "_id" = VNumber (Num.ofNat (_id r))) out
  /\ StronglySorted lt (map _id out)
  /\ NoDup (map _id out).
Proof.
  intros out. unfold out, filteredRows, rowsWithIndex.
  assert (Hsorted : StronglySorted lt
            (map _id (List.filter (includeRow data st clock)
                                  (indexFrom 0 (rows data))))).
  { apply filter_ids_sorted. rewrite indexFrom_ids. apply seq_sorted. }
  split; [apply filter_sublist|].
  split; [|split; [exact Hsorted | now apply sorted_lt_NoDup]].
  apply List.Forall_forall. intros r Hr.
  apply filter_In in Hr as [Hr _].
  apply indexFrom_lookup in Hr as [_ Hlk].
  rewrite Nat.sub_0_r in Hlk. split; [exact Hlk | reflexivity].
Qed.

(** C9 on the sample: a search for "b" keeps the third sale only, still
    numbered 2. *)
Lemma C9_filtered_rows_sample :
  map _id (@filteredRows (refRuntime 0) Sample.sales
             (Sample.withSearch "b" initialState) Sample.clock) = [2%nat]
  /\ NoDup [2%nat].
Proof.
  pose proof (C9_filtered_rows_keep_order_and_ids
                (H := refRuntime 0) Sample.sales
                (Sample.withSearch "b" initialState) Sample.clock) as HC.
  cbv zeta in HC. destruct HC as (_ & _ & _ & Hnd).
  assert (E : map _id (@filteredRows (refRuntime 0) Sample.sales
             (Sample.withSearch "b" initialState) Sample.clock) = [2%nat])
    by (vm_compute; reflexivity).
  split; [exact E|]. rewrite <- E. exact Hnd.
Defined.

(** ** Clearing the filters *)

(** The date block lets every row through once the preset is "all". *)
Lemma passesDate_all `{Runtime} (data : DashboardData) (st : State)
  (clock : Z) (row : IndexedRow) :
  datePreset st = PresetAll -> passesDate data st clock row = true.
Proof.
  intros Hp. unfold passesDate. rewrite Hp.
  destruct (colData data); [|reflexivity].
  now rewrite andb_false_r.
Qed.

(** C7, as the component does it.  [clearAllFilters] empties the selected
    values, the search text and the per-column search texts, sets the date
    preset to "all" and closes the header popup; it leaves the custom start
    and end dates as they were (with the preset at "all" they exclude no
    row), and it leaves the overall investment, the per-cluster investments
    and the view untouched. *)
Theorem C7_clear_all_keeps_investments_and_custom_bounds
  `{Runtime} (st : State) :
  let st' := clearAllFilters st in
  filters st' = ∅
  /\ searchTerm st' = ""
  /\ columnSearchTerms st' = ∅
  /\ datePreset st' = PresetAll
  /\ activeHeaderFilter st' = None
  /\ customStartDate st' = customStartDate st
  /\ customEndDate st' = customEndDate st
  /\ manualInvestment st' = manualInvestment st
  /\ groupInvestments st' = groupInvestments st
  /\ viewMode st' = viewMode st
  /\ (forall data clock row, passesDate data st' clock row = true).
Proof.
  intros st'. repeat split.
  intros data clock row. now apply passesDate_all.
Qed.

(** C7, as stated, fails: a custom range entered before "clear all" is still
    there afterwards. *)
Lemma C7_custom_bounds_are_not_cleared :
  let st := Sample.withCustomRange "2024-03-01" "2024-03-31" initialState in
  ~ clearedAsStated st (clearAllFilters st).
Proof.
  intros st (_ & _ & _ & _ & Hstart & _). discriminate Hstart.
Qed.

(** ** KPI *)

Lemma fold_left_map_add {A : Type} (g : A -> float) (l : list A) (a : float) :
  fold_left (fun acc x => (acc + g x)%float) l a
  = fold_left PrimFloat.add (map g l) a.
Proof.
  revert a. induction l as [|x l IH]; intros a; simpl; [reflexivity|].
  apply IH.
Qed.

(** C1.  The KPI revenue is the left-to-right sum, starting from 0, of the
    revenue contributions of exactly the rows the filter keeps; a row
    contributes its revenue cell read as a number, and 0 when that number is
    NaN (cell missing or not numeric) or zero.  Tax is revenue times 0.06,
    profit is revenue minus the manual investment minus tax, and ROAS is
    revenue over investment when the investment is positive and the number
    0, neither NaN nor infinite, otherwise. *)
Theorem C1_kpi_totals
  `{Runtime} (data : DashboardData) (st : State) (clock : Z) :
  let kept := List.filter (includeRow data st clock) (rowsWithIndex data) in
  let s := stats data st clock in
  let R := fat s in
  let investment := manualInvestment st in
  R = fold_left PrimFloat.add (map (revenueOf data) kept) 0%float
  /\ (forall row,
        revenueOf data row
        = let x := ToNumber (cell row (orEmpty (colFaturamento data))) in
          if is_nan x || is_zero x then 0%float else x)
  /\ (forall row,
        cell row (orEmpty (colFaturamento data)) = VUndefined ->
        revenueOf data row = 0%float)
  /\ (forall row,
        is_nan (ToNumber (cell row (orEmpty (colFaturamento data)))) = true ->
        revenueOf data row = 0%float)
  /\ imp s = (R * 0.06)%float
  /\ gas s = investment
  /\ luc s = (R - investment - imp s)%float
  /\ roas s = (if (0 <? investment)%float then (R / investment)%float
               else 0%float)
  /\ ((0 <? investment)%float = false ->
      roas s = 0%float
      /\ is_nan (roas s) = false /\ is_infinity (roas s) = false).
Proof.
  intros kept s R investment.
  assert (Hrev : forall row,
             revenueOf data row
             = let x := ToNumber (cell row (orEmpty (colFaturamento data))) in
               if is_nan x || is_zero x then 0%float else x).
  { intros row. unfold revenueOf, Num.orZero, Num.truthy. cbv zeta.
    now destruct (is_nan _ || is_zero _). }
  split; [|split; [exact Hrev|]].
  { unfold R, s, stats, kept, filteredRows. simpl. apply fold_left_map_add. }
  split.
  { intros row Hc. rewrite Hrev, Hc. reflexivity. }
  split.
  { intros row Hn. rewrite Hrev. cbv zeta. now rewrite Hn. }
  do 4 (split; [reflexivity|]).
  intros Hgas. unfold s, stats, investment in *. simpl.
  rewrite Hgas. repeat split.
Qed.

(** C1 on the sample: no filter, no investment entered. *)
Lemma C1_kpi_totals_sample :
  let s := @stats (refRuntime 0) Sample.sales initialState Sample.clock in
  fat s = 180%float /\ roas s = 0%float /\ is_nan (roas s) = false.
Proof.
  intros s.
  destruct (C1_kpi_totals (H := refRuntime 0) Sample.sales initialState
              Sample.clock) as (HR & _ & _ & _ & _ & _ & _ & _ & Hz).
  destruct Hz as (Hr & Hn & _); [reflexivity|].
  split; [|split; [exact Hr | exact Hn]].
  etransitivity; [exact HR|]. vm_compute. reflexivity.
Defined.

(** ** Categorical filters *)

Lemma matchesFilters_spec `{Runtime} (st : State) (row : IndexedRow) :
  matchesFilters st row = true
  <-> forall col vals,
        filters st !! col = Some vals ->
        selectionAllows vals (ToString (cell row col)) = true.
Proof.
  unfold matchesFilters. rewrite forallb_forall. split.
  - intros Hall col vals Hlk.
    apply elem_of_map_to_list, list_elem_of_In in Hlk.
    specialize (Hall _ Hlk). simpl in Hall.
    destruct vals; [reflexivity | exact Hall].
  - intros Hall [col vals] Hin.
    apply list_elem_of_In, elem_of_map_to_list in Hin.
    specialize (Hall _ _ Hin). destruct vals; [reflexivity | exact Hall].
Qed.

Lemma filter_neq_id (val : string) (l : list string) :
  ~ In val l -> List.filter (fun v => negb (String.eqb v val)) l = l.
Proof.
  induction l as [|x l IH]; simpl; intros Hn; [reflexivity|].
  destruct (String.eqb x val) eqn:E; simpl.
  - apply String.eqb_eq in E. exfalso. apply Hn. now left.
  - f_equal. apply IH. tauto.
Qed.

Lemma filter_neq_In (val x : string) (l : list string) :
  In x (List.filter (fun v => negb (String.eqb v val)) l)
  <-> In x l /\ x <> val.
Proof.
  rewrite filter_In, negb_true_iff. split; intros [Hin Hne]; split; trivial.
  - intros ->. now rewrite String.eqb_refl in Hne.
  - now apply String.eqb_neq.
Qed.

(** Toggling a value twice gives back a selection with the same members,
    hence the same test. *)
Lemma toggled_twice_members (val : string) (current : list string) (x : string) :
  In x (toggled val (toggled val current)) <-> In x current.
Proof.
  unfold toggled at 2.
  destruct (Str.arrayIncludes current val) eqn:E.
  - apply arrayIncludes_In in E. unfold toggled.
    destruct (Str.arrayIncludes _ val) eqn:E2.
    + apply arrayIncludes_In, filter_neq_In in E2.
      destruct E2 as [_ Hc]. now contradiction Hc.
    + rewrite in_app_iff, filter_neq_In. simpl.
      destruct (String.eqb_spec x val) as [-> | Hne]; [tauto|].
      split; [intros [[Hin _] | [Heq | []]] | intros Hin].
      * exact Hin.
      * now subst.
      * left. now split.
  - assert (Hn : ~ In val current).
    { intros Hin. apply arrayIncludes_In in Hin. congruence. }
    unfold toggled.
    replace (Str.arrayIncludes (current ++ [val]) val) with true.
    + rewrite List.filter_app, filter_neq_id by exact Hn. simpl.
      rewrite String.eqb_refl. simpl. now rewrite app_nil_r.
    + symmetry. apply arrayIncludes_In, in_app_iff. right. now left.
Qed.

Lemma selectionAllows_members (l1 l2 : list string) (x : string) :
  (forall y, In y l1 <-> In y l2) ->
  selectionAllows l1 x = selectionAllows l2 x.
Proof.
  intros Hm.
  destruct l1 as [|a l1], l2 as [|b l2]; unfold selectionAllows;
    try reflexivity.
  - exfalso. apply (proj2 (Hm b)). now left.
  - exfalso. apply (proj1 (Hm a)). now left.
  - apply eq_iff_eq_true.
    split; intros Hx; apply arrayIncludes_In; apply arrayIncludes_In in Hx;
      now apply Hm.
Qed.

Lemma toggleFilter_filters (column val : string) (st : State) :
  filters (toggleFilter column val st)
  = <[column := toggled val (default [] (filters st !! column))]> (filters st).
Proof. reflexivity. Qed.

Lemma matchesFilters_toggle_twice `{Runtime} (st : State)
  (column val : string) (row : IndexedRow) :
  matchesFilters (toggleFilter column val (toggleFilter column val st)) row
  = matchesFilters st row.
Proof.
  apply eq_iff_eq_true. rewrite !matchesFilters_spec.
  rewrite !toggleFilter_filters.
  rewrite lookup_insert_eq. simpl. rewrite insert_insert_eq.
  set (current := default [] (filters st !! column)).
  assert (Hsame : forall x,
             selectionAllows (toggled val (toggled val current)) x
             = selectionAllows current x).
  { intros x. apply selectionAllows_members. intros y.
    apply toggled_twice_members. }
  split; intros Hall col vals Hlk.
  - destruct (decide (column = col)) as [<- | Hne].
    + replace vals with current by (unfold current; now rewrite Hlk).
      rewrite <- Hsame. apply (Hall column). apply lookup_insert_eq.
    + apply (Hall col). now rewrite lookup_insert_ne.
  - destruct (decide (column = col)) as [<- | Hne].
    + rewrite lookup_insert_eq in Hlk. injection Hlk as <-.
      rewrite Hsame. unfold current.
      destruct (filters st !! column) as [cur|] eqn:E; simpl.
      * now apply (Hall column).
      * reflexivity.
    + rewrite lookup_insert_ne in Hlk by exact Hne. now apply (Hall col).
Qed.

Lemma filter_ext_eq {A : Type} (f g : A -> bool) (l : list A) :
  (forall x, f x = g x) -> List.filter f l = List.filter g l.
Proof.
  intros Hfg. induction l as [|x l IH]; simpl; [reflexivity|].
  now rewrite Hfg, IH.
Qed.

Lemma toggled_twice (val : string) (current : list string) :
  toggled val (toggled val current) = toggledTwice val current.
Proof.
  unfold toggledTwice.
  destruct (Str.arrayIncludes current val) eqn:E.
  - assert (E2 : Str.arrayIncludes
                   (List.filter (fun v => negb (String.eqb v val)) current)
                   val = false).
    { apply not_true_is_false. intros E2.
      apply arrayIncludes_In, filter_neq_In in E2.
      destruct E2 as [_ Hc]. now contradiction Hc. }
    unfold toggled. rewrite E. now rewrite E2.
  - assert (Hn : ~ In val current).
    { intros Hin. apply arrayIncludes_In in Hin. congruence. }
    unfold toggled. rewrite E.
    replace (Str.arrayIncludes (current ++ [val]) val) with true.
    + rewrite List.filter_app, filter_neq_id by exact Hn. simpl.
      rewrite String.eqb_refl. simpl. now rewrite app_nil_r.
    + symmetry. apply arrayIncludes_In, in_app_iff. right. now left.
Qed.




(** ** Free-text search *)

Lemma toLowerCase_undefined `{Runtime} : toLowerCase "undefined" = "undefined".
Proof. now rewrite toLowerCase_ascii. Qed.



(** ** Header resolution *)

Lemma headerMatches_includes `{Runtime} (keys : list string) (h : string) :
  headerMatches keys h
  = existsb (fun k => Str.includes (toLowerCase h) (toLowerCase k)) keys.
Proof.
  unfold headerMatches. induction keys as [|k keys IH]; simpl; [reflexivity|].
  now rewrite eqb_includes, IH.
Qed.

Lemma find_ext {A : Type} (f g : A -> bool) (l : list A) :
  (forall x, f x = g x) -> List.find f l = List.find g l.
Proof.
  intros Hfg. induction l as [|a l IH]; simpl; [reflexivity|].
  now rewrite Hfg, IH.
Qed.

Lemma find_first {A : Type} (f : A -> bool) (l : list A) :
  match List.find f l with
  | Some x => exists l1 l2, l = (l1 ++ x :: l2)%list /\ f x = true
                            /\ Forall (fun y => f y = false) l1
  | None => Forall (fun y => f y = false) l
  end.
Proof.
  induction l as [|a l IH]; simpl; [constructor|].
  destruct (f a) eqn:E.
  - exists [], l. repeat split; [exact E | constructor].
  - destruct (List.find f l) as [x|].
    + destruct IH as (l1 & l2 & -> & Hx & Hall).
      exists (a :: l1), l2. repeat split; [exact Hx | now constructor].
    + now constructor.
Qed.

(** C4, as the component does it.  [findHeader] returns the header at the
    hint position when the hint is given and that header exists and is not
    empty; otherwise the first header, in header order, whose lower-case
    form contains the lower-case form of one of the candidates (a header
    equal to a candidate is one that contains it, and gets no precedence
    over an earlier header that merely contains one); otherwise nothing. *)
Theorem C4_findHeader_hint_then_first_containing
  `{Runtime} (data : DashboardData) (keys : list string)
  (indexHint : option nat) :
  let contains h :=
    existsb (fun k => Str.includes (toLowerCase h) (toLowerCase k)) keys in
  findHeader data keys indexHint
  = match hintedHeader (headers data) indexHint with
    | Some h => Some h
    | None => firstContaining keys (headers data)
    end
  /\ match firstContaining keys (headers data) with
     | Some h => exists before rest,
                   headers data = (before ++ h :: rest)%list
                   /\ contains h = true
                   /\ Forall (fun h' => contains h' = false) before
     | None => Forall (fun h' => contains h' = false) (headers data)
     end.
Proof.
  intros contains. split.
  - unfold findHeader, hintedHeader, firstContaining.
    destruct indexHint as [i|]; [destruct (headers data !! i) as [h|];
      [destruct (Str.truthy h)|]|]; try reflexivity;
      apply find_ext; intros h'; apply headerMatches_includes.
  - apply (find_first contains).
Qed.

(** C4, as stated, fails: the header "Produto" equals a candidate, yet the
    earlier header "ID Produto", which only contains it, is the one
    returned. *)
Lemma C4_equal_header_has_no_precedence :
  @findHeader (refRuntime 0) Sample.catalogue
     ["produto"; "nome do produto"] (Some 7%nat) = Some "ID Produto"
  /\ @findHeaderAsStated (refRuntime 0) Sample.catalogue
       ["produto"; "nome do produto"] (Some 7%nat) = Some "Produto"
  /\ @findHeader (refRuntime 0) Sample.catalogue
       ["produto"; "nome do produto"] (Some 7%nat)
     <> @findHeaderAsStated (refRuntime 0) Sample.catalogue
          ["produto"; "nome do produto"] (Some 7%nat).
Proof.
  assert (E1 : @findHeader (refRuntime 0) Sample.catalogue
                 ["produto"; "nome do produto"] (Some 7%nat)
               = Some "ID Produto") by (vm_compute; reflexivity).
  assert (E2 : @findHeaderAsStated (refRuntime 0) Sample.catalogue
                 ["produto"; "nome do produto"] (Some 7%nat)
               = Some "Produto") by (vm_compute; reflexivity).
  split; [exact E1 | split; [exact E2 |]].
  rewrite E1, E2. discriminate.
Qed.

(** ** Grouping *)

Section GroupingFacts.
Context {R G : Type}.
Variable keyOf : R -> string.
Variable fresh : R -> G.
Variable absorb : R -> G -> G.

Lemma hasKey_lookupKey (k : string) (gs : list (string * G)) :
  hasKey k gs = match lookupKey k gs with Some _ => true | None => false end.
Proof.
  induction gs as [|[k' g] gs IH]; simpl; [reflexivity|].
  destruct (String.eqb k k'); [reflexivity | exact IH].
Qed.

Lemma lookupKey_updateKey (k k' : string) (f : G -> G) (gs : list (string * G)) :
  lookupKey k (updateKey k' f gs)
  = if String.eqb k k' then option_map f (lookupKey k gs) else lookupKey k gs.
Proof.
  induction gs as [|[k0 g] gs IH]; simpl.
  - now destruct (String.eqb k k').
  - destruct (String.eqb_spec k' k0) as [-> | Hne]; simpl.
    + destruct (String.eqb_spec k k0) as [-> | Hne']; reflexivity.
    + rewrite IH.
      destruct (String.eqb_spec k k0) as [-> | Hne']; [|reflexivity].
      destruct (String.eqb_spec k0 k'); [congruence | reflexivity].
Qed.

Lemma lookupKey_snoc (k k' : string) (g : G) (gs : list (string * G)) :
  lookupKey k (gs ++ [(k', g)])
  = match lookupKey k gs with
    | Some x => Some x
    | None => if String.eqb k k' then Some g else None
    end.
Proof.
  induction gs as [|[k0 g0] gs IH]; simpl; [reflexivity|].
  destruct (String.eqb k k0); [reflexivity | exact IH].
Qed.

(** What one iteration does to the group stored under each key. *)
Lemma lookupKey_groupStep (k : string) (gs : list (string * G)) (r : R) :
  lookupKey k (groupStep keyOf fresh absorb gs r)
  = if String.eqb k (keyOf r)
    then Some (absorb r (default (fresh r) (lookupKey (keyOf r) gs)))
    else lookupKey k gs.
Proof.
  unfold groupStep. rewrite lookupKey_updateKey, hasKey_lookupKey.
  destruct (String.eqb_spec k (keyOf r)) as [-> | Hne].
  - destruct (lookupKey (keyOf r) gs) as [g|] eqn:E; simpl.
    + now rewrite E.
    + now rewrite lookupKey_snoc, E, String.eqb_refl.
  - destruct (lookupKey (keyOf r) gs) as [g|] eqn:E; [reflexivity|].
    rewrite lookupKey_snoc.
    destruct (lookupKey k gs); [reflexivity|].
    destruct (String.eqb_spec k (keyOf r)); [contradiction | reflexivity].
Qed.

Lemma keys_updateKey (k : string) (f : G -> G) (gs : list (string * G)) :
  map fst (updateKey k f gs) = map fst gs.
Proof.
  induction gs as [|[k0 g] gs IH]; simpl; [reflexivity|].
  destruct (String.eqb k k0); simpl; [reflexivity | now rewrite IH].
Qed.

Lemma keys_groupStep (gs : list (string * G)) (r : R) :
  map fst (groupStep keyOf fresh absorb gs r)
  = if hasKey (keyOf r) gs then map fst gs
    else (map fst gs ++ [keyOf r])%list.
Proof.
  unfold groupStep. rewrite keys_updateKey.
  destruct (hasKey (keyOf r) gs); [reflexivity|].
  now rewrite map_app.
Qed.

Lemma hasKey_In (k : string) (gs : list (string * G)) :
  hasKey k gs = true <-> In k (map fst gs).
Proof.
  induction gs as [|[k0 g] gs IH]; simpl; [split; [discriminate | tauto]|].
  rewrite orb_true_iff, IH, String.eqb_eq. split; intros [E | E]; auto.
Qed.

Lemma groupRows_snoc (rs : list R) (r : R) :
  groupRows keyOf fresh absorb (rs ++ [r])
  = groupStep keyOf fresh absorb (groupRows keyOf fresh absorb rs) r.
Proof. unfold groupRows. now rewrite fold_left_app. Qed.

(** No key is created twice. *)
Lemma groupRows_keys_NoDup (rs : list R) :
  NoDup (map fst (groupRows keyOf fresh absorb rs)).
Proof.
  induction rs as [|r rs IH] using rev_ind; [constructor|].
  rewrite groupRows_snoc, keys_groupStep.
  destruct (hasKey (keyOf r) _) eqn:E; [exact IH|].
  apply NoDup_app. repeat split.
  - exact IH.
  - intros k Hk Hk'. apply list_elem_of_In in Hk, Hk'.
    destruct Hk' as [<- | []].
    apply hasKey_In in Hk. congruence.
  - apply NoDup_singleton.
Qed.

(** The group stored under [k] after the pass: none when no row has that
    key; otherwise the record made for the first such row, updated with
    each of those rows in turn. *)
Lemma lookupKey_groupRows (k : string) (rs : list R) :
  lookupKey k (groupRows keyOf fresh absorb rs)
  = match rowsOf keyOf k rs with
    | [] => None
    | r0 :: _ =>
        Some (fold_left (fun g r => absorb r g) (rowsOf keyOf k rs) (fresh r0))
    end.
Proof.
  induction rs as [|r rs IH] using rev_ind; [reflexivity|].
  rewrite groupRows_snoc, lookupKey_groupStep.
  unfold rowsOf in *. rewrite List.filter_app. simpl.
  destruct (String.eqb_spec k (keyOf r)) as [-> | Hne].
  - rewrite String.eqb_refl, IH.
    destruct (List.filter _ rs) as [|r0 t]; simpl; [reflexivity|].
    now rewrite fold_left_app.
  - destruct (String.eqb_spec (keyOf r) k); [congruence|].
    now rewrite app_nil_r.
Qed.

Lemma In_lookupKey (k : string) (g : G) (gs : list (string * G)) :
  NoDup (map fst gs) -> In (k, g) gs -> lookupKey k gs = Some g.
Proof.
  induction gs as [|[k0 g0] gs IH]; simpl; intros Hnd Hin; [tauto|].
  apply NoDup_cons in Hnd as [Hnotin Hnd'].
  destruct Hin as [E | Hin].
  - injection E as -> ->. now rewrite String.eqb_refl.
  - destruct (String.eqb_spec k k0) as [-> | Hne]; [|now apply IH].
    exfalso. apply Hnotin. apply list_elem_of_In.
    apply List.in_map_iff. now exists (k0, g).
Qed.

Lemma lookupKey_In (k : string) (g : G) (gs : list (string * G)) :
  lookupKey k gs = Some g -> In (k, g) gs.
Proof.
  induction gs as [|[k0 g0] gs IH]; simpl; [discriminate|].
  destruct (String.eqb_spec k k0) as [-> | Hne].
  - intros [= ->]. now left.
  - intros Hl. right. now apply IH.
Qed.

(** Counting: a measure that starts at 0 and grows by 1 per absorbed row. *)
Section Counting.
Variable count : G -> Z.
Hypothesis count_fresh : forall r, count (fresh r) = 0.
Hypothesis count_absorb : forall r g, count (absorb r g) = count g + 1.

Lemma count_fold (rs : list R) (g : G) :
  count (fold_left (fun g r => absorb r g) rs g)
  = count g + Z.of_nat (length rs).
Proof.
  revert g. induction rs as [|r rs IH]; intros g; simpl; [lia|].
  rewrite IH, count_absorb. lia.
Qed.

Lemma sum_updateKey (k : string) (r : R) (gs : list (string * G)) :
  hasKey k gs = true ->
  sumZ (map (fun p => count (snd p)) (updateKey k (absorb r) gs))
  = sumZ (map (fun p => count (snd p)) gs) + 1.
Proof.
  induction gs as [|[k0 g] gs IH]; simpl; [discriminate|].
  destruct (String.eqb k k0); simpl.
  - intros _. rewrite count_absorb. lia.
  - intros Hk. rewrite IH by exact Hk. lia.
Qed.

Lemma sumZ_app (l1 l2 : list Z) : sumZ (l1 ++ l2) = sumZ l1 + sumZ l2.
Proof. induction l1 as [|x l1 IH]; simpl; [reflexivity | rewrite IH; lia]. Qed.

Lemma sum_groupStep (gs : list (string * G)) (r : R) :
  sumZ (map (fun p => count (snd p)) (groupStep keyOf fresh absorb gs r))
  = sumZ (map (fun p => count (snd p)) gs) + 1.
Proof.
  unfold groupStep. destruct (hasKey (keyOf r) gs) eqn:E.
  - now apply sum_updateKey.
  - rewrite sum_updateKey.
    + rewrite map_app, sumZ_app. simpl. rewrite count_fresh. lia.
    + apply hasKey_In. rewrite map_app. apply in_app_iff. right. now left.
Qed.

(** The counts of all groups add up to the number of rows. *)
Lemma sum_groupRows (rs : list R) :
  sumZ (map (fun p => count (snd p)) (groupRows keyOf fresh absorb rs))
  = Z.of_nat (length rs).
Proof.
  induction rs as [|r rs IH] using rev_ind; [reflexivity|].
  rewrite groupRows_snoc, sum_groupStep, IH, length_app. simpl. lia.
Qed.

End Counting.

End GroupingFacts.

(** ** Sorting only reorders *)

Lemma insertSorted_Permutation {A : Type} (after : A -> A -> bool)
  (x : A) (l : list A) :
  Permutation (insertSorted after x l) (x :: l).
Proof.
  induction l as [|y l IH]; simpl; [reflexivity|].
  destruct (after x y); [|reflexivity].
  rewrite IH. apply perm_swap.
Qed.

Lemma sortStable_Permutation {A : Type} (after : A -> A -> bool) (l : list A) :
  Permutation (sortStable after l) l.
Proof.
  induction l as [|x l IH]; simpl; [reflexivity|].
  rewrite insertSorted_Permutation. now constructor.
Qed.

Lemma sumZ_Permutation (l1 l2 : list Z) :
  Permutation l1 l2 -> sumZ l1 = sumZ l2.
Proof. induction 1; simpl; lia. Qed.

Lemma NoDup_map_unique {A B : Type} (f : A -> B) (l : list A) (a b : A) :
  NoDup (map f l) -> In a l -> In b l -> f a = f b -> a = b.
Proof.
  induction l as [|x l IH]; simpl; intros Hnd Ha Hb Hab; [tauto|].
  apply NoDup_cons in Hnd as [Hx Hnd].
  assert (Hout : forall c, In c l -> f c <> f x).
  { intros c Hc E. apply Hx. rewrite <- E.
    apply list_elem_of_In. now apply in_map. }
  destruct Ha as [<- | Ha], Hb as [<- | Hb]; try reflexivity.
  - exfalso. now apply (Hout b).
  - exfalso. now apply (Hout a).
  - now apply IH.
Qed.

(** ** The partition made by a grouping pass followed by a sort *)

Section ClusterFacts.
Context {R G : Type}.
Variable keyOf : R -> string.
Variable fresh : R -> G.
Variable absorb : R -> G -> G.
Variable gkey : G -> string.
Variable count : G -> Z.
Variable total : G -> float.
Variable amount : R -> float.
Variable after : G -> G -> bool.
Hypothesis gkey_fresh : forall r, gkey (fresh r) = keyOf r.
Hypothesis gkey_absorb : forall r g, gkey (absorb r g) = gkey g.
Hypothesis count_fresh : forall r, count (fresh r) = 0.
Hypothesis count_absorb : forall r g, count (absorb r g) = count g + 1.
Hypothesis total_fresh : forall r, total (fresh r) = 0%float.
Hypothesis total_absorb :
  forall r g, total (absorb r g) = (total g + amount r)%float.

Lemma gkey_fold (rs : list R) (g : G) :
  gkey (fold_left (fun g r => absorb r g) rs g) = gkey g.
Proof.
  revert g. induction rs as [|r rs IH]; intros g; simpl; [reflexivity|].
  now rewrite IH, gkey_absorb.
Qed.

Lemma total_fold (rs : list R) (g : G) :
  total (fold_left (fun g r => absorb r g) rs g)
  = fold_left PrimFloat.add (map amount rs) (total g).
Proof.
  revert g. induction rs as [|r rs IH]; intros g; simpl; [reflexivity|].
  now rewrite IH, total_absorb.
Qed.

Lemma rowsOf_key (k : string) (rs : list R) (r : R) :
  In r (rowsOf keyOf k rs) -> keyOf r = k.
Proof.
  unfold rowsOf. rewrite filter_In. intros [_ E]. now apply String.eqb_eq.
Qed.

(** What a stored group holds. *)
Lemma stored_group (rs : list R) (k : string) (g : G) :
  In (k, g) (groupRows keyOf fresh absorb rs) ->
  gkey g = k
  /\ rowsOf keyOf k rs <> []
  /\ count g = Z.of_nat (length (rowsOf keyOf k rs))
  /\ total g = fold_left PrimFloat.add (map amount (rowsOf keyOf k rs)) 0%float.
Proof.
  intros Hin.
  apply In_lookupKey in Hin; [|apply groupRows_keys_NoDup].
  rewrite lookupKey_groupRows in Hin.
  destruct (rowsOf keyOf k rs) as [|r0 t] eqn:E; [discriminate|].
  injection Hin as <-.
  assert (Hk : keyOf r0 = k).
  { apply (rowsOf_key k rs). rewrite E. now left. }
  repeat split.
  - etransitivity; [apply (gkey_fold (r0 :: t) (fresh r0))|].
    now rewrite gkey_fresh.
  - discriminate.
  - etransitivity;
      [apply (count_fold absorb count count_absorb (r0 :: t) (fresh r0))|].
    rewrite count_fresh. lia.
  - etransitivity; [apply (total_fold (r0 :: t) (fresh r0))|].
    now rewrite total_fresh.
Qed.

Lemma stored_keys (rs : list R) :
  map gkey (map snd (groupRows keyOf fresh absorb rs))
  = map fst (groupRows keyOf fresh absorb rs).
Proof.
  rewrite map_map. apply map_ext_in. intros [k g] Hin.
  now destruct (stored_group rs k g Hin) as [Hk _].
Qed.

Lemma clusters_partition (rs : list R) :
  Partitions keyOf amount gkey count total rs
    (sortStable after (map snd (groupRows keyOf fresh absorb rs))).
Proof.
  set (clusters :=
         sortStable after (map snd (groupRows keyOf fresh absorb rs))).
  unfold Partitions.
  assert (Hperm : Permutation clusters
                    (map snd (groupRows keyOf fresh absorb rs)))
    by apply sortStable_Permutation.
  assert (Hnd : NoDup (map gkey clusters)).
  { rewrite (Permutation_map gkey Hperm), stored_keys.
    apply groupRows_keys_NoDup. }
  split; [exact Hnd|]. split; [|split].
  - intros r Hr.
    pose proof (lookupKey_groupRows keyOf fresh absorb (keyOf r) rs) as Hl.
    destruct (rowsOf keyOf (keyOf r) rs) as [|r0 t] eqn:E.
    { exfalso. assert (Hin : In r (rowsOf keyOf (keyOf r) rs)).
      { unfold rowsOf. apply filter_In. split; [exact Hr|].
        apply String.eqb_refl. }
      rewrite E in Hin. exact Hin. }
    apply lookupKey_In in Hl.
    destruct (stored_group rs _ _ Hl) as [Hk _].
    eexists. split; [|split; [exact Hk|]].
    + apply (Permutation_in _ (Permutation_sym Hperm)).
      apply in_map_iff. eexists. split; [|exact Hl]. reflexivity.
    + intros g' Hg' Hk'.
      eapply (NoDup_map_unique gkey clusters); try eassumption.
      * apply (Permutation_in _ (Permutation_sym Hperm)).
        apply in_map_iff. eexists. split; [|exact Hl]. reflexivity.
      * now rewrite Hk.
  - apply List.Forall_forall. intros g Hg.
    apply (Permutation_in _ Hperm) in Hg.
    apply in_map_iff in Hg as [[k g'] [Heq Hin]]. simpl in Heq. subst g'.
    destruct (stored_group rs k g Hin) as (Hk & Hne & Hc & Ht).
    rewrite Hk. repeat split; assumption.
  - rewrite (sumZ_Permutation _ _ (Permutation_map count Hperm)).
    rewrite map_map.
    apply (sum_groupRows keyOf fresh absorb count count_fresh count_absorb).
Qed.

End ClusterFacts.

(** C5.  Whatever the filtered rows are, the clusters built from them
    partition them by the (product, campaign, term) key: no two clusters
    share a key, every filtered row has exactly one cluster with its key,
    every cluster's sale count is the number of filtered rows with its key
    and its revenue is the sum of their revenue contributions, and the sale
    counts of all clusters add up to the number of filtered rows.  This holds
    for the grouping sorted by sale count and for the one sorted by
    revenue. *)
Theorem C5_clusters_partition_filtered_rows
  `{Runtime} (data : DashboardData) (st : State) (clock : Z) :
  Partitions (clusterKey data) (revenueOf data)
    BySales.key BySales.salesCount BySales.totalRevenue
    (filteredRows data st clock) (groupedData data st clock)
  /\ Partitions (revKey data) (revenueOf data)
       revGroupKey ByRevenue.sales ByRevenue.revenue
       (filteredRows data st clock) (groupedDataByRevenue data st clock).
Proof.
  split.
  - unfold groupedData, groups.
    apply clusters_partition; intros; reflexivity.
  - unfold groupedDataByRevenue, revGroups.
    apply clusters_partition; intros; reflexivity.
Qed.

(** C5 on the sample: two clusters, with two and one sale, for three
    rows. *)
Lemma C5_clusters_sample :
  map (fun g => (BySales.key g, BySales.salesCount g))
      (@groupedData (refRuntime 0) Sample.sales initialState Sample.clock)
  = [("A|N/A|N/A", 2); ("B|N/A|N/A", 1)]
  /\ sumZ (map BySales.salesCount
             (@groupedData (refRuntime 0) Sample.sales initialState
                Sample.clock))
     = Z.of_nat (length (@filteredRows (refRuntime 0) Sample.sales
                           initialState Sample.clock)).
Proof.
  destruct (C5_clusters_partition_filtered_rows
              (H := refRuntime 0) Sample.sales initialState Sample.clock)
    as [(_ & _ & _ & Hsum) _].
  split; [vm_compute; reflexivity | exact Hsum].
Defined.

(** ** Calendar arithmetic *)

Lemma monthOfDayInYear_range (dwy leap : Z) :
  0 <= JSDate.monthOfDayInYear dwy leap < 12.
Proof.
  unfold JSDate.monthOfDayInYear.
  repeat match goal with
         | |- context [if ?b then _ else _] => destruct b
         end; lia.
Qed.

(** Re-assembling a day from its own year and month, with the day of the
    month moved back by [n], lands [n] days earlier. *)
Lemma MakeDay_back (t n : Z) :
  JSDate.MakeDay (JSDate.YearFromTime t) (JSDate.MonthFromTime t)
                 (JSDate.DateFromTime t - n)
  = JSDate.Day t - n.
Proof.
  unfold JSDate.MakeDay, JSDate.DateFromTime, JSDate.DayWithinYear.
  pose proof (monthOfDayInYear_range
                (JSDate.Day t - JSDate.DayFromYear (JSDate.YearFromTime t))
                (JSDate.InLeapYear (JSDate.YearFromTime t))) as Hm.
  fold (JSDate.DayWithinYear t) in Hm. fold (JSDate.MonthFromTime t) in Hm.
  fold (JSDate.DayWithinYear t).
  rewrite Z.div_small, Z.mod_small by exact Hm.
  rewrite Z.add_0_r. unfold JSDate.DayWithinYear. lia.
Qed.

Lemma yearStepHolds_cycle :
  forallb JSDate.yearStepHolds (map Z.of_nat (seq 0 400)) = true.
Proof. vm_compute. reflexivity. Qed.

(** Consecutive years start [DaysInYear] days apart. *)
Lemma DayFromYear_step (y : Z) :
  JSDate.DayFromYear (y + 1) = JSDate.DayFromYear y + JSDate.DaysInYear y.
Proof.
  pose proof (Z.div_mod y 400 ltac:(lia)) as Hy.
  pose proof (Z.mod_pos_bound y 400 ltac:(lia)) as Hb.
  set (a := y / 400) in *. set (b := y mod 400) in *.
  assert (Hok : JSDate.yearStepHolds b = true).
  { pose proof yearStepHolds_cycle as Hall.
    rewrite forallb_forall in Hall.
    apply Hall. apply List.in_map_iff. exists (Z.to_nat b). split; [lia|].
    apply in_seq. lia. }
  unfold JSDate.yearStepHolds in Hok. apply Z.eqb_eq in Hok.
  assert (Hd : JSDate.DaysInYear y = JSDate.DaysInYear b).
  { unfold JSDate.DaysInYear.
    replace (y mod 4) with (b mod 4)
      by (rewrite Hy; Z.div_mod_to_equations; lia).
    replace (y mod 100) with (b mod 100)
      by (rewrite Hy; Z.div_mod_to_equations; lia).
    replace (y mod 400) with (b mod 400)
      by (rewrite Hy; Z.div_mod_to_equations; lia).
    reflexivity. }
  rewrite Hd. unfold JSDate.DayFromYear in *. rewrite Hy.
  Z.div_mod_to_equations; lia.
Qed.

(** [YearFromDay d] is the year that contains day [d]: the largest year that
    starts on or before it. *)
Lemma YearFromDay_spec (d : Z) :
  JSDate.DayFromYear (JSDate.YearFromDay d) <= d
  < JSDate.DayFromYear (JSDate.YearFromDay d + 1).
Proof.
  unfold JSDate.YearFromDay. cbv zeta.
  set (y0 := 1970 + d * 400 / 146097).
  assert (Hlo : JSDate.DayFromYear (y0 - 2) <= d).
  { unfold JSDate.DayFromYear, y0. Z.div_mod_to_equations; lia. }
  assert (Hhi : d < JSDate.DayFromYear (y0 + 2 + 1)).
  { unfold JSDate.DayFromYear, y0. Z.div_mod_to_equations; lia. }
  destruct (Z.leb_spec (JSDate.DayFromYear (y0 + 2)) d) as [H2 | H2];
    [split; assumption|].
  destruct (Z.leb_spec (JSDate.DayFromYear (y0 + 1)) d) as [H1 | H1].
  { replace (y0 + 1 + 1) with (y0 + 2) by lia. split; assumption. }
  destruct (Z.leb_spec (JSDate.DayFromYear y0) d) as [H0 | H0];
    [split; assumption|].
  destruct (Z.leb_spec (JSDate.DayFromYear (y0 - 1)) d) as [Hm | Hm].
  { replace (y0 - 1 + 1) with y0 by lia. split; assumption. }
  replace (y0 - 2 + 1) with (y0 - 1) by lia. split; assumption.
Qed.

(** The day of the month lies between 1 and 31. *)
Lemma DateFromTime_range (t : Z) : 1 <= JSDate.DateFromTime t <= 31.
Proof.
  pose proof (YearFromDay_spec (JSDate.Day t)) as Hy.
  rewrite DayFromYear_step in Hy.
  unfold JSDate.DateFromTime, JSDate.MonthFromTime, JSDate.DayWithinYear,
    JSDate.YearFromTime, JSDate.InLeapYear.
  set (y := JSDate.YearFromDay (JSDate.Day t)) in *.
  set (dwy := JSDate.Day t - JSDate.DayFromYear y).
  assert (Hdwy : 0 <= dwy < JSDate.DaysInYear y) by (unfold dwy; lia).
  assert (Hleap : JSDate.DaysInYear y = 365 \/ JSDate.DaysInYear y = 366).
  { unfold JSDate.DaysInYear.
    repeat match goal with
           | |- context [if ?b then _ else _] => destruct b
           end; lia. }
  unfold JSDate.monthOfDayInYear.
  destruct Hleap as [E | E]; rewrite E in *; simpl (_ =? _);
    cbv iota;
    repeat match goal with
           | |- context [if ?a <? ?b then _ else _] =>
               destruct (Z.ltb_spec a b)
           end; unfold JSDate.monthStart; lia.
Qed.

Lemma DateFromTime_same_day (t1 t2 : Z) :
  JSDate.Day t1 = JSDate.Day t2 ->
  JSDate.DateFromTime t1 = JSDate.DateFromTime t2.
Proof.
  intros E.
  unfold JSDate.DateFromTime, JSDate.MonthFromTime, JSDate.DayWithinYear,
    JSDate.YearFromTime.
  now rewrite E.
Qed.

Lemma Day_last_ms (t : Z) :
  JSDate.Day (JSDate.MakeDate (JSDate.Day t) (JSDate.MakeTime 23 59 59 999))
  = JSDate.Day t.
Proof.
  unfold JSDate.MakeDate, JSDate.MakeTime, JSDate.Day, JSDate.msPerDay.
  symmetry. apply (Z.div_unique _ _ _ 86399999); lia.
Qed.

Lemma day_decomposition (t : Z) :
  JSDate.MakeDate (JSDate.Day t) (JSDate.TimeWithinDay t) = t.
Proof.
  unfold JSDate.MakeDate, JSDate.Day, JSDate.TimeWithinDay, JSDate.msPerDay.
  pose proof (Z.div_mod t 86400000). lia.
Qed.

Lemma TimeClip_in_range (t : Z) :
  Z.abs t <= 8640000000000000 -> JSDate.TimeClip t = Some t.
Proof.
  intros Ht. unfold JSDate.TimeClip.
  destruct (Z.leb_spec (Z.abs t) 8640000000000000); [reflexivity | lia].
Qed.

Section RelativePresets.
Context `{Runtime}.
Variable clock : Z.
Hypothesis clock_range : 0 <= clock <= 8640000000000000 - JSDate.msPerDay.

(** [now] is the last millisecond of the local day of the clock. *)
Lemma now_value :
  getTime (now clock)
  = Some (UTC (JSDate.MakeDate (JSDate.Day (LocalTime clock))
                               (JSDate.MakeTime 23 59 59 999))).
Proof.
  unfold now, setHours, DateNow. simpl.
  rewrite TimeClip_in_range by (unfold JSDate.msPerDay in *; lia). simpl.
  apply TimeClip_in_range.
  unfold UTC, LocalTime, JSDate.MakeDate, JSDate.MakeTime, JSDate.Day,
    JSDate.msPerDay in *.
  pose proof (Z.div_mod (clock + LocalTZA) 86400000).
  pose proof (Z.mod_pos_bound (clock + LocalTZA) 86400000). lia.
Qed.

(** Only the day of the month of [now] is used, and it is that of the
    clock. *)
Lemma now_getDate :
  getDate (now clock) = Some (JSDate.DateFromTime (LocalTime clock)).
Proof.
  unfold getDate. rewrite now_value. f_equal.
  apply DateFromTime_same_day.
  unfold LocalTime at 1, UTC.
  replace (_ - LocalTZA + LocalTZA)
    with (JSDate.MakeDate (JSDate.Day (LocalTime clock))
                          (JSDate.MakeTime 23 59 59 999)) by lia.
  apply Day_last_ms.
Qed.

(** The threshold of a relative preset is the clock reading itself, [n]
    days earlier. *)
Lemma daysAgo_value (n : Z) :
  0 <= n <= 30 ->
  daysAgo clock n = MkDate (Some (clock - n * JSDate.msPerDay)).
Proof.
  intros Hn. unfold daysAgo. rewrite now_getDate. simpl.
  unfold setDate, DateNow. simpl.
  rewrite TimeClip_in_range by (unfold JSDate.msPerDay in *; lia).
  rewrite MakeDay_back. f_equal.
  assert (E : UTC (JSDate.MakeDate (JSDate.Day (LocalTime clock) - n)
                                   (JSDate.TimeWithinDay (LocalTime clock)))
              = clock - n * JSDate.msPerDay).
  { pose proof (day_decomposition (LocalTime clock)) as Hd.
    unfold UTC, LocalTime, JSDate.MakeDate in *. lia. }
  rewrite E. apply TimeClip_in_range. unfold JSDate.msPerDay in *. lia.
Qed.

End RelativePresets.

(** ** The date block *)

Section DateBlock.
Context `{Runtime}.
Variable data : DashboardData.
Variable st : State.
Variable clock : Z.
Variable row : IndexedRow.
Variable cd : string.
Hypothesis date_resolved : colData data = Some cd.
Hypothesis date_named : Str.truthy cd = true.

(** A date cell for which [parseBrazilianDate] answers [null] excludes the
    row under every preset but "all". *)
Lemma passesDate_null :
  datePreset st <> PresetAll ->
  parseBrazilianDate (cell row cd) = None ->
  passesDate data st clock row = false.
Proof.
  intros Hp Hn. unfold passesDate.
  rewrite date_resolved, date_named, Hn.
  destruct (datePreset st); [contradiction | reflexivity ..].
Qed.

Lemma passesDate_relative (n : Z) (rowDate : Date) :
  presetDays (datePreset st) = Some n ->
  parseBrazilianDate (cell row cd) = Some rowDate ->
  passesDate data st clock row = negb (dateLt rowDate (daysAgo clock n)).
Proof.
  intros Hp Hr. unfold passesDate.
  rewrite date_resolved, date_named, Hr.
  destruct (datePreset st); simpl in *; try discriminate;
    injection Hp as <-; reflexivity.
Qed.

(** With the preset "custom" and a bound left empty, every row whose date
    cell gives a Date object passes. *)
Lemma passesDate_custom_open (rowDate : Date) :
  datePreset st = PresetCustom ->
  Str.truthy (customStartDate st) && Str.truthy (customEndDate st) = false ->
  parseBrazilianDate (cell row cd) = Some rowDate ->
  passesDate data st clock row = true.
Proof.
  intros Hp Hb Hr. unfold passesDate.
  now rewrite date_resolved, date_named, Hr, Hp, Hb.
Qed.

(** With both bounds given, the lower bound is the instant the start text
    parses to, and the upper bound is the last millisecond of the local day
    that contains the instant the end text parses to. *)
Lemma passesDate_custom_range (rowDate : Date) (d s e : Z) :
  datePreset st = PresetCustom ->
  Str.truthy (customStartDate st) = true ->
  Str.truthy (customEndDate st) = true ->
  parseBrazilianDate (cell row cd) = Some rowDate ->
  getTime rowDate = Some d ->
  DateParse (customStartDate st) = Some s ->
  DateParse (customEndDate st) = Some e ->
  0 <= e <= 8640000000000000 - JSDate.msPerDay ->
  (passesDate data st clock row = true
   <-> s <= d
       <= UTC (JSDate.MakeDate (JSDate.Day (LocalTime e))
                               (JSDate.MakeTime 23 59 59 999))).
Proof.
  intros Hp Hs He Hr Hd Hps Hpe Hrange. unfold passesDate.
  rewrite date_resolved, date_named, Hr, Hp, Hs, He. simpl.
  pose proof (now_value e Hrange) as Hend.
  unfold now, DateNow in Hend.
  rewrite TimeClip_in_range in Hend by (unfold JSDate.msPerDay in *; lia).
  unfold DateOfString. rewrite Hpe.
  unfold dateGt, dateLt. rewrite Hend, Hd. simpl. rewrite Hps.
  rewrite negb_true_iff, orb_false_iff, !Z.ltb_ge. tauto.
Qed.

(** An Invalid Date is never below a threshold nor outside a range: the
    comparisons with NaN are false. *)
Lemma passesDate_invalid (rowDate : Date) :
  parseBrazilianDate (cell row cd) = Some rowDate ->
  getTime rowDate = None ->
  datePreset st <> PresetToday ->
  passesDate data st clock row = true.
Proof.
  intros Hr Hd Hp. unfold passesDate.
  rewrite date_resolved, date_named, Hr.
  unfold dateGt, dateLt. rewrite Hd.
  destruct (datePreset st); try reflexivity; [contradiction|].
  simpl. destruct (_ && _); [|reflexivity].
  now destruct (getTime (setHours _ _ _ _ _)).
Qed.

End DateBlock.

Lemma finiteInteger_nan (x : float) :
  is_nan x = true -> Num.finiteInteger x = None.
Proof.
  intros Hx. unfold Num.finiteInteger, Prim2SF. now rewrite Hx.
Qed.

(** A cell that is missing, empty or a number is answered with [null]. *)
Lemma parseBrazilianDate_not_text `{Runtime} (v : value) :
  match v with
  | VString s => s = ""
  | VUndefined | VNumber _ => True
  end ->
  parseBrazilianDate v = None.
Proof. destruct v as [|s|n]; intros Hv; subst; reflexivity. Qed.

(** Text without two slashes that the host's parser rejects is answered
    with [null]. *)
Lemma parseBrazilianDate_rejected `{Runtime} (s : string) :
  length (Str.split "/" (Str.splitHead " " s)) <> 3%nat ->
  DateParse s = None ->
  parseBrazilianDate (VString s) = None.
Proof.
  intros Hlen Hp. unfold parseBrazilianDate.
  destruct (Str.truthy s); [|reflexivity].
  unfold DateOfString. simpl. rewrite Hp.
  destruct (Str.split "/" (Str.splitHead " " s)) as [|a [|b [|c [|e l]]]];
    try reflexivity.
  now contradiction Hlen.
Qed.

(** Three slash-separated parts whose year is not a number give a Date
    object all the same: an Invalid Date, not [null]. *)
Lemma parseBrazilianDate_slash_nan `{Runtime} (s p0 p1 p2 : string) :
  Str.truthy s = true ->
  Str.split "/" (Str.splitHead " " s) = [p0; p1; p2] ->
  is_nan (StringToNumber p2) = true ->
  parseBrazilianDate (VString s) = Some InvalidDate.
Proof.
  intros Hs Hsplit Hnan. unfold parseBrazilianDate.
  rewrite Hs, Hsplit. unfold DateOfComponents.
  now rewrite (finiteInteger_nan _ Hnan).
Qed.

(** C3, as the component does it.  For the presets "7days", "15days" and
    "30days", with N the preset's number of days, a row whose date cell gives
    a valid date passes the date block exactly when that date is not before
    the clock reading itself moved back N days (the same time of day, N days
    earlier).  The end-of-day moment [now] enters only through its day of
    the month, which is the clock's. *)
Theorem C3_relative_presets_count_back_from_the_clock
  `{Runtime} (data : DashboardData) (st : State) (clock : Z)
  (row : IndexedRow) (cd : string) (n : Z) (rowDate : Date) (d : Z) :
  0 <= clock <= 8640000000000000 - JSDate.msPerDay ->
  colData data = Some cd ->
  Str.truthy cd = true ->
  presetDays (datePreset st) = Some n ->
  parseBrazilianDate (cell row cd) = Some rowDate ->
  getTime rowDate = Some d ->
  getDate (now clock) = getDate (DateNow clock)
  /\ daysAgo clock n = MkDate (Some (clock - n * JSDate.msPerDay))
  /\ (passesDate data st clock row = true
      <-> clock - n * JSDate.msPerDay <= d).
Proof.
  intros Hclock Hcd Hname Hp Hr Hd.
  assert (Hn : 0 <= n <= 30).
  { destruct (datePreset st); simpl in Hp; try discriminate;
      injection Hp as <-; lia. }
  split; [|split].
  - rewrite (now_getDate clock Hclock). unfold getDate, DateNow. simpl.
    now rewrite TimeClip_in_range by (unfold JSDate.msPerDay in *; lia).
  - now apply daysAgo_value.
  - rewrite (passesDate_relative data st clock row cd Hcd Hname n rowDate Hp Hr).
    rewrite (daysAgo_value clock Hclock n Hn).
    unfold dateLt. rewrite Hd. simpl.
    rewrite negb_true_iff, Z.ltb_ge. reflexivity.
Qed.

(** C3 on the sample: on 15 March at 10:00 a sale of 8 March at 12:00 is
    within the last seven days. *)
Lemma C3_relative_presets_sample :
  let data := Sample.oneSale (VString "2024-03-08T12:00:00Z") in
  @passesDate (refRuntime 0) data
    (Sample.withPreset Preset7days initialState) Sample.clock
    (Sample.first data) = true.
Proof.
  intros data.
  apply (C3_relative_presets_count_back_from_the_clock
           (H := refRuntime 0) data
           (Sample.withPreset Preset7days initialState) Sample.clock
           (Sample.first data) "data" 7
           (MkDate (Some 1709899200000)) 1709899200000).
  - unfold Sample.clock, JSDate.msPerDay. lia.
  - vm_compute. reflexivity.
  - reflexivity.
  - reflexivity.
  - vm_compute. reflexivity.
  - reflexivity.
  - unfold Sample.clock, JSDate.msPerDay. lia.
Defined.

(** C3, as stated, fails.  On 15 March at 10:00 the end of the day minus
    seven days is 8 March, 23:59:59.999; a sale of 8 March at 12:00 is before
    that moment and passes nevertheless. *)
Lemma C3_threshold_is_not_end_of_day :
  let data := Sample.oneSale (VString "2024-03-08T12:00:00Z") in
  ~ @relativePresetAsStated (refRuntime 0) data
      (Sample.withPreset Preset7days initialState) Sample.clock
      (Sample.first data).
Proof.
  intros data Hc.
  specialize (Hc "data" 7 (MkDate (Some 1709899200000)) 1709899200000
                 1710547199999).
  destruct Hc as [Hc _]; try (vm_compute; reflexivity).
  assert (Hpass : @passesDate (refRuntime 0) data
                    (Sample.withPreset Preset7days initialState) Sample.clock
                    (Sample.first data) = true) by (vm_compute; reflexivity).
  apply Hc in Hpass. unfold JSDate.msPerDay in Hpass. lia.
Qed.

(** C2 at the failing input.  The date cell "a/b/c" has three
    slash-separated parts, none of them a number: [parseBrazilianDate]
    answers an Invalid Date object instead of [null], and the row stays in
    the filtered list under "7days", "15days", "30days" and under "custom"
    with both bounds set; only "today" drops it. *)
Theorem C2_text_in_slash_date_is_kept :
  let data := Sample.oneSale (VString "a/b/c") in
  let ids st := map _id (@filteredRows (refRuntime 0) data st Sample.clock) in
  @parseBrazilianDate (refRuntime 0) (VString "a/b/c") = Some InvalidDate
  /\ ids (Sample.withPreset Preset7days initialState) = [0%nat]
  /\ ids (Sample.withPreset Preset15days initialState) = [0%nat]
  /\ ids (Sample.withPreset Preset30days initialState) = [0%nat]
  /\ ids (Sample.withCustomRange "2024-03-01" "2024-03-31" initialState)
     = [0%nat]
  /\ ids (Sample.withPreset PresetToday initialState) = [].
Proof. vm_compute. repeat split. Qed.

(** C6 at the failing input.  In the zone of Brasilia the custom range from
    2024-03-01 to 2024-03-15 keeps the two sales of 1 March and drops the
    sale dated 15/03/2024, the end date itself; the range from 2024-03-01 to
    2024-03-01 keeps nothing.  The end text is read as midnight UTC, which is
    still the previous evening in local time, so the upper bound is the end
    of the day before.  In the zone of UTC the same ranges keep the rows the
    range names. *)
Theorem C6_custom_range_drops_the_end_date_west_of_utc :
  let ids tz a b :=
    map _id (@filteredRows (refRuntime tz) Sample.sales
               (Sample.withCustomRange a b initialState) Sample.clock) in
  ids Sample.brasilia "2024-03-01" "2024-03-15" = [0%nat; 2%nat]
  /\ ids Sample.brasilia "2024-03-01" "2024-03-01" = []
  /\ @setHours (refRuntime Sample.brasilia)
       (@DateOfString (refRuntime Sample.brasilia) "2024-03-15") 23 59 59 999
     = MkDate (Some 1710471599999)
  /\ @parseBrazilianDate (refRuntime Sample.brasilia) (VString "15/03/2024")
     = Some (MkDate (Some 1710471600000))
  /\ ids 0 "2024-03-01" "2024-03-15" = [0%nat; 1%nat; 2%nat]
  /\ ids 0 "2024-03-01" "2024-03-01" = [0%nat; 2%nat].
Proof. vm_compute. repeat split. Qed.

(** ** The model on known values *)

(** Calendar: the epoch, a leap day, the last day of a century year that is
    not a leap year, and a day before the epoch. *)
Example calendar_known_days :
  @toDateString (refRuntime 0) (MkDate (Some 0)) = Some (1970, 0, 1)
  /\ @toDateString (refRuntime 0) (MkDate (Some 951782400000))
     = Some (2000, 1, 29)
  /\ @toDateString (refRuntime 0) (MkDate (Some 4107542400000))
     = Some (2100, 2, 1)
  /\ @toDateString (refRuntime 0) (MkDate (Some (-1))) = Some (1969, 11, 31)
  /\ @toDateString (refRuntime Sample.brasilia) (MkDate (Some 1709251200000))
     = Some (2024, 1, 29).
Proof. vm_compute. repeat split. Qed.

(** [new Date(2024, 2, 1)] is 2024-03-01T00:00:00Z in the zone of UTC and
    three hours later in Brasilia; out-of-range components carry over; a
    two-digit year is a year of the twentieth century. *)
Example date_of_components_known :
  @DateOfComponents (refRuntime 0) 2024 2 1 = MkDate (Some 1709251200000)
  /\ @DateOfComponents (refRuntime Sample.brasilia) 2024 2 1
     = MkDate (Some 1709262000000)
  /\ @DateOfComponents (refRuntime 0) 2024 12 32 = MkDate (Some 1738368000000)
  /\ @DateOfComponents (refRuntime 0) 24 0 1 = MkDate (Some (-1451692800000))
  /\ @DateOfComponents (refRuntime 0) nan 0 1 = InvalidDate.
Proof. vm_compute. repeat split. Qed.

(** The sample sales with no filter: revenue 180, tax 180 * 0.06, two
    product clusters. *)
Example sample_unfiltered :
  let s := @stats (refRuntime 0) Sample.sales initialState Sample.clock in
  fat s = 180%float
  /\ imp s = (180 * 0.06)%float
  /\ map (fun g => (BySales.product g, BySales.salesCount g,
                    BySales.totalRevenue g))
         (@groupedData (refRuntime 0) Sample.sales initialState Sample.clock)
     = [("A", 2, 150%float); ("B", 1, 30%float)].
Proof. vm_compute. repeat split. Qed.

(** The sample sales under the custom range of 1 March, in the zone of UTC:
    the first and third sale, revenue 130. *)
Example sample_custom_range_utc :
  let st := Sample.withCustomRange "2024-03-01" "2024-03-01" initialState in
  map _id (@filteredRows (refRuntime 0) Sample.sales st Sample.clock)
  = [0%nat; 2%nat]
  /\ fat (@stats (refRuntime 0) Sample.sales st Sample.clock) = 130%float.
Proof. vm_compute. repeat split. Qed.

(** The search "A" is case-insensitive and finds the two sales of product
    "A" only. *)
Example sample_search :
  map _id (@filteredRows (refRuntime 0) Sample.sales
             (Sample.withSearch "A" initialState) Sample.clock)
  = [0%nat; 1%nat].
Proof. vm_compute. reflexivity. Qed.

(** * Properties of the rest of the component *)

(** ** Sorting sorts *)

Section SortFacts.
Context {A : Type}.
Variable after : A -> A -> bool.
Hypothesis after_asym : forall x y, after x y = true -> after y x = false.
Hypothesis before_trans :
  forall x y z, after x y = false -> after y z = false -> after x z = false.

Lemma insertSorted_In (x y : A) (l : list A) :
  In y (insertSorted after x l) <-> y = x \/ In y l.
Proof.
  split; intros Hy.
  - apply (Permutation_in _ (insertSorted_Permutation after x l)) in Hy.
    destruct Hy as [<- | Hy]; auto.
  - apply (Permutation_in _ (Permutation_sym
                               (insertSorted_Permutation after x l))).
    destruct Hy as [-> | Hy]; [now left | now right].
Qed.

Lemma insertSorted_sorted (x : A) (l : list A) :
  StronglySorted (fun a b => after a b = false) l ->
  StronglySorted (fun a b => after a b = false) (insertSorted after x l).
Proof.
  induction l as [|y l IH]; simpl; intros Hs.
  - repeat constructor.
  - apply StronglySorted_inv in Hs as [Hs Hall].
    destruct (after x y) eqn:E.
    + constructor; [now apply IH|].
      apply List.Forall_forall. intros z Hz.
      apply insertSorted_In in Hz as [-> | Hz].
      * now apply after_asym.
      * exact (proj1 (List.Forall_forall _ _) Hall z Hz).
    + constructor; [now constructor|].
      constructor; [exact E|].
      apply List.Forall_forall. intros z Hz.
      apply (before_trans x y z E).
      exact (proj1 (List.Forall_forall _ _) Hall z Hz).
Qed.

(** In the sorted list no element has to come after a later one. *)
Lemma sortStable_sorted (l : list A) :
  StronglySorted (fun a b => after a b = false) (sortStable after l).
Proof.
  induction l as [|x l IH]; simpl; [constructor|].
  now apply insertSorted_sorted.
Qed.

End SortFacts.

Lemma StronglySorted_app_cross {A : Type} (R : A -> A -> Prop)
  (l1 l2 : list A) (x y : A) :
  StronglySorted R (l1 ++ l2) -> In x l1 -> In y l2 -> R x y.
Proof.
  induction l1 as [|a l1 IH]; simpl; intros Hs Hx Hy; [tauto|].
  apply StronglySorted_inv in Hs as [Hs Hall].
  destruct Hx as [<- | Hx]; [|now apply IH].
  apply (proj1 (List.Forall_forall _ _) Hall).
  apply in_app_iff. now right.
Qed.

Lemma StronglySorted_sublist {A : Type} (R : A -> A -> Prop) (l k : list A) :
  sublist k l -> StronglySorted R l -> StronglySorted R k.
Proof.
  induction 1 as [|x k l Hsub IH|x k l Hsub IH]; intros Hs.
  - constructor.
  - apply StronglySorted_inv in Hs as [Hs Hall].
    constructor; [now apply IH|].
    apply List.Forall_forall. intros y Hy.
    apply (proj1 (List.Forall_forall _ _) Hall).
    apply list_elem_of_In. eapply elem_of_sublist; [|eassumption].
    now apply list_elem_of_In.
  - apply StronglySorted_inv in Hs as [Hs _]. now apply IH.
Qed.

(** ** Code-unit order on strings *)

Lemma ascii_compare_refl (a : ascii) : Ascii.compare a a = Eq.
Proof. unfold Ascii.compare. apply N.compare_refl. Qed.

Lemma ascii_compare_trans (a b c : ascii) :
  Ascii.compare a b <> Gt -> Ascii.compare b c <> Gt ->
  Ascii.compare a c <> Gt.
Proof.
  unfold Ascii.compare. rewrite !N.compare_le_iff. lia.
Qed.

Lemma ascii_compare_Lt_le (a b c : ascii) :
  Ascii.compare a b = Lt -> Ascii.compare b c <> Gt ->
  Ascii.compare a c = Lt.
Proof.
  unfold Ascii.compare. rewrite !N.compare_lt_iff, N.compare_le_iff. lia.
Qed.

Lemma ascii_compare_le_Lt (a b c : ascii) :
  Ascii.compare a b <> Gt -> Ascii.compare b c = Lt ->
  Ascii.compare a c = Lt.
Proof.
  unfold Ascii.compare. rewrite !N.compare_lt_iff, N.compare_le_iff. lia.
Qed.

Lemma string_compare_trans (a b c : string) :
  String.compare a b <> Gt -> String.compare b c <> Gt ->
  String.compare a c <> Gt.
Proof.
  revert b c. induction a as [|x a IH]; intros [|y b] [|z c]; simpl;
    try congruence.
  destruct (Ascii.compare x y) eqn:Exy; try congruence;
    destruct (Ascii.compare y z) eqn:Eyz; try congruence; intros Hab Hbc.
  - apply Ascii.compare_eq_iff in Exy, Eyz. subst.
    rewrite ascii_compare_refl. now apply (IH b).
  - apply Ascii.compare_eq_iff in Exy. subst. now rewrite Eyz.
  - apply Ascii.compare_eq_iff in Eyz. subst. now rewrite Exy.
  - rewrite (ascii_compare_Lt_le x y z Exy) by congruence. discriminate.
Qed.

Lemma string_ltb_asym (x y : string) :
  String.ltb y x = true -> String.ltb x y = false.
Proof.
  unfold String.ltb. rewrite (String.compare_antisym y x).
  destruct (String.compare x y); simpl; congruence.
Qed.

Lemma string_not_ltb_trans (x y z : string) :
  String.ltb y x = false -> String.ltb z y = false -> String.ltb z x = false.
Proof.
  unfold String.ltb. intros Hxy Hyz.
  assert (Hle : String.compare x z <> Gt).
  { apply (string_compare_trans x y z).
    - rewrite String.compare_antisym.
      destruct (String.compare y x); simpl in *; congruence.
    - rewrite String.compare_antisym.
      destruct (String.compare z y); simpl in *; congruence. }
  rewrite String.compare_antisym.
  destruct (String.compare x z); simpl; congruence.
Qed.

(** [sortStrings] lists its strings in ascending order. *)
Lemma sortStrings_sorted (l : list string) :
  StronglySorted (fun a b => String.ltb b a = false) (sortStrings l).
Proof.
  unfold sortStrings.
  apply (sortStable_sorted (fun x y => String.ltb y x)).
  - intros x y. apply string_ltb_asym.
  - intros x y z. apply string_not_ltb_trans.
Qed.

Lemma sortStrings_Permutation (l : list string) :
  Permutation (sortStrings l) l.
Proof. apply sortStable_Permutation. Qed.

(** ** Sets of strings in insertion order *)

Lemma setAdd_In (x y : string) (s : list string) :
  In y (setAdd x s) <-> y = x \/ In y s.
Proof.
  unfold setAdd. destruct (Str.arrayIncludes s x) eqn:E.
  - apply arrayIncludes_In in E. split; [auto|]. now intros [-> | Hy].
  - rewrite in_app_iff. simpl. split; intros Hy.
    + destruct Hy as [Hy | [<- | []]]; auto.
    + destruct Hy as [-> | Hy]; auto.
Qed.

Lemma setAdd_NoDup (x : string) (s : list string) :
  NoDup s -> NoDup (setAdd x s).
Proof.
  intros Hs. unfold setAdd. destruct (Str.arrayIncludes s x) eqn:E;
    [exact Hs|].
  apply NoDup_app. repeat split; [exact Hs | | apply NoDup_singleton].
  intros y Hy Hy'. apply list_elem_of_In in Hy, Hy'.
  destruct Hy' as [<- | []].
  apply arrayIncludes_In in Hy. congruence.
Qed.

Lemma fold_setAdd_In {A : Type} (f : A -> string) (xs : list A)
  (s : list string) (y : string) :
  In y (fold_left (fun s x => setAdd (f x) s) xs s)
  <-> In y s \/ In y (map f xs).
Proof.
  revert s. induction xs as [|x xs IH]; intros s; simpl; [tauto|].
  rewrite IH, setAdd_In. split; intros Hy.
  - destruct Hy as [[-> | Hy] | Hy]; auto.
  - destruct Hy as [Hy | [<- | Hy]]; auto.
Qed.

Lemma fold_setAdd_NoDup {A : Type} (f : A -> string) (xs : list A)
  (s : list string) :
  NoDup s -> NoDup (fold_left (fun s x => setAdd (f x) s) xs s).
Proof.
  revert s. induction xs as [|x xs IH]; intros s Hs; simpl; [exact Hs|].
  apply IH. now apply setAdd_NoDup.
Qed.

Lemma distinct_In (xs : list string) (y : string) :
  In y (distinct xs) <-> In y xs.
Proof.
  unfold distinct.
  rewrite (fold_setAdd_In (fun x => x) xs [] y), List.map_id. simpl. tauto.
Qed.

Lemma distinct_NoDup (xs : list string) : NoDup (distinct xs).
Proof. apply (fold_setAdd_NoDup (fun x => x)). constructor. Qed.

Lemma StronglySorted_weaken {A : Type} (R S : A -> A -> Prop) (l : list A) :
  (forall x y, R x y -> S x y) -> StronglySorted R l -> StronglySorted S l.
Proof.
  intros HRS. induction 1 as [|x l Hs IH Hall]; constructor; [exact IH|].
  apply List.Forall_forall. intros y Hy.
  apply HRS. exact (proj1 (List.Forall_forall _ _) Hall y Hy).
Qed.

(** Sorting by a descending integer rank. *)
Lemma sortStable_descending {A : Type} (rank : A -> Z) (l : list A) :
  StronglySorted (fun a b => rank b <= rank a)
    (sortStable (fun a b => rank b - rank a >? 0) l).
Proof.
  apply (StronglySorted_weaken (fun a b => (rank b - rank a >? 0) = false)).
  - intros x y Hxy. rewrite Z.gtb_ltb, Z.ltb_ge in Hxy. lia.
  - apply sortStable_sorted.
    + intros x y. rewrite !Z.gtb_ltb, Z.ltb_lt, Z.ltb_ge. lia.
    + intros x y z. rewrite !Z.gtb_ltb, !Z.ltb_ge. lia.
Qed.

(** ** Resolved columns *)

Lemma findHeader_In `{Runtime} (data : DashboardData) (keys : list string)
  (indexHint : option nat) (h : string) :
  findHeader data keys indexHint = Some h -> In h (headers data).
Proof.
  unfold findHeader.
  destruct indexHint as [i|]; [destruct (headers data !! i) as [h0|] eqn:E;
    [destruct (Str.truthy h0)|]|].
  1: { intros [= <-]. apply list_elem_of_In.
       eapply list_elem_of_lookup_2. exact E. }
  all: intros Hf; now apply find_some in Hf.
Qed.

(** X1.  Whatever the headers are, a resolved role is one of them: every
    answer of [findHeader] is a header of the dataset, and every column
    offered as a categorical filter is a header and is not the empty
    name. *)
Theorem X1_resolved_columns_are_headers
  `{Runtime} (data : DashboardData) (keys : list string)
  (indexHint : option nat) :
  match findHeader data keys indexHint with
  | Some h => In h (headers data)
  | None => True
  end
  /\ Forall (fun c => In c (headers data) /\ c <> "")
            (categoricalFilterCols data).
Proof.
  split.
  - destruct (findHeader data keys indexHint) as [h|] eqn:E; [|exact I].
    now apply findHeader_In in E.
  - apply List.Forall_forall. intros c Hc.
    unfold categoricalFilterCols in Hc. apply filter_In in Hc as [Hc Ht].
    split; [|now intros ->].
    assert (Hsrc : colProduto data = Some c \/ colCampaign data = Some c
                   \/ colTerm data = Some c).
    { destruct (colProduto data) as [a|], (colCampaign data) as [b|],
        (colTerm data) as [e|]; simpl in Hc; intuition congruence. }
    destruct Hsrc as [E | [E | E]];
      unfold colProduto, colCampaign, colTerm in E;
      now apply findHeader_In in E.
Qed.

(** ** All rows *)

Lemma filter_all {A : Type} (f : A -> bool) (l : list A) :
  (forall x, f x = true) -> List.filter f l = l.
Proof.
  intros Hf. induction l as [|x l IH]; simpl; [reflexivity|].
  now rewrite Hf, IH.
Qed.

(** X2.  After "clear all", whatever the state was, and likewise on first
    render, the filtered list is the whole of [rowsWithIndex]: no row is
    held back by a date, a selection or a search. *)
Theorem X2_clear_all_shows_every_row
  `{Runtime} (data : DashboardData) (st : State) (clock : Z) :
  filteredRows data (clearAllFilters st) clock = rowsWithIndex data
  /\ filteredRows data initialState clock = rowsWithIndex data.
Proof.
  split; unfold filteredRows; apply filter_all; intros row;
    unfold includeRow; rewrite passesDate_all by reflexivity;
    unfold matchesFilters, matchesSearch; simpl;
    now rewrite map_to_list_empty.
Qed.

(** ** The preset "today" *)

Lemma same_date_same_day (t1 t2 : Z) :
  (JSDate.YearFromTime t1, JSDate.MonthFromTime t1, JSDate.DateFromTime t1)
  = (JSDate.YearFromTime t2, JSDate.MonthFromTime t2, JSDate.DateFromTime t2)
  <-> JSDate.Day t1 = JSDate.Day t2.
Proof.
  split.
  - intros [= Hy Hm Hd].
    pose proof (MakeDay_back t1 0) as H1. pose proof (MakeDay_back t2 0) as H2.
    rewrite Hy, Hm, Hd, H2 in H1. lia.
  - intros E.
    unfold JSDate.DateFromTime, JSDate.MonthFromTime, JSDate.DayWithinYear,
      JSDate.YearFromTime.
    now rewrite E.
Qed.

Lemma dateStringEqb_eq (a b : option (Z * Z * Z)) :
  dateStringEqb a b = true <-> a = b.
Proof.
  destruct a as [[[y1 m1] d1]|], b as [[[y2 m2] d2]|]; simpl;
    try (split; congruence).
  rewrite !andb_true_iff, !Z.eqb_eq. split; [intros [[-> ->] ->] | intros [= -> -> ->]]; auto.
Qed.

(** X3.  Under the preset "today" a row whose date cell gives a Date object
    passes exactly when that date is valid and falls on the same local
    calendar day as the clock; an Invalid Date does not pass. *)
Theorem X3_today_keeps_the_rows_of_the_local_day
  `{Runtime} (data : DashboardData) (st : State) (clock : Z)
  (row : IndexedRow) (cd : string) (rowDate : Date) :
  Z.abs clock <= 8640000000000000 ->
  colData data = Some cd ->
  Str.truthy cd = true ->
  datePreset st = PresetToday ->
  parseBrazilianDate (cell row cd) = Some rowDate ->
  (passesDate data st clock row = true
   <-> exists d, getTime rowDate = Some d
                 /\ JSDate.Day (LocalTime d) = JSDate.Day (LocalTime clock)).
Proof.
  intros Hclock Hcd Hname Hp Hr. unfold passesDate.
  rewrite Hcd, Hname, Hr, Hp. simpl.
  rewrite dateStringEqb_eq. unfold toDateString, DateNow. simpl.
  rewrite TimeClip_in_range by exact Hclock.
  destruct (getTime rowDate) as [d|].
  - split.
    + intros [= E]. exists d. split; [reflexivity|].
      apply same_date_same_day. congruence.
    + intros (d' & [= <-] & E). apply same_date_same_day in E. congruence.
  - split; [discriminate | intros (d & Hd & _); discriminate].
Qed.

(** X3 on the sample: on 15 March the sale of 15/03/2024 is of today. *)
Lemma X3_today_sample :
  @passesDate (refRuntime 0) (Sample.oneSale (VString "15/03/2024"))
    (Sample.withPreset PresetToday initialState) Sample.clock
    (Sample.first (Sample.oneSale (VString "15/03/2024"))) = true.
Proof.
  apply (X3_today_keeps_the_rows_of_the_local_day
           (H := refRuntime 0) (Sample.oneSale (VString "15/03/2024"))
           (Sample.withPreset PresetToday initialState) Sample.clock
           (Sample.first (Sample.oneSale (VString "15/03/2024"))) "data"
           (MkDate (Some 1710460800000))).
  - unfold Sample.clock. lia.
  - vm_compute. reflexivity.
  - reflexivity.
  - reflexivity.
  - vm_compute. reflexivity.
  - exists 1710460800000. split; vm_compute; reflexivity.
Defined.

(** ** The order of the clusters *)

(** X4.  The UTM table lists the clusters by decreasing sale count: no
    cluster is followed, anywhere below it, by one with more sales. *)
Theorem X4_clusters_are_listed_by_decreasing_sales
  `{Runtime} (data : DashboardData) (st : State) (clock : Z) :
  StronglySorted
    (fun a b => BySales.salesCount b <= BySales.salesCount a)
    (groupedData data st clock).
Proof. unfold groupedData. apply sortStable_descending. Qed.

(** ** What a cluster holds *)

Section ClusterContents.
Context `{Runtime}.
Variable data : DashboardData.
Variable st : State.
Variable clock : Z.

Lemma dates_fold (rs : list IndexedRow) (g : BySales.Group) :
  BySales.dates (fold_left (fun g r => absorbRow data r g) rs g)
  = fold_left
      (fun s r =>
         setAdd (Str.splitHead " "
                   (ToString (cell r (orEmpty (colData data))))) s)
      rs (BySales.dates g).
Proof.
  revert g. induction rs as [|r rs IH]; intros g; simpl; [reflexivity|].
  now rewrite IH.
Qed.

Lemma key_fold (rs : list IndexedRow) (g : BySales.Group) :
  BySales.key (fold_left (fun g r => absorbRow data r g) rs g) = BySales.key g.
Proof.
  revert g. induction rs as [|r rs IH]; intros g; simpl; [reflexivity|].
  now rewrite IH.
Qed.

(** Every listed cluster is the record made for the first filtered row of
    its key and updated with each of the rows of that key. *)
Lemma groupedData_origin (g : BySales.Group) :
  In g (groupedData data st clock) ->
  exists r0 t,
    rowsOf (clusterKey data) (BySales.key g) (filteredRows data st clock)
    = r0 :: t
    /\ g = fold_left (fun g r => absorbRow data r g) (r0 :: t)
                     (freshGroup data r0).
Proof.
  intros Hg. unfold groupedData in Hg.
  apply (Permutation_in _ (sortStable_Permutation _ _)) in Hg.
  apply in_map_iff in Hg as [[k g'] [Heq Hin]]. simpl in Heq. subst g'.
  apply In_lookupKey in Hin; [|apply groupRows_keys_NoDup].
  unfold groups in Hin. rewrite lookupKey_groupRows in Hin.
  destruct (rowsOf (clusterKey data) k (filteredRows data st clock))
    as [|r0 t] eqn:E; [discriminate|].
  injection Hin as Hg.
  assert (Hk : BySales.key g = k).
  { rewrite <- Hg.
    etransitivity; [apply (key_fold (r0 :: t) (freshGroup data r0))|].
    simpl. apply (rowsOf_key (clusterKey data) k (filteredRows data st clock)).
    rewrite E. now left. }
  exists r0, t. rewrite Hk. split; [exact E | now symmetry].
Qed.

Lemma sales_fold (rs : list IndexedRow) (g : BySales.Group) :
  BySales.salesCount (fold_left (fun g r => absorbRow data r g) rs g)
  = BySales.salesCount g + Z.of_nat (length rs).
Proof.
  revert g. induction rs as [|r rs IH]; intros g; simpl; [lia|].
  rewrite IH. simpl. lia.
Qed.

End ClusterContents.

Lemma sortStrings_nonempty (l : list string) :
  l <> [] -> sortStrings l <> [].
Proof.
  intros Hl E. apply Hl.
  pose proof (sortStrings_Permutation l) as HP. rewrite E in HP.
  now apply Permutation_nil in HP.
Qed.

(** X5.  Every cluster listed in the UTM table holds at least one sale, so
    the divisor of its CPA is never zero; and it holds at least one date
    text, so, whatever the investments are, its period label is defined and
    its sorted date list is in ascending order. *)
Theorem X5_listed_clusters_have_sales_and_a_period
  `{Runtime} (data : DashboardData) (st : State) (clock : Z) :
  Forall (fun g =>
            1 <= BySales.salesCount g
            /\ BySales.dates g <> []
            /\ forall investments,
                 figDateRange (clusterFigures investments g) <> None
                 /\ StronglySorted (fun a b => String.ltb b a = false)
                      (figDateList (clusterFigures investments g)))
         (groupedData data st clock).
Proof.
  apply List.Forall_forall. intros g Hg.
  destruct (groupedData_origin data st clock g Hg) as (r0 & t & _ & ->).
  assert (Hd : BySales.dates
                 (fold_left (fun g r => absorbRow data r g) (r0 :: t)
                            (freshGroup data r0)) <> []).
  { rewrite dates_fold. intros E.
    assert (Hin : In (Str.splitHead " "
                        (ToString (cell r0 (orEmpty (colData data)))))
                     []).
    { rewrite <- E. apply fold_setAdd_In. right. simpl. now left. }
    exact Hin. }
  split; [|split; [exact Hd|]].
  - rewrite sales_fold. simpl. lia.
  - intros investments. split; [|apply sortStrings_sorted].
    unfold clusterFigures. simpl.
    pose proof (sortStrings_nonempty _ Hd) as Hs.
    destruct (sortStrings _) as [|a l]; [contradiction|].
    now destruct (1 <? _).
Qed.

(** X6.  The date set of a listed cluster has no repetition and holds
    exactly the date texts (the date cell up to its first space) of the
    filtered rows that carry the cluster's key. *)
Theorem X6_cluster_dates_are_those_of_its_rows
  `{Runtime} (data : DashboardData) (st : State) (clock : Z) :
  Forall (fun g =>
            NoDup (BySales.dates g)
            /\ forall s,
                 In s (BySales.dates g)
                 <-> exists row,
                       In row (rowsOf (clusterKey data) (BySales.key g)
                                      (filteredRows data st clock))
                       /\ Str.splitHead " "
                            (ToString (cell row (orEmpty (colData data))))
                          = s)
         (groupedData data st clock).
Proof.
  apply List.Forall_forall. intros g Hg.
  destruct (groupedData_origin data st clock g Hg) as (r0 & t & Hrows & Hfold).
  rewrite Hrows. split.
  - rewrite Hfold, dates_fold. apply fold_setAdd_NoDup. constructor.
  - intros s. rewrite Hfold, dates_fold.
    rewrite fold_setAdd_In, List.in_map_iff. simpl.
    split.
    + intros [[] | (row & Hs & Hin)]. exists row. tauto.
    + intros (row & Hin & Hs). right. exists row. tauto.
Qed.

(** ** Cluster investments *)

Lemma orZero_not_nan (x : float) : is_nan (Num.orZero x) = false.
Proof.
  unfold Num.orZero, Num.truthy.
  destruct (is_nan x) eqn:E; simpl; [reflexivity|].
  now destruct (is_zero x).
Qed.

(** X7.  The investment figure used for a cluster is never NaN.  When the
    map holds nothing usable for the cluster's key (no entry, or an entry
    that is NaN or zero) the figure is 0, and then ROI and CPA are 0 and
    the badge reads "Pendente"; otherwise the figure is the stored
    number.  The revenue-sorted table reads its figure and ROI the same
    way. *)
Theorem X7_cluster_investment_reads
  (investments : gmap string float) (g : BySales.Group)
  (r : ByRevenue.Group) :
  let f := clusterFigures investments g in
  is_nan (figInvest f) = false
  /\ is_nan (revClusterGas investments r) = false
  /\ match investments !! BySales.key g with
     | Some x =>
         if Num.truthy x then figInvest f = x
         else figInvest f = 0%float /\ figRoi f = 0%float
              /\ figCpa f = 0%float /\ figPending f = true
     | None =>
         figInvest f = 0%float /\ figRoi f = 0%float
         /\ figCpa f = 0%float /\ figPending f = true
     end
  /\ match investments !! revGroupKey r with
     | Some x =>
         if Num.truthy x then revClusterGas investments r = x
         else revClusterRoi investments r = 0%float
     | None => revClusterRoi investments r = 0%float
     end.
Proof.
  intros f. unfold f, clusterFigures, revClusterRoi, revClusterGas,
    investmentOf. simpl.
  split; [|split; [|split]].
  - destruct (investments !! BySales.key g); [apply orZero_not_nan | reflexivity].
  - destruct (investments !! revGroupKey r); [apply orZero_not_nan | reflexivity].
  - destruct (investments !! BySales.key g) as [x|]; [|repeat split].
    unfold Num.orZero. destruct (Num.truthy x); [reflexivity | repeat split].
  - destruct (investments !! revGroupKey r) as [x|]; [|reflexivity].
    unfold Num.orZero. destruct (Num.truthy x); reflexivity.
Qed.

(** X8.  Editing the investment of one cluster is read back for that
    cluster (an emptied input, a zero and a NaN all read as 0), leaves the
    figure of every other cluster as it was, changes neither the filtered
    rows nor the KPIs nor the clusters, and survives "clear all". *)
Theorem X8_investment_edit_is_local
  `{Runtime} (data : DashboardData) (st : State) (clock : Z)
  (k : string) (val : option float) :
  let st' := setGroupInvestment k val st in
  investmentOf (groupInvestments st') k
  = match val with Some x => Num.orZero x | None => 0%float end
  /\ (forall k', k' <> k ->
        investmentOf (groupInvestments st') k'
        = investmentOf (groupInvestments st) k')
  /\ filteredRows data st' clock = filteredRows data st clock
  /\ stats data st' clock = stats data st clock
  /\ groupedData data st' clock = groupedData data st clock
  /\ groupInvestments (clearAllFilters st') = groupInvestments st'.
Proof.
  intros st'. unfold st', investmentOf. simpl.
  split; [|split; [|repeat split]].
  - destruct val as [x|].
    + now rewrite lookup_insert_eq.
    + now rewrite lookup_delete_eq.
  - intros k' Hne. destruct val as [x|].
    + now rewrite lookup_insert_ne by congruence.
    + now rewrite lookup_delete_ne by congruence.
Qed.

(** ** The option lists of the categorical filters *)

Lemma sorted_NoDup_strict (l : list string) :
  StronglySorted (fun a b => String.ltb b a = false) l ->
  NoDup l ->
  StronglySorted (fun a b => String.ltb a b = true) l.
Proof.
  induction 1 as [|x l Hs IH Hall]; intros Hnd; [constructor|].
  apply NoDup_cons in Hnd as [Hx Hnd].
  constructor; [now apply IH|].
  apply List.Forall_forall. intros y Hy.
  pose proof (proj1 (List.Forall_forall _ _) Hall y Hy) as Hle.
  unfold String.ltb in *. rewrite String.compare_antisym in Hle.
  destruct (String.compare x y) eqn:E; simpl in Hle; try congruence.
  apply String.compare_eq_iff in E. subst y.
  exfalso. apply Hx. now apply list_elem_of_In.
Qed.

Lemma uniqueValues_In `{Runtime} (data : DashboardData) (col v : string) :
  In v (uniqueValues data col)
  <-> v <> ""
      /\ exists r, In r (rows data) /\ stringOrEmpty (rawCell r col) = v.
Proof.
  unfold uniqueValues. split.
  - intros Hv.
    apply (Permutation_in _ (sortStrings_Permutation _)) in Hv.
    apply distinct_In, filter_In in Hv as [Hv Hne].
    apply List.in_map_iff in Hv as (r & Hr & Hin).
    split; [|now exists r].
    intros ->. now rewrite String.eqb_refl in Hne.
  - intros (Hne & r & Hin & Hr).
    apply (Permutation_in _ (Permutation_sym (sortStrings_Permutation _))).
    apply distinct_In, filter_In. split.
    + apply List.in_map_iff. now exists r.
    + apply negb_true_iff. now apply String.eqb_neq.
Qed.


Lemma indexFrom_In (rs : list (gmap string value)) (i : nat)
  (r : gmap string value) :
  In r rs -> exists j, In {| cells := r; _id := j |} (indexFrom i rs).
Proof.
  revert i. induction rs as [|r0 rs IH]; intros i; simpl; [tauto|].
  intros [-> | Hin].
  - exists i. now left.
  - destruct (IH (S i) Hin) as [j Hj]. exists j. now right.
Qed.

Lemma includeRow_single_selection `{Runtime} (data : DashboardData)
  (clock : Z) (col v : string) (row : IndexedRow) :
  includeRow data (toggleFilter col v initialState) clock row
  = String.eqb (ToString (cell row col)) v.
Proof.
  unfold includeRow. rewrite passesDate_all by reflexivity.
  unfold matchesSearch, matchesFilters. simpl.
  rewrite lookup_empty. simpl.
  change (toggled v []) with [v].
  rewrite insert_empty, map_to_list_singleton. simpl.
  now rewrite orb_false_r, !andb_true_r.
Qed.


Lemma fold_insert_lookup {V : Type} (f : string -> V) (cols : list string)
  (m : gmap string V) (col : string) :
  fold_left (fun m c => <[c := f c]> m) cols m !! col
  = if bool_decide (col ∈ cols) then Some (f col) else m !! col.
Proof.
  revert m. induction cols as [|c cols IH]; intros m; simpl; [reflexivity|].
  rewrite IH. destruct (decide (col ∈ cols)) as [Hin | Hout].
  - rewrite !bool_decide_eq_true_2; [reflexivity | | exact Hin].
    apply elem_of_cons. now right.
  - rewrite (bool_decide_eq_false_2 _ Hout).
    destruct (decide (c = col)) as [-> | Hne].
    + rewrite lookup_insert_eq, bool_decide_eq_true_2; [reflexivity|].
      apply elem_of_cons. now left.
    + rewrite lookup_insert_ne by exact Hne.
      rewrite bool_decide_eq_false_2; [reflexivity|].
      apply not_elem_of_cons. split; [congruence | exact Hout].
Qed.

Lemma includes_empty (s : string) : Str.includes s "" = true.
Proof. now destruct s. Qed.


(** ** How selections and the search narrow and widen *)

Lemma filter_sublist_impl {A : Type} (f g : A -> bool) (l : list A) :
  (forall x, f x = true -> g x = true) ->
  sublist (List.filter f l) (List.filter g l).
Proof.
  intros Hfg. induction l as [|x l IH]; simpl; [constructor|].
  destruct (f x) eqn:E.
  - rewrite (Hfg x E). now constructor.
  - destruct (g x); [now constructor | exact IH].
Qed.

Lemma filter_andb {A : Type} (f g : A -> bool) (l : list A) :
  List.filter (fun x => f x && g x) l = List.filter g (List.filter f l).
Proof.
  induction l as [|x l IH]; simpl; [reflexivity|].
  destruct (f x); simpl; [destruct (g x)|]; now rewrite IH.
Qed.

Lemma matchesFilters_toggle `{Runtime} (st : State) (col v : string)
  (row : IndexedRow) :
  matchesFilters (toggleFilter col v st) row = true
  <-> selectionAllows (toggled v (default [] (filters st !! col)))
                      (ToString (cell row col)) = true
      /\ forall c vals, c <> col -> filters st !! c = Some vals ->
           selectionAllows vals (ToString (cell row c)) = true.
Proof.
  rewrite matchesFilters_spec, toggleFilter_filters. split.
  - intros Hall. split.
    + apply (Hall col). apply lookup_insert_eq.
    + intros c vals Hne Hlk. apply (Hall c).
      now rewrite lookup_insert_ne by congruence.
  - intros [Hcol Hrest] c vals Hlk.
    destruct (decide (col = c)) as [<- | Hne].
    + rewrite lookup_insert_eq in Hlk. now injection Hlk as <-.
    + rewrite lookup_insert_ne in Hlk by exact Hne.
      apply Hrest; [congruence | exact Hlk].
Qed.

Lemma matchesFilters_split `{Runtime} (st : State) (col : string)
  (row : IndexedRow) :
  matchesFilters st row = true
  <-> selectionAllows (default [] (filters st !! col))
                      (ToString (cell row col)) = true
      /\ forall c vals, c <> col -> filters st !! c = Some vals ->
           selectionAllows vals (ToString (cell row c)) = true.
Proof.
  rewrite matchesFilters_spec. split.
  - intros Hall. split.
    + destruct (filters st !! col) as [cur|] eqn:E; simpl; [|reflexivity].
      now apply (Hall col).
    + intros c vals _ Hlk. now apply (Hall c).
  - intros [Hcol Hrest] c vals Hlk.
    destruct (decide (c = col)) as [-> | Hne].
    + now rewrite Hlk in Hcol.
    + now apply Hrest.
Qed.



(** X13.  A search text never adds rows: whatever the rest of the state,
    the rows shown under a search text are a sub-list, in order, of the rows
    shown under the empty search text. *)
Theorem X13_search_only_narrows
  `{Runtime} (data : DashboardData) (st : State) (clock : Z) (q : string) :
  sublist (filteredRows data (setSearchTerm q st) clock)
          (filteredRows data (setSearchTerm "" st) clock).
Proof.
  unfold filteredRows. apply filter_sublist_impl. intros row.
  unfold includeRow.
  change (passesDate data (setSearchTerm q st) clock row)
    with (passesDate data (setSearchTerm "" st) clock row).
  change (matchesFilters (setSearchTerm q st) row)
    with (matchesFilters (setSearchTerm "" st) row).
  rewrite !andb_true_iff. intros (Hd & Hf & _).
  repeat split; assumption.
Qed.

(** ** The volume counters *)

Section VolumeFacts.
Context `{Runtime}.
Variable data : DashboardData.
Variable clock : Z.
Hypothesis clock_range : 0 <= clock <= 8640000000000000.

Lemma daysBack_value (n : Z) :
  0 <= n <= 30 ->
  daysBack clock n = MkDate (Some (clock - n * JSDate.msPerDay)).
Proof.
  intros Hn. unfold daysBack, setDate, getDate, DateNow. simpl.
  rewrite TimeClip_in_range by lia. simpl.
  rewrite MakeDay_back. f_equal.
  assert (E : UTC (JSDate.MakeDate (JSDate.Day (LocalTime clock) - n)
                                   (JSDate.TimeWithinDay (LocalTime clock)))
              = clock - n * JSDate.msPerDay).
  { pose proof (day_decomposition (LocalTime clock)) as Hd.
    unfold UTC, LocalTime, JSDate.MakeDate in *. lia. }
  rewrite E. apply TimeClip_in_range. unfold JSDate.msPerDay. lia.
Qed.

(** A date of today is within the last seven days, and a date within the
    last seven days is within the last thirty. *)
Lemma windows_nest (d : Date) :
  (dateStringEqb (toDateString d) (toDateString (DateNow clock)) = true ->
   dateGe d (daysBack clock 7) = true)
  /\ (dateGe d (daysBack clock 7) = true ->
      dateGe d (daysBack clock 30) = true).
Proof.
  rewrite !daysBack_value by lia. unfold dateGe. simpl.
  split.
  - rewrite dateStringEqb_eq. unfold toDateString, DateNow. simpl.
    rewrite TimeClip_in_range by lia.
    destruct (getTime d) as [x|]; [|discriminate].
    intros [= E]. apply Z.leb_le.
    assert (Hday : JSDate.Day (LocalTime x) = JSDate.Day (LocalTime clock)).
    { apply same_date_same_day. congruence. }
    unfold JSDate.Day, LocalTime, JSDate.msPerDay in *.
    pose proof (Z.div_mod (x + LocalTZA) 86400000 ltac:(lia)).
    pose proof (Z.mod_pos_bound (x + LocalTZA) 86400000 ltac:(lia)).
    pose proof (Z.div_mod (clock + LocalTZA) 86400000 ltac:(lia)).
    pose proof (Z.mod_pos_bound (clock + LocalTZA) 86400000 ltac:(lia)).
    lia.
  - destruct (getTime d) as [x|]; [|discriminate].
    rewrite !Z.leb_le. unfold JSDate.msPerDay. lia.
Qed.

Lemma volumeStep_invariant (acc : VolumeStats) (r : gmap string value) (n : Z) :
  0 <= volToday acc <= volSeven acc ->
  volSeven acc <= volThirty acc <= n ->
  let acc' := volumeStep data clock acc r in
  0 <= volToday acc' <= volSeven acc'
  /\ volSeven acc' <= volThirty acc' <= n + 1.
Proof.
  intros H1 H2. unfold volumeStep.
  destruct (parseBrazilianDate _) as [d|]; simpl; [|lia].
  destruct (windows_nest d) as [Hab Hbc].
  destruct (dateStringEqb _ _); [rewrite Hab, Hbc by auto; lia|].
  destruct (dateGe d (daysBack clock 7)); [rewrite Hbc by auto; lia|].
  destruct (dateGe d (daysBack clock 30)); lia.
Qed.

Lemma volume_fold_invariant (rs : list (gmap string value))
  (acc : VolumeStats) (n : Z) :
  0 <= volToday acc <= volSeven acc ->
  volSeven acc <= volThirty acc <= n ->
  let out := fold_left (volumeStep data clock) rs acc in
  0 <= volToday out <= volSeven out
  /\ volSeven out <= volThirty out <= n + Z.of_nat (length rs).
Proof.
  revert acc n. induction rs as [|r rs IH]; intros acc n H1 H2; simpl.
  - lia.
  - destruct (volumeStep_invariant acc r n H1 H2) as [H1' H2'].
    specialize (IH _ _ H1' H2'). cbv zeta in IH. lia.
Qed.

End VolumeFacts.

(** X14.  The three volume counters nest: the sales of today are among
    those of the last seven days, which are among those of the last thirty,
    which are among the rows of the dataset; so "Hoje" <= "7 Dias" <=
    "30 Dias" <= number of rows, whatever the rows hold. *)
Theorem X14_volume_counters_nest
  `{Runtime} (data : DashboardData) (clock : Z) :
  0 <= clock <= 8640000000000000 ->
  let v := volumeStats data clock in
  0 <= volToday v
  /\ volToday v <= volSeven v
  /\ volSeven v <= volThirty v
  /\ volThirty v <= Z.of_nat (length (rows data)).
Proof.
  intros Hclock v.
  pose proof (volume_fold_invariant data clock Hclock (rows data)
                {| volToday := 0; volSeven := 0; volThirty := 0 |} 0) as Hinv.
  simpl in Hinv. unfold v, volumeStats. lia.
Qed.

(** X14 on the sample, on 15 March: one sale of today, two of the last seven
    days, four of the last thirty. *)
Lemma X14_volume_sample :
  let v := @volumeStats (refRuntime 0) Scenario.campaigns Sample.clock in
  (volToday v, volSeven v, volThirty v) = (1, 2, 4)
  /\ volToday v <= volSeven v.
Proof.
  intros v.
  destruct (X14_volume_counters_nest (H := refRuntime 0) Scenario.campaigns
              Sample.clock) as (_ & Hts & _).
  - unfold Sample.clock. lia.
  - split; [vm_compute; reflexivity | exact Hts].
Defined.

(** ** Objects as maps: the entries are the created ones, reordered *)

Lemma filter_partition_Permutation {A : Type} (f : A -> bool) (l : list A) :
  Permutation (List.filter f l ++ List.filter (fun x => negb (f x)) l) l.
Proof.
  induction l as [|x l IH]; simpl; [reflexivity|].
  destruct (f x); simpl.
  - now constructor.
  - rewrite <- Permutation_middle. now constructor.
Qed.

Lemma ownEntries_Permutation {G : Type} (created : list (string * G)) :
  Permutation (ownEntries created) created.
Proof.
  unfold ownEntries. rewrite sortStable_Permutation.
  apply (filter_partition_Permutation (fun p => isArrayIndex (fst p))).
Qed.

(** ** Counting occurrences with an object *)

Section CountingObject.
Context {R : Type}.
Variable keyOf : R -> string.
Variable rs : list R.

Lemma counted_entry (k : string) (n : Z) :
  In (k, n) (groupRows keyOf (fun _ => 0) (fun _ n => n + 1) rs) ->
  rowsOf keyOf k rs <> []
  /\ n = Z.of_nat (length (rowsOf keyOf k rs)).
Proof.
  intros Hin.
  apply In_lookupKey in Hin; [|apply groupRows_keys_NoDup].
  rewrite lookupKey_groupRows in Hin.
  destruct (rowsOf keyOf k rs) as [|r0 t] eqn:E; [discriminate|].
  injection Hin as <-. split; [discriminate|].
  etransitivity;
    [apply (count_fold (fun (_ : R) (n : Z) => n + 1) (fun n => n)
              (fun _ _ => eq_refl) (r0 :: t) 0)|].
  lia.
Qed.

End CountingObject.

Lemma firstn_sublist {A : Type} (n : nat) (l : list A) : sublist (firstn n l) l.
Proof.
  revert n. induction l as [|x l IH]; intros [|n]; simpl;
    try constructor; [apply sublist_nil_l | apply IH].
Qed.

Lemma sublist_In {A : Type} (k l : list A) (x : A) :
  sublist k l -> In x k -> In x l.
Proof.
  intros Hs Hx. apply list_elem_of_In.
  eapply elem_of_sublist; [|exact Hs]. now apply list_elem_of_In.
Qed.

Lemma sublist_map {A B : Type} (f : A -> B) (k l : list A) :
  sublist k l -> sublist (map f k) (map f l).
Proof. induction 1; simpl; now constructor. Qed.

(** ** Accumulating in a plain object *)

Section PlainObjectFacts.
Context {R G : Type}.
Variable nativeText : string -> string.
Variable keyOf : R -> string.
Variable next : R -> PropertyRead G -> G.

Lemma lookupKey_writeProperty (k k' : string) (g : G)
  (obj : list (string * G)) :
  lookupKey k (writeProperty k' g obj)
  = if String.eqb k' "__proto__" then lookupKey k obj
    else if String.eqb k k' then Some g else lookupKey k obj.
Proof.
  unfold writeProperty. destruct (String.eqb k' "__proto__"); [reflexivity|].
  rewrite hasKey_lookupKey.
  destruct (lookupKey k' obj) as [g0|] eqn:E.
  - rewrite lookupKey_updateKey.
    destruct (String.eqb_spec k k') as [-> | Hne];
      [now rewrite E | reflexivity].
  - rewrite lookupKey_snoc.
    destruct (String.eqb_spec k k') as [-> | Hne]; [now rewrite E|].
    now destruct (lookupKey k obj).
Qed.

Lemma keys_writeProperty (k : string) (g : G) (obj : list (string * G)) :
  map fst (writeProperty k g obj)
  = if String.eqb k "__proto__" || hasKey k obj then map fst obj
    else (map fst obj ++ [k])%list.
Proof.
  unfold writeProperty. destruct (String.eqb k "__proto__"); [reflexivity|].
  simpl. destruct (hasKey k obj); [apply keys_updateKey|].
  now rewrite map_app.
Qed.

Lemma accumulate_snoc (rs : list R) (r : R) :
  accumulate nativeText keyOf next (rs ++ [r])
  = accumulateStep nativeText keyOf next
      (accumulate nativeText keyOf next rs) r.
Proof. unfold accumulate. now rewrite fold_left_app. Qed.

(** No property is created twice. *)
Lemma accumulate_keys_NoDup (rs : list R) :
  NoDup (map fst (accumulate nativeText keyOf next rs)).
Proof.
  induction rs as [|r rs IH] using rev_ind; [constructor|].
  rewrite accumulate_snoc. unfold accumulateStep.
  rewrite keys_writeProperty.
  destruct (String.eqb (keyOf r) "__proto__" || hasKey (keyOf r) _) eqn:E;
    [exact IH|].
  apply orb_false_iff in E as [_ E].
  apply NoDup_app. repeat split.
  - exact IH.
  - intros k Hk Hk'. apply list_elem_of_In in Hk, Hk'.
    destruct Hk' as [<- | []].
    apply hasKey_In in Hk. congruence.
  - apply NoDup_singleton.
Qed.

(** The object never gets a property of its own named "__proto__". *)
Lemma accumulate_no_proto (rs : list R) :
  lookupKey "__proto__" (accumulate nativeText keyOf next rs) = None.
Proof.
  induction rs as [|r rs IH] using rev_ind; [reflexivity|].
  rewrite accumulate_snoc. unfold accumulateStep.
  rewrite lookupKey_writeProperty.
  destruct (String.eqb_spec (keyOf r) "__proto__") as [E | Hne];
    [exact IH|].
  destruct (String.eqb_spec "__proto__" (keyOf r)); [congruence | exact IH].
Qed.

(** What is stored under another key [k] after the loop: nothing when no
    row has that key; otherwise what the first such row makes of the
    prototype's answer, updated by each further row of the key in turn. *)
Lemma lookupKey_accumulate (k : string) (rs : list R) :
  k <> "__proto__" ->
  lookupKey k (accumulate nativeText keyOf next rs)
  = match rowsOf keyOf k rs with
    | [] => None
    | r0 :: t =>
        Some (fold_left (fun g r => next r (Own g)) t
                        (next r0 (inheritedRead nativeText k)))
    end.
Proof.
  intros Hk.
  induction rs as [|r rs IH] using rev_ind; [reflexivity|].
  rewrite accumulate_snoc. unfold accumulateStep.
  rewrite lookupKey_writeProperty.
  unfold rowsOf in *. rewrite List.filter_app. simpl.
  destruct (String.eqb_spec (keyOf r) "__proto__") as [E | Hne].
  - destruct (String.eqb_spec (keyOf r) k); [congruence|].
    now rewrite app_nil_r.
  - destruct (String.eqb_spec k (keyOf r)) as [-> | Hne'].
    + rewrite String.eqb_refl. unfold readProperty. rewrite IH.
      destruct (List.filter _ rs) as [|r0 t]; simpl; [reflexivity|].
      now rewrite fold_left_app.
    + destruct (String.eqb_spec (keyOf r) k); [congruence|].
      now rewrite app_nil_r.
Qed.

Lemma accumulate_entry (k : string) (g : G) (rs : list R) :
  In (k, g) (accumulate nativeText keyOf next rs) ->
  k <> "__proto__"
  /\ exists r0 t,
       rowsOf keyOf k rs = r0 :: t
       /\ g = fold_left (fun g r => next r (Own g)) t
                        (next r0 (inheritedRead nativeText k)).
Proof.
  intros Hin.
  apply In_lookupKey in Hin; [|apply accumulate_keys_NoDup].
  assert (Hk : k <> "__proto__").
  { intros ->. rewrite accumulate_no_proto in Hin. discriminate. }
  split; [exact Hk|].
  rewrite lookupKey_accumulate in Hin by exact Hk.
  destruct (rowsOf keyOf k rs) as [|r0 t]; [discriminate|].
  injection Hin as <-. now exists r0, t.
Qed.

Lemma accumulate_row (r : R) (rs : list R) :
  In r rs -> keyOf r <> "__proto__" ->
  exists g, In (keyOf r, g) (accumulate nativeText keyOf next rs).
Proof.
  intros Hr Hk.
  pose proof (lookupKey_accumulate (keyOf r) rs Hk) as Hl.
  destruct (rowsOf keyOf (keyOf r) rs) as [|r0 t] eqn:E.
  { exfalso. assert (Hin : In r (rowsOf keyOf (keyOf r) rs)).
    { unfold rowsOf. apply filter_In. split; [exact Hr|].
      apply String.eqb_refl. }
    rewrite E in Hin. exact Hin. }
  eexists. apply lookupKey_In. exact Hl.
Qed.

End PlainObjectFacts.

Lemma rowsOf_In {R : Type} (keyOf : R -> string) (k : string) (r : R)
  (rs : list R) :
  In r (rowsOf keyOf k rs) <-> In r rs /\ keyOf r = k.
Proof. unfold rowsOf. now rewrite filter_In, String.eqb_eq. Qed.

Lemma append_empty_r (s : string) : (s ++ "")%string = s.
Proof.
  induction s as [|c s IH]; [reflexivity | exact (f_equal (String c) IH)].
Qed.

Lemma append_associative (a b c : string) :
  ((a ++ b) ++ c)%string = (a ++ (b ++ c))%string.
Proof.
  induction a as [|x a IH]; [reflexivity | exact (f_equal (String x) IH)].
Qed.

Lemma concat_empty_cons (x : string) (l : list string) :
  String.concat "" (x :: l) = (x ++ String.concat "" l)%string.
Proof.
  destruct l as [|y l]; simpl; [now rewrite append_empty_r | reflexivity].
Qed.

Lemma append_truthy (a b : string) : a <> "" -> Str.truthy (a ++ b) = true.
Proof. destruct a; [congruence | reflexivity]. Qed.

Lemma truthy_nonempty (a : string) : Str.truthy a = true -> a <> "".
Proof. destruct a; [discriminate | congruence]. Qed.

Lemma append_nonempty (a b : string) : a <> "" -> (a ++ b)%string <> "".
Proof. intros Ha. apply truthy_nonempty. now apply append_truthy. Qed.

Lemma insertSorted_ext_in {A : Type} (f g : A -> A -> bool) (x : A)
  (l : list A) :
  (forall y, In y l -> f x y = g x y) ->
  insertSorted f x l = insertSorted g x l.
Proof.
  induction l as [|y l IH]; simpl; intros Hfg; [reflexivity|].
  rewrite <- (Hfg y) by now left.
  destruct (f x y); [|reflexivity].
  f_equal. apply IH. intros z Hz. apply Hfg. now right.
Qed.

(** Sorting looks at the comparator on the elements of the list only. *)
Lemma sortStable_ext_in {A : Type} (f g : A -> A -> bool) (l : list A) :
  (forall x y, In x l -> In y l -> f x y = g x y) ->
  sortStable f l = sortStable g l.
Proof.
  induction l as [|x l IH]; simpl; intros Hfg; [reflexivity|].
  rewrite IH by (intros a b Ha Hb; apply Hfg; now right).
  apply insertSorted_ext_in. intros y Hy. apply Hfg; [now left|].
  right. exact (Permutation_in _ (sortStable_Permutation g l) Hy).
Qed.

Lemma StronglySorted_map {A B : Type} (f : A -> B) (S : B -> B -> Prop)
  (l : list A) :
  StronglySorted (fun a b => S (f a) (f b)) l -> StronglySorted S (map f l).
Proof.
  induction 1 as [|x l Hs IH Hall]; simpl; constructor; [exact IH|].
  apply List.Forall_forall. intros y Hy.
  apply List.in_map_iff in Hy as (z & <- & Hz).
  exact (proj1 (List.Forall_forall _ _) Hall z Hz).
Qed.

(** ** Top five by occurrences *)

Section PieFacts.
Context `{Runtime}.

Lemma pie_fold_tally (t : list IndexedRow) (n : Z) :
  fold_left (fun g r => pieNext r (Own g)) t (Tally n)
  = Tally (n + Z.of_nat (length t)).
Proof.
  revert n. induction t as [|r t IH]; intros n.
  - simpl. f_equal. lia.
  - change (fold_left (fun g r => pieNext r (Own g)) (r :: t) (Tally n))
      with (fold_left (fun g r => pieNext r (Own g)) t (Tally (n + 1))).
    rewrite IH. f_equal. simpl length. lia.
Qed.

Lemma pie_fold_text (t : list IndexedRow) (s : string) :
  s <> "" ->
  fold_left (fun g r => pieNext r (Own g)) t (Spelled s)
  = Spelled (s ++ String.concat "" (map (fun _ => NumberToString 1) t)).
Proof.
  revert s. induction t as [|r t IH]; intros s Hs.
  - simpl. now rewrite append_empty_r.
  - change (fold_left (fun g r => pieNext r (Own g)) (r :: t) (Spelled s))
      with (fold_left (fun g r => pieNext r (Own g)) t
              (pieNext r (Own (Spelled s)))).
    destruct s as [|c s]; [congruence|].
    change (pieNext r (Own (Spelled (String c s))))
      with (Spelled (String c s ++ NumberToString 1)).
    rewrite IH by now apply append_nonempty.
    simpl map. rewrite concat_empty_cons.
    f_equal. apply append_associative.
Qed.

(** What [counts] holds under a key, by what the prototype answers for
    it. *)
Lemma pie_counted (nativeText : string -> string) (k : string)
  (r0 : IndexedRow) (t : list IndexedRow) :
  match inheritedText nativeText k with
  | None =>
      fold_left (fun g r => pieNext r (Own g)) t
                (pieNext r0 (inheritedRead nativeText k))
      = Tally (Z.of_nat (length (r0 :: t)))
  | Some text =>
      text <> "" ->
      fold_left (fun g r => pieNext r (Own g)) t
                (pieNext r0 (inheritedRead nativeText k))
      = Spelled (text ++ String.concat ""
                           (map (fun _ => NumberToString 1) (r0 :: t)))
  end.
Proof.
  unfold inheritedRead.
  destruct (inheritedText nativeText k) as [text|].
  - intros Htext. simpl pieNext. simpl map. rewrite concat_empty_cons.
    rewrite pie_fold_text.
    + f_equal. apply append_associative.
    + destruct text; [congruence | discriminate].
  - simpl pieNext. rewrite pie_fold_tally. f_equal. simpl length. lia.
Qed.

End PieFacts.



(** ** The daily series *)

Section DailyFacts.
Context `{Runtime}.
Variable data : DashboardData.

Lemma toISOString_None (d : Date) :
  toISOString d = None <-> getTime d = None.
Proof. unfold toISOString. destruct (getTime d); split; congruence. Qed.

Lemma dayStep_thrown (rs : list IndexedRow) :
  fold_left (dayStep data) rs None = None.
Proof. induction rs as [|r rs IH]; simpl; [reflexivity | exact IH]. Qed.

(** The loop is the counting of the keys it reaches, unless a date cannot
    be printed. *)
Lemma dayStep_fold (rs : list IndexedRow) (acc : list (string * Z)) :
  fold_left (dayStep data) rs (Some acc)
  = match dayKeys data rs with
    | Some keys =>
        Some (fold_left (groupStep (fun k => k) (fun _ => 0)
                                   (fun _ n => n + 1)) keys acc)
    | None => None
    end.
Proof.
  revert acc. induction rs as [|r rs IH]; intros acc; simpl; [reflexivity|].
  destruct (parseBrazilianDate _) as [d|]; [|apply IH].
  destruct (toISOString d) as [iso|]; [|apply dayStep_thrown].
  rewrite IH. now destruct (dayKeys data rs).
Qed.

Lemma dayKeys_None (rs : list IndexedRow) :
  dayKeys data rs = None
  <-> Exists (fun row =>
                exists d,
                  parseBrazilianDate (cell row (orEmpty (colData data)))
                  = Some d
                  /\ getTime d = None) rs.
Proof.
  induction rs as [|r rs IH]; simpl.
  - split; [discriminate | intros HE; inversion HE].
  - rewrite Exists_cons.
    destruct (parseBrazilianDate _) as [d|] eqn:Ep.
    + destruct (toISOString d) as [iso|] eqn:Ei.
      * assert (Hv : getTime d <> None).
        { intros E. apply toISOString_None in E. congruence. }
        destruct (dayKeys data rs) as [keys|].
        -- split; [discriminate|].
           intros [(d' & [= <-] & Hd) | HE]; [contradiction|].
           now apply IH in HE.
        -- split; [intros _; right; now apply IH | reflexivity].
      * split; [|reflexivity]. intros _. left. exists d.
        split; [reflexivity | now apply toISOString_None].
    + rewrite IH. split; [now right|].
      intros [(d & Hd & _) | HE]; [discriminate | exact HE].
Qed.

Lemma dayKeys_length (rs : list IndexedRow) (keys : list string) :
  dayKeys data rs = Some keys ->
  length keys
  = length (List.filter
              (fun row =>
                 match parseBrazilianDate
                         (cell row (orEmpty (colData data))) with
                 | Some _ => true
                 | None => false
                 end) rs).
Proof.
  revert keys. induction rs as [|r rs IH]; intros keys; simpl.
  - now intros [= <-].
  - destruct (parseBrazilianDate _) as [d|]; [|apply IH].
    destruct (toISOString d) as [iso|]; [|discriminate].
    destruct (dayKeys data rs) as [ks|]; [|discriminate].
    intros [= <-]. simpl. f_equal. now apply IH.
Qed.

End DailyFacts.

(** X15.  [salesByDay] throws exactly when one of the filtered rows has a
    date cell that [parseBrazilianDate] turns into an Invalid Date object:
    [toISOString] does not accept it.  Rows whose date cell gives [null] are
    skipped and do no harm. *)
Theorem X15_daily_series_throws_on_an_invalid_date
  `{Runtime} (data : DashboardData) (st : State) (clock : Z)
  (localeCompare : string -> string -> Z) :
  salesByDay data st clock localeCompare = None
  <-> Exists (fun row =>
                exists d,
                  parseBrazilianDate (cell row (orEmpty (colData data)))
                  = Some d
                  /\ getTime d = None)
             (filteredRows data st clock).
Proof.
  rewrite <- dayKeys_None. unfold salesByDay, dailyCounts.
  rewrite dayStep_fold.
  destruct (dayKeys data (filteredRows data st clock));
    split; congruence.
Qed.

(** X15 on the sample: with no filter at all, one sale dated "a/b/c" makes
    the daily series throw. *)
Lemma X15_daily_series_sample :
  @salesByDay (refRuntime 0) (Sample.oneSale (VString "a/b/c")) initialState
    Sample.clock Scenario.codeUnitOrder = None.
Proof.
  apply (X15_daily_series_throws_on_an_invalid_date
           (H := refRuntime 0) (Sample.oneSale (VString "a/b/c"))
           initialState Sample.clock Scenario.codeUnitOrder).
  apply Exists_exists.
  exists (Sample.first (Sample.oneSale (VString "a/b/c"))).
  split; [vm_compute; now left|].
  exists InvalidDate. split; vm_compute; reflexivity.
Defined.

(** X16.  When [salesByDay] does not throw, its points are of pairwise
    distinct days, each with at least one sale and labelled from its own
    day, and the sales of all points add up to the number of filtered rows
    whose date cell gives a Date object. *)
Theorem X16_daily_series_counts_the_dated_rows
  `{Runtime} (data : DashboardData) (st : State) (clock : Z)
  (localeCompare : string -> string -> Z) (points : list ByDay.Point) :
  salesByDay data st clock localeCompare = Some points ->
  NoDup (map ByDay.full points)
  /\ Forall (fun p => 1 <= ByDay.sales p
                      /\ ByDay.date p = dayLabel (ByDay.full p)) points
  /\ sumZ (map ByDay.sales points)
     = Z.of_nat
         (length (List.filter
                    (fun row =>
                       match parseBrazilianDate
                               (cell row (orEmpty (colData data))) with
                       | Some _ => true
                       | None => false
                       end)
                    (filteredRows data st clock))).
Proof.
  unfold salesByDay, dailyCounts. rewrite dayStep_fold.
  destruct (dayKeys data (filteredRows data st clock)) as [keys|] eqn:Ek;
    [|discriminate].
  intros [= <-].
  change (fold_left (groupStep (fun k => k) (fun _ => 0) (fun _ n => n + 1))
                    keys [])
    with (groupRows (fun k : string => k) (fun _ => 0) (fun _ n => n + 1) keys).
  set (daily := groupRows (fun k : string => k) (fun _ => 0)
                          (fun _ n => n + 1) keys).
  set (mk := fun p : string * Z =>
               {| ByDay.date := dayLabel (fst p);
                  ByDay.sales := snd p;
                  ByDay.full := fst p |}).
  assert (Hperm : Permutation
                    (sortStable
                       (fun a b =>
                          localeCompare (ByDay.full a) (ByDay.full b) >? 0)
                       (map mk (ownEntries daily)))
                    (map mk daily)).
  { rewrite sortStable_Permutation.
    apply Permutation_map, ownEntries_Permutation. }
  split; [|split].
  - rewrite (Permutation_map ByDay.full Hperm), map_map. simpl.
    apply groupRows_keys_NoDup.
  - apply List.Forall_forall. intros p Hp.
    apply (Permutation_in _ Hperm), List.in_map_iff in Hp
      as ([k n] & <- & Hin).
    destruct (counted_entry _ _ _ _ Hin) as [Hne Hn]. simpl.
    split; [|reflexivity].
    destruct (rowsOf (fun k0 : string => k0) k keys);
      [contradiction | simpl in Hn; lia].
  - rewrite (sumZ_Permutation _ _ (Permutation_map ByDay.sales Hperm)).
    rewrite map_map.
    transitivity (Z.of_nat (length keys));
      [|f_equal; now apply dayKeys_length].
    exact (sum_groupRows (fun k : string => k) (fun _ => 0)
             (fun _ n => n + 1) (fun n => n)
             (fun _ => eq_refl) (fun _ _ => eq_refl) keys).
Qed.

(** X16 on the sample: three days, four dated sales. *)
Lemma X16_daily_series_sample :
  option_map (map (fun p => (ByDay.date p, ByDay.sales p)))
    (@salesByDay (refRuntime 0) Scenario.campaigns initialState Sample.clock
       Scenario.codeUnitOrder)
  = Some [("01/03", 2); ("14/03", 1); ("15/03", 1)]
  /\ NoDup ["2024-03-01"; "2024-03-14"; "2024-03-15"].
Proof.
  destruct (@salesByDay (refRuntime 0) Scenario.campaigns initialState
              Sample.clock Scenario.codeUnitOrder) as [points|] eqn:E;
    [|vm_compute in E; discriminate].
  destruct (X16_daily_series_counts_the_dated_rows
              (H := refRuntime 0) Scenario.campaigns initialState
              Sample.clock Scenario.codeUnitOrder points E) as (Hnd & _).
  vm_compute in E. injection E as <-.
  split; [reflexivity | exact Hnd].
Defined.

(** ** The bar chart *)

Section BarFacts.
Context `{Runtime}.
Variable chartMet : string.

Lemma chart_fold_number (t : list IndexedRow) (x : float) :
  fold_left (fun g r => chartNext chartMet r (Own g)) t (VNumber x)
  = VNumber (fold_left (fun acc r => chartAbsorb chartMet r acc) t x).
Proof.
  revert x. induction t as [|r t IH]; intros x; [reflexivity|].
  change (fold_left (fun g r => chartNext chartMet r (Own g)) (r :: t)
            (VNumber x))
    with (fold_left (fun g r => chartNext chartMet r (Own g)) t
            (VNumber (chartAbsorb chartMet r x))).
  now rewrite IH.
Qed.

Lemma chart_fold_text (t : list IndexedRow) (s : string) :
  s <> "" ->
  fold_left (fun g r => chartNext chartMet r (Own g)) t (VString s)
  = VString (s ++ String.concat "" (map (fun row => NumberToString
                       (Num.orZero (ToNumber (cell row chartMet)))) t)).
Proof.
  revert s. induction t as [|r t IH]; intros s Hs.
  - simpl. now rewrite append_empty_r.
  - change (fold_left (fun g r => chartNext chartMet r (Own g)) (r :: t)
              (VString s))
      with (fold_left (fun g r => chartNext chartMet r (Own g)) t
              (chartNext chartMet r (Own (VString s)))).
    destruct s as [|c s]; [congruence|].
    change (chartNext chartMet r (Own (VString (String c s))))
      with (VString (String c s ++ NumberToString (Num.orZero (ToNumber (cell r chartMet))))).
    rewrite IH by now apply append_nonempty.
    simpl map. rewrite concat_empty_cons.
    f_equal. apply append_associative.
Qed.

(** What [aggregated] holds under a key, by what the prototype answers for
    it. *)
Lemma chart_summed (nativeText : string -> string) (k : string)
  (r0 : IndexedRow) (t : list IndexedRow) :
  match inheritedText nativeText k with
  | None =>
      fold_left (fun g r => chartNext chartMet r (Own g)) t
                (chartNext chartMet r0 (inheritedRead nativeText k))
      = VNumber (fold_left (fun acc r => chartAbsorb chartMet r acc)
                           (r0 :: t) 0%float)
  | Some text =>
      text <> "" ->
      fold_left (fun g r => chartNext chartMet r (Own g)) t
                (chartNext chartMet r0 (inheritedRead nativeText k))
      = VString (text ++ String.concat "" (map (fun row => NumberToString
                       (Num.orZero (ToNumber (cell row chartMet)))) (r0 :: t)))
  end.
Proof.
  unfold inheritedRead.
  destruct (inheritedText nativeText k) as [text|].
  - intros Htext.
    change (chartNext chartMet r0 (Inherited text))
      with (VString (text ++ NumberToString (Num.orZero (ToNumber (cell r0 chartMet))))).
    rewrite chart_fold_text by now apply append_nonempty.
    simpl map. rewrite concat_empty_cons.
    f_equal. apply append_associative.
  - change (chartNext chartMet r0 Missing)
      with (VNumber (chartAbsorb chartMet r0 0%float)).
    exact (chart_fold_number t (chartAbsorb chartMet r0 0%float)).
Qed.

End BarFacts.



(** ** Day/month/year dates *)

Lemma split_nonempty (sep : ascii) (s : string) : Str.split sep s <> [].
Proof.
  destruct s as [|c s]; simpl; [discriminate|].
  destruct (Ascii.eqb c sep); [discriminate|].
  now destruct (Str.split sep s).
Qed.

Lemma splitHead_cons (sep c : ascii) (s : string) :
  Str.splitHead sep (String c s)
  = if Ascii.eqb c sep then EmptyString else String c (Str.splitHead sep s).
Proof.
  unfold Str.splitHead. simpl.
  destruct (Ascii.eqb c sep); [reflexivity|].
  pose proof (split_nonempty sep s).
  now destruct (Str.split sep s).
Qed.

Lemma splitHead_before_space (d rest : string) :
  Str.includes d " " = false ->
  Str.splitHead " " (d ++ String " " rest) = d.
Proof.
  induction d as [|c d IH]; intros Hd.
  - reflexivity.
  - simpl in Hd. apply orb_false_iff in Hd as [Hc Hd].
    change ((String c d ++ String " " rest)%string)
      with (String c (d ++ String " " rest)).
    rewrite splitHead_cons.
    destruct (Ascii.eqb c " ") eqn:E.
    + simpl in Hc. destruct d; discriminate.
    + now rewrite IH.
Qed.

Lemma splitHead_no_space (d : string) :
  Str.includes d " " = false -> Str.splitHead " " d = d.
Proof.
  induction d as [|c d IH]; intros Hd; [reflexivity|].
  simpl in Hd. apply orb_false_iff in Hd as [Hc Hd].
  rewrite splitHead_cons.
  destruct (Ascii.eqb c " ") eqn:E.
  - simpl in Hc. destruct d; discriminate.
  - now rewrite IH.
Qed.

Lemma local_midnight `{Runtime} (y m dt : float) (t : Z) :
  getTime (DateOfComponents y m dt) = Some t ->
  JSDate.TimeWithinDay (LocalTime t) = 0.
Proof.
  unfold DateOfComponents.
  destruct (Num.finiteInteger y) as [yi|]; [|discriminate].
  destruct (Num.finiteInteger m) as [mi|]; [|discriminate].
  destruct (Num.finiteInteger dt) as [di|]; [|discriminate].
  simpl. unfold JSDate.TimeClip.
  destruct (Z.abs _ <=? _); [|discriminate].
  intros [= <-]. unfold LocalTime, UTC, JSDate.MakeDate, JSDate.TimeWithinDay.
  replace (_ - LocalTZA + LocalTZA)
    with (JSDate.MakeDay (if (0 <=? yi) && (yi <=? 99) then 1900 + yi else yi)
                         mi di * JSDate.msPerDay) by lia.
  apply Z.mod_mul. unfold JSDate.msPerDay. lia.
Qed.

(** X19.  A date text of three slash-separated parts is never answered with
    [null], and whatever follows its first space is ignored: with or without
    a time of day after it, [parseBrazilianDate] gives the same Date object,
    which, when valid, is a local midnight. *)
Theorem X19_slash_dates_ignore_the_time_of_day
  `{Runtime} (d rest : string) :
  Str.includes d " " = false ->
  length (Str.split "/" d) = 3%nat ->
  exists date,
    parseBrazilianDate (VString d) = Some date
    /\ parseBrazilianDate (VString (d ++ String " " rest)) = Some date
    /\ forall t, getTime date = Some t ->
                 JSDate.TimeWithinDay (LocalTime t) = 0.
Proof.
  intros Hspace Hparts.
  assert (Hd : Str.truthy d = true).
  { destruct d; [simpl in Hparts; discriminate | reflexivity]. }
  assert (Hd' : Str.truthy (d ++ String " " rest) = true)
    by (destruct d; reflexivity).
  unfold parseBrazilianDate.
  rewrite Hd, Hd', splitHead_before_space, splitHead_no_space by exact Hspace.
  destruct (Str.split "/" d) as [|p0 [|p1 [|p2 [|p3 l]]]];
    try discriminate Hparts.
  eexists. split; [reflexivity|]. split; [reflexivity|].
  intros t. apply local_midnight.
Qed.

(** X19 on the sample: "15/03/2024 10:45" is 15 March, local midnight. *)
Lemma X19_slash_date_sample :
  exists date,
    @parseBrazilianDate (refRuntime Sample.brasilia) (VString "15/03/2024")
    = Some date
    /\ @parseBrazilianDate (refRuntime Sample.brasilia)
         (VString "15/03/2024 10:45") = Some date
    /\ forall t, getTime date = Some t ->
                 JSDate.TimeWithinDay (@LocalTime (refRuntime Sample.brasilia) t)
                 = 0.
Proof.
  apply (X19_slash_dates_ignore_the_time_of_day
           (H := refRuntime Sample.brasilia) "15/03/2024" "10:45").
  - reflexivity.
  - reflexivity.
Defined.

(** ** The chart selectors *)

(** X20.  The category and metric selectors offer sub-lists of the headers,
    in header order, that have no header in common; no offered header
    contains "id" once lower-cased; and the initial category and the initial
    metric are each a header of the dataset or the empty text. *)
Theorem X20_chart_selectors_offer_headers
  `{Runtime} (data : DashboardData) :
  sublist (categoricalHeaders data) (headers data)
  /\ sublist (metricHeaders data) (headers data)
  /\ (forall h, In h (categoricalHeaders data) ->
                In h (metricHeaders data) -> False)
  /\ Forall (fun h => Str.includes (toLowerCase h) "id" = false)
            (categoricalHeaders data ++ metricHeaders data)
  /\ (initialChartCat data = "" \/ In (initialChartCat data) (headers data))
  /\ (initialChartMet data = "" \/ In (initialChartMet data) (headers data)).
Proof.
  split; [apply filter_sublist|]. split; [apply filter_sublist|].
  split.
  { intros h Hc Hm. unfold categoricalHeaders, metricHeaders in *.
    apply filter_In in Hc as [_ Hc]. apply filter_In in Hm as [_ Hm].
    destruct (types data !! h) as [[|]|]; simpl in *; discriminate. }
  split.
  { apply List.Forall_forall. intros h Hh.
    apply in_app_iff in Hh as [Hh | Hh];
      apply filter_In in Hh as [_ Hh];
      apply andb_true_iff in Hh as [_ Hh];
      now apply negb_true_iff in Hh. }
  assert (Hhead : forall l : list string,
             sublist l (headers data) ->
             match List.head l with
             | Some h => In h (headers data)
             | None => True
             end).
  { intros [|h l] Hs; simpl; [exact I|].
    apply (sublist_In _ _ h Hs). now left. }
  assert (Hor : forall a b : option string,
             match a with Some h => In h (headers data) | None => True end ->
             match b with Some h => In h (headers data) | None => True end ->
             match orElse a b with
             | Some h => In h (headers data)
             | None => True
             end).
  { intros [a|] b Ha Hb; simpl; [destruct (Str.truthy a)|]; assumption. }
  assert (Hcol : forall keys hint,
             match findHeader data keys hint with
             | Some h => In h (headers data)
             | None => True
             end).
  { intros keys hint. destruct (findHeader data keys hint) eqn:E; [|exact I].
    now apply findHeader_In in E. }
  split.
  - unfold initialChartCat.
    pose proof (Hor (colProduto data)
                  (orElse (colCampaign data)
                          (List.head (categoricalHeaders data)))
                  (Hcol _ _)
                  (Hor _ _ (Hcol _ _)
                       (Hhead _ (filter_sublist _ _)))) as Hres.
    destruct (orElse (colProduto data) _); simpl; [now right | now left].
  - unfold initialChartMet.
    pose proof (Hor (colFaturamento data)
                  (List.head (metricHeaders data))
                  (Hcol _ _) (Hhead _ (filter_sublist _ _))) as Hres.
    destruct (orElse (colFaturamento data) _); simpl; [now right | now left].
Qed.
